(** * RideX: booking lifecycle, seat ledger and demand forecast

    A shallow embedding of the booking model (the Mongoose [bookingSchema]
    with its instance methods), of the booking route handlers
    ([backend/routes/bookings.js]), of the forecasting service
    ([forecasting/services/forecastService.js]) and of the mock fallback of
    the backend forecast route, followed by the properties established for
    them.

    Conventions of the embedding:
    - ObjectIds are natural numbers; the [_id] of a booking is its position
      in the bookings collection (documents are never deleted).
    - Instants ([Date]) are integers, milliseconds since the epoch.
    - A string is the sequence of its UTF-16 code units, one [ascii] per
      unit: the strings of the embedding are those whose units are below
      256, and their length is their number of units.
    - JavaScript numbers are exact rationals ([Q]); a division whose divisor
      may be zero produces a [number] that also has the values [Infinity],
      [-Infinity] and [NaN]. The code computes in binary64, which rounds
      after every operation; the bounds stated for the forecasts are those
      that rounding to nearest keeps (it is monotone and exact on the
      integers involved).
    - [Math.random()] is a stream of rationals read in call order.
    - A rejected promise or a thrown exception is an explicit [Thrown]
      outcome. *)

From Stdlib Require Import ZArith QArith Qround Qabs Lia Lqa Bool Ascii String.
From stdpp Require Import base option list strings gmap pretty.

Open Scope Z_scope.

(** ** JavaScript helpers *)

Module JS.

(** White space and line terminators of JavaScript among the code units
    below 256: TAB, LF, VT, FF, CR, SP and NBSP (U+00A0). They are what
    [String.prototype.trim] and the regular expression [\s] of the
    [trim] sanitizer remove. *)
Definition is_space (c : ascii) : bool :=
  match nat_of_ascii c with
  | 9%nat | 10%nat | 11%nat | 12%nat | 13%nat | 32%nat | 160%nat => true
  | _ => false
  end.

Fixpoint trimStartL (l : list ascii) : list ascii :=
  match l with
  | c :: l' => if is_space c then trimStartL l' else l
  | [] => []
  end.

Definition trimL (l : list ascii) : list ascii :=
  rev (trimStartL (rev (trimStartL l))).

Definition trim (s : string) : string :=
  string_of_list_ascii (trimL (list_ascii_of_string s)).

(** The first character of [l], if any, is not white space. *)
Definition headOk (l : list ascii) : Prop :=
  match l with
  | c :: _ => is_space c = false
  | [] => True
  end.

Definition notEmpty (s : string) : bool :=
  negb (String.eqb s "").

(** Outcome of a call that may throw (or of a promise that may reject). *)
Inductive Outcome : Type :=
| Resolved
| Thrown (msg : string).

Definition isThrown (o : Outcome) : bool :=
  match o with Thrown _ => true | Resolved => false end.

End JS.

(** ** The booking document ([bookingSchema]) *)

Module Booking.
Import JS.

Definition ObjectId := nat.

Inductive Status : Type :=
| pending | confirmed | cancelled | completed | no_show.

Inductive PaymentStatus : Type :=
| pay_pending | paid | refunded | failed.

Definition Status_eqb (a b : Status) : bool :=
  match a, b with
  | pending, pending | confirmed, confirmed | cancelled, cancelled
  | completed, completed | no_show, no_show => true
  | _, _ => false
  end.

Record PassengerDetails : Type := mkPassenger {
  pd_name : option string;
  pd_age : option Z;
  pd_gender : option string;
  pd_idNumber : option string;
  pd_idType : option string
}.

(** The fields that a request, the seed script or a method sets.
    [paymentMethod] (always its default) and [qrCode] (not required; the
    pre-save hook fills it with a fresh UUID) are left out.
    [bookingReference] is [None] while the document has none. *)
Record Booking : Type := mkBooking {
  user : ObjectId;
  route : ObjectId;
  schedule : ObjectId;
  vehicle : ObjectId;
  travelDate : Z;
  seatNumber : string;
  fare : Q;
  status : Status;
  paymentStatus : PaymentStatus;
  cancellationReason : option string;
  cancelledAt : option Z;
  cancelledBy : option ObjectId;
  specialRequests : option string;
  checkInTime : option Z;
  checkOutTime : option Z;
  passengerDetails : option PassengerDetails;
  bookingReference : option string
}.

Arguments mkBooking (_ _ _ _)%_nat _%_Z _%_string _%_Q.

(** Field assignments of the instance methods. *)
Definition set_status (s : Status) (b : Booking) : Booking :=
  mkBooking (user b) (route b) (schedule b) (vehicle b) (travelDate b)
    (seatNumber b) (fare b) s (paymentStatus b) (cancellationReason b)
    (cancelledAt b) (cancelledBy b) (specialRequests b) (checkInTime b)
    (checkOutTime b) (passengerDetails b) (bookingReference b).

Definition set_paymentStatus (p : PaymentStatus) (b : Booking) : Booking :=
  mkBooking (user b) (route b) (schedule b) (vehicle b) (travelDate b)
    (seatNumber b) (fare b) (status b) p (cancellationReason b)
    (cancelledAt b) (cancelledBy b) (specialRequests b) (checkInTime b)
    (checkOutTime b) (passengerDetails b) (bookingReference b).

(** [cancellationReason] has the [trim] setter of the schema. *)
Definition set_cancellation (reason : option string) (now : Z)
    (by_ : ObjectId) (b : Booking) : Booking :=
  mkBooking (user b) (route b) (schedule b) (vehicle b) (travelDate b)
    (seatNumber b) (fare b) (status b) (paymentStatus b)
    (trim <$> reason) (Some now) (Some by_) (specialRequests b)
    (checkInTime b) (checkOutTime b) (passengerDetails b)
    (bookingReference b).

Definition set_checkInTime (now : Z) (b : Booking) : Booking :=
  mkBooking (user b) (route b) (schedule b) (vehicle b) (travelDate b)
    (seatNumber b) (fare b) (status b) (paymentStatus b)
    (cancellationReason b) (cancelledAt b) (cancelledBy b)
    (specialRequests b) (Some now) (checkOutTime b) (passengerDetails b)
    (bookingReference b).

Definition set_checkOutTime (now : Z) (b : Booking) : Booking :=
  mkBooking (user b) (route b) (schedule b) (vehicle b) (travelDate b)
    (seatNumber b) (fare b) (status b) (paymentStatus b)
    (cancellationReason b) (cancelledAt b) (cancelledBy b)
    (specialRequests b) (checkInTime b) (Some now) (passengerDetails b)
    (bookingReference b).

(** *** Schema validators

    [schemaMin] is the value of [new Date()] in
    [min: [new Date(), 'Travel date cannot be in the past']]: it is
    evaluated once, when the schema is defined. [save] validates every
    path of the document, and it does so before the pre-save hook of the
    schema runs: a document without [bookingReference] fails the
    [required] validator of that path although the hook would generate
    one. *)

(** [maxlength: 500]: the length of a string is its number of code
    units. *)
Definition maxlength500 (o : option string) : bool :=
  match o with
  | Some s => (String.length s <=? 500)%nat
  | None => true
  end.

Definition genderEnum (g : string) : bool :=
  String.eqb g "male" || String.eqb g "female" || String.eqb g "other".

Definition idTypeEnum (t : string) : bool :=
  String.eqb t "aadhar" || String.eqb t "passport"
  || String.eqb t "driving_license" || String.eqb t "pan".

Definition passengerValid (p : PassengerDetails) : bool :=
  match pd_age p with
  | Some a => (0 <=? a) && (a <=? 120)
  | None => true
  end
  && match pd_gender p with
     | Some g => genderEnum g
     | None => true
     end
  && match pd_idType p with
     | Some t => idTypeEnum t
     | None => true
     end.

Definition travelDateValid (schemaMin : Z) (b : Booking) : bool :=
  schemaMin <=? travelDate b.

(** [required: true] on a string path: present and not empty. *)
Definition referencePresent (b : Booking) : bool :=
  match bookingReference b with
  | Some ref => notEmpty ref
  | None => false
  end.

(** The validators of the fields other than [travelDate], [seatNumber]
    and [bookingReference]. *)
Definition otherFieldsValid (b : Booking) : bool :=
  Qle_bool 0 (fare b)
  && maxlength500 (cancellationReason b)
  && maxlength500 (specialRequests b)
  && match passengerDetails b with
     | Some p => passengerValid p
     | None => true
     end.

Definition validate (schemaMin : Z) (b : Booking) : bool :=
  travelDateValid schemaMin b
  && notEmpty (seatNumber b)
  && referencePresent b
  && otherFieldsValid b.

(** The paths a validation error names (the keys of [error.errors]), in
    the order of the schema. *)
Definition invalidPaths (schemaMin : Z) (b : Booking) : list string :=
  (if travelDateValid schemaMin b then [] else ["travelDate"])
  ++ (if notEmpty (seatNumber b) then [] else ["seatNumber"])
  ++ (if Qle_bool 0 (fare b) then [] else ["fare"])
  ++ (if referencePresent b then [] else ["bookingReference"])
  ++ (if maxlength500 (cancellationReason b) then []
      else ["cancellationReason"])
  ++ (if maxlength500 (specialRequests b) then [] else ["specialRequests"])
  ++ match passengerDetails b with
     | Some p =>
         (if match pd_age p with
             | Some a => (0 <=? a) && (a <=? 120)
             | None => true
             end
          then [] else ["passengerDetails.age"])
         ++ (if match pd_gender p with
                | Some g => genderEnum g
                | None => true
                end
             then [] else ["passengerDetails.gender"])
         ++ (if match pd_idType p with
                | Some t => idTypeEnum t
                | None => true
                end
             then [] else ["passengerDetails.idType"])
     | None => []
     end.

(** [this.save()]: the promise resolves when the document passes the
    validators of the schema and rejects with a validation error
    otherwise (the error names the paths of [invalidPaths]). *)
Definition save (schemaMin : Z) (b : Booking) : Outcome :=
  if validate schemaMin b then Resolved else Thrown "ValidationError".

(** *** Instance methods

    Each method receives [this] and returns [this] after the call together
    with the outcome; a guard that throws leaves [this] as it was. *)

Definition cancel (schemaMin now : Z) (reason : option string)
    (cancelledBy_ : ObjectId) (this : Booking) : Booking * Outcome :=
  if Status_eqb (status this) completed then
    (this, Thrown "Cannot cancel completed booking")
  else if Status_eqb (status this) cancelled then
    (this, Thrown "Booking already cancelled")
  else
    let this' := set_cancellation reason now cancelledBy_
                   (set_status cancelled this) in
    (this', save schemaMin this').

Definition confirm (schemaMin : Z) (this : Booking) : Booking * Outcome :=
  if negb (Status_eqb (status this) pending) then
    (this, Thrown "Only pending bookings can be confirmed")
  else
    let this' := set_paymentStatus paid (set_status confirmed this) in
    (this', save schemaMin this').

Definition complete (schemaMin now : Z) (this : Booking)
    : Booking * Outcome :=
  if negb (Status_eqb (status this) confirmed) then
    (this, Thrown "Only confirmed bookings can be completed")
  else
    let this' := set_checkOutTime now (set_status completed this) in
    (this', save schemaMin this').

Definition checkIn (schemaMin now : Z) (this : Booking)
    : Booking * Outcome :=
  if negb (Status_eqb (status this) confirmed) then
    (this, Thrown "Only confirmed bookings can be checked in")
  else
    let this' := set_checkInTime now this in
    (this', save schemaMin this').

(** Terminal states of the lifecycle. *)
Definition terminal (s : Status) : bool :=
  match s with
  | cancelled | completed | no_show => true
  | pending | confirmed => false
  end.

(** Statuses that occupy a seat. *)
Definition active (s : Status) : bool :=
  match s with
  | pending | confirmed => true
  | _ => false
  end.

End Booking.

(** ** The booking routes ([backend/routes/bookings.js]) *)

Module BookingRoutes.
Import JS Booking.

(** The authenticated actor ([req.user]). *)
Record User : Type := mkUser {
  _id : ObjectId;
  role : string
}.

Record Vehicle : Type := mkVehicle {
  vehicle_id : ObjectId;
  capacity : Z
}.

(** A schedule with its vehicle populated. *)
Record Schedule : Type := mkSchedule {
  sched_route : ObjectId;
  sched_vehicle : Vehicle
}.

Arguments mkUser _%_nat _%_string.
Arguments mkVehicle _%_nat _%_Z.
Arguments mkSchedule _%_nat _.

(** The collections the handlers read and write. *)
Record Db : Type := mkDb {
  routes : gset ObjectId;
  schedules : gmap ObjectId Schedule;
  bookings : list Booking
}.

Definition set_bookings (bs : list Booking) (db : Db) : Db :=
  mkDb (routes db) (schedules db) bs.

(** [req.body] of [POST /api/bookings]. A field that fails the syntactic
    check of its validator ([isMongoId], [isISO8601], [isNumeric]) is
    [None]; [body_travelDate] is the instant [new Date(travelDate)]. *)
Record ReqBody : Type := mkReqBody {
  body_routeId : option ObjectId;
  body_scheduleId : option ObjectId;
  body_travelDate : option Z;
  body_seatNumber : string;
  body_fare : option Q;
  body_specialRequests : option string;
  body_passengerDetails : option PassengerDetails
}.

Inductive Response : Type :=
| Created201 (data : Booking)
| Ok200 (data : Booking)
| BadRequest400
| Forbidden403
| NotFound404 (message : string)
| Conflict409 (message code : string)
| Errored (msg : string).

(** The body after the validation chain, with its sanitizers applied. *)
Record Validated : Type := mkValidated {
  v_routeId : ObjectId;
  v_scheduleId : ObjectId;
  v_travelDate : Z;
  v_seatNumber : string;
  v_fare : Q;
  v_specialRequests : option string;
  v_passengerDetails : option PassengerDetails
}.

Arguments mkValidated (_ _)%_nat _%_Z _%_string _%_Q.

Definition passengerChain (p : PassengerDetails) : option PassengerDetails :=
  let name := trim <$> pd_name p in
  if match name with Some n => notEmpty n | None => true end
     && match pd_age p with
        | Some a => (0 <=? a) && (a <=? 120)
        | None => true
        end
     && match pd_gender p with
        | Some g => genderEnum g
        | None => true
        end
  then Some (mkPassenger name (pd_age p) (pd_gender p) (pd_idNumber p)
               (pd_idType p))
  else None.

(** [validationResult(req)]: [None] when [errors] is not empty. *)
Definition validateBody (body : ReqBody) : option Validated :=
  match body_routeId body, body_scheduleId body, body_travelDate body,
        body_fare body with
  | Some rid, Some sid, Some t, Some f =>
      let seat := trim (body_seatNumber body) in
      if notEmpty seat then
        match body_passengerDetails body with
        | None =>
            Some (mkValidated rid sid t seat f
                    (trim <$> body_specialRequests body) None)
        | Some p =>
            match passengerChain p with
            | Some p' =>
                Some (mkValidated rid sid t seat f
                        (trim <$> body_specialRequests body) (Some p'))
            | None => None
            end
        end
      else None
  | _, _, _, _ => None
  end.

(** The filter of [Booking.findOne] in the seat check. *)
Definition seatTaken (sid : ObjectId) (t : Z) (seat : string)
    (b : Booking) : bool :=
  (schedule b =? sid)%nat && (travelDate b =? t)
  && String.eqb (seatNumber b) seat && active (status b).

Definition findOne (sid : ObjectId) (t : Z) (seat : string)
    (bs : list Booking) : option Booking :=
  find (seatTaken sid t seat) bs.

Definition trimPassenger (p : PassengerDetails) : PassengerDetails :=
  mkPassenger (trim <$> pd_name p) (pd_age p) (pd_gender p)
    (trim <$> pd_idNumber p) (pd_idType p).

(** [new Booking({...})] of the handler: schema defaults and the [trim]
    setters. The handler passes no [bookingReference]. *)
Definition newBooking (u : User) (v : Validated) (sch : Schedule)
    : Booking :=
  mkBooking (_id u) (v_routeId v) (v_scheduleId v)
    (vehicle_id (sched_vehicle sch)) (v_travelDate v)
    (trim (v_seatNumber v)) (v_fare v) pending pay_pending None None None
    (trim <$> v_specialRequests v) None None
    (trimPassenger <$> v_passengerDetails v) None.

(** The unique index on [bookingReference]. *)
Definition referenceTaken (ref : option string) (bs : list Booking) : bool :=
  match ref with
  | Some r =>
      existsb (fun b => match bookingReference b with
                        | Some r' => String.eqb r' r
                        | None => false
                        end) bs
  | None => false
  end.

(** [await booking.save()] on a new document: the validators, then the
    pre-save hook (which leaves a reference that is present), then the
    insertion, which the unique index can refuse. No index covers the
    schedule, the travel date or the seat. *)
Definition insert (schemaMin : Z) (db : Db) (doc : Booking) : Db * Outcome :=
  match save schemaMin doc with
  | Resolved =>
      if referenceTaken (bookingReference doc) (bookings db)
      then (db, Thrown "E11000 duplicate key error")
      else (set_bookings (bookings db ++ [doc]) db, Resolved)
  | Thrown msg => (db, Thrown msg)
  end.

(** *** [POST /api/bookings], one [await] at a time

    A request in flight is a [Task]: the point of the handler it has
    reached. [step] runs it up to its next [await]. *)
Inductive Task : Type :=
| AwaitRoute (u : User) (v : Validated)
| AwaitSchedule (u : User) (v : Validated)
| AwaitFindOne (u : User) (v : Validated) (sch : Schedule)
| AwaitSave (doc : Booking)
| Finished (r : Response).

Definition start (u : User) (body : ReqBody) : Task :=
  match validateBody body with
  | None => Finished BadRequest400
  | Some v => AwaitRoute u v
  end.

Definition step (schemaMin : Z) (db : Db) (t : Task) : Db * Task :=
  match t with
  | AwaitRoute u v =>
      if bool_decide (v_routeId v ∈ routes db)
      then (db, AwaitSchedule u v)
      else (db, Finished (NotFound404 "Route not found"))
  | AwaitSchedule u v =>
      match schedules db !! v_scheduleId v with
      | Some sch =>
          if (sched_route sch =? v_routeId v)%nat
          then (db, AwaitFindOne u v sch)
          else (db, Finished (NotFound404
                 "Schedule not found or does not belong to this route"))
      | None =>
          (db, Finished (NotFound404
                 "Schedule not found or does not belong to this route"))
      end
  | AwaitFindOne u v sch =>
      match findOne (v_scheduleId v) (v_travelDate v) (v_seatNumber v)
              (bookings db) with
      | Some _ =>
          (db, Finished (Conflict409 "Seat already booked" "SEAT_OCCUPIED"))
      | None => (db, AwaitSave (newBooking u v sch))
      end
  | AwaitSave doc =>
      match insert schemaMin db doc with
      | (db', Resolved) => (db', Finished (Created201 doc))
      | (db', Thrown msg) => (db', Finished (Errored msg))
      end
  | Finished r => (db, t)
  end.

(** The handler running alone, from the first line to the response.
    When [save] resolves it populates the document, emits the update
    (the [io] object of the application is taken as set) and logs, none
    of which reads a field of a populated document, and answers 201;
    when [save] rejects the error handler answers with the error. *)
Definition postBooking (schemaMin : Z) (db : Db) (u : User)
    (body : ReqBody) : Db * Response :=
  match validateBody body with
  | None => (db, BadRequest400)
  | Some v =>
      if negb (bool_decide (v_routeId v ∈ routes db)) then
        (db, NotFound404 "Route not found")
      else
        match schedules db !! v_scheduleId v with
        | None =>
            (db, NotFound404
                   "Schedule not found or does not belong to this route")
        | Some sch =>
            if negb (sched_route sch =? v_routeId v)%nat then
              (db, NotFound404
                     "Schedule not found or does not belong to this route")
            else
              match findOne (v_scheduleId v) (v_travelDate v)
                      (v_seatNumber v) (bookings db) with
              | Some _ =>
                  (db, Conflict409 "Seat already booked" "SEAT_OCCUPIED")
              | None =>
                  let booking := newBooking u v sch in
                  match insert schemaMin db booking with
                  | (db', Resolved) => (db', Created201 booking)
                  | (db', Thrown msg) => (db', Errored msg)
                  end
              end
        end
  end.

(** Requests in flight together: [sched] names, turn by turn, the task
    that runs up to its next [await]. *)
Fixpoint interleave (schemaMin : Z) (sched : list nat)
    (st : Db * list Task) : Db * list Task :=
  match sched with
  | [] => st
  | i :: sched' =>
      let '(db, ts) := st in
      match ts !! i with
      | Some t =>
          let '(db', t') := step schemaMin db t in
          interleave schemaMin sched' (db', <[i := t']> ts)
      | None => interleave schemaMin sched' st
      end
  end.

(** The stages a reservation passes through: the document it is about
    to save has no reference, and it has not been answered 201. *)
Definition inFlight (t : Task) : Prop :=
  match t with
  | AwaitSave doc => referencePresent doc = false
  | Finished (Created201 _) => False
  | _ => True
  end.

(** *** Lifecycle routes *)

Definition isOwner (booking : Booking) (u : User) : bool :=
  (user booking =? _id u)%nat.

(** What the cancel route does once [booking.cancel] has resolved: the
    document is written; the handler then populates it and reads
    [booking.route._id] for the update it emits, which throws when the
    route document no longer exists ([populate] leaves [null]). *)
Definition afterCancel (db : Db) (id : ObjectId) (booking' : Booking)
    : Db * Response :=
  let db' := set_bookings (<[id := booking']> (bookings db)) db in
  if bool_decide (route booking' ∈ routes db) then (db', Ok200 booking')
  else (db', Errored "TypeError: Cannot read properties of null").

Definition putCancel (schemaMin now : Z) (db : Db) (id : ObjectId)
    (u : User) (reason : option string) : Db * Response :=
  match bookings db !! id with
  | None => (db, NotFound404 "Booking not found")
  | Some booking =>
      if negb (isOwner booking u) then (db, Forbidden403)
      else
        match cancel schemaMin now (trim <$> reason) (_id u) booking with
        | (booking', Resolved) => afterCancel db id booking'
        | (_, Thrown msg) => (db, Errored msg)
        end
  end.

Definition putConfirm (schemaMin : Z) (db : Db) (id : ObjectId)
    (u : User) : Db * Response :=
  match bookings db !! id with
  | None => (db, NotFound404 "Booking not found")
  | Some booking =>
      if negb (isOwner booking u) then (db, Forbidden403)
      else
        match confirm schemaMin booking with
        | (booking', Resolved) =>
            (set_bookings (<[id := booking']> (bookings db)) db,
             Ok200 booking')
        | (_, Thrown msg) => (db, Errored msg)
        end
  end.

Definition putCheckIn (schemaMin now : Z) (db : Db) (id : ObjectId)
    (u : User) : Db * Response :=
  match bookings db !! id with
  | None => (db, NotFound404 "Booking not found")
  | Some booking =>
      if negb (isOwner booking u) then (db, Forbidden403)
      else
        match checkIn schemaMin now booking with
        | (booking', Resolved) =>
            (set_bookings (<[id := booking']> (bookings db)) db,
             Ok200 booking')
        | (_, Thrown msg) => (db, Errored msg)
        end
  end.

(** Requests served one after the other; each carries the instant at
    which it is served. *)
Inductive Request : Type :=
| PostBooking (u : User) (body : ReqBody)
| PutCancel (id : ObjectId) (u : User) (reason : option string)
| PutConfirm (id : ObjectId) (u : User)
| PutCheckIn (id : ObjectId) (u : User).

Arguments PutCancel id%_nat u reason.
Arguments PutConfirm id%_nat u.
Arguments PutCheckIn id%_nat u.
Arguments putCancel (schemaMin now)%_Z db id%_nat u reason.
Arguments putConfirm schemaMin%_Z db id%_nat u.
Arguments putCheckIn (schemaMin now)%_Z db id%_nat u.

Definition handle (schemaMin now : Z) (db : Db) (r : Request)
    : Db * Response :=
  match r with
  | PostBooking u body => postBooking schemaMin db u body
  | PutCancel id u reason => putCancel schemaMin now db id u reason
  | PutConfirm id u => putConfirm schemaMin db id u
  | PutCheckIn id u => putCheckIn schemaMin now db id u
  end.

Fixpoint serve (schemaMin : Z) (db : Db) (rs : list (Z * Request)) : Db :=
  match rs with
  | [] => db
  | (now, r) :: rs' => serve schemaMin (handle schemaMin now db r).1 rs'
  end.

(** The seat-uniqueness invariant, as a decidable check of a
    collection: no two distinct documents occupy the same
    (schedule, travel date, seat). *)
Definition sameSeat (a b : Booking) : bool :=
  (schedule a =? schedule b)%nat && (travelDate a =? travelDate b)
  && String.eqb (seatNumber a) (seatNumber b).

Fixpoint seatUnique (bs : list Booking) : bool :=
  match bs with
  | [] => true
  | b :: bs' =>
      (negb (active (status b))
       || forallb (fun b' => negb (active (status b') && sameSeat b b')) bs')
      && seatUnique bs'
  end.

(** The same invariant over positions of the collection. *)
Definition SeatUnique (bs : list Booking) : Prop :=
  forall i j bi bj,
    (i < j)%nat -> bs !! i = Some bi -> bs !! j = Some bj ->
    active (status bi) = true -> active (status bj) = true ->
    sameSeat bi bj = false.

(** The answer of the confirm and check-in routes once their method has
    run: the store is updated when the promise resolves, the error is
    passed on when it rejects. *)
Definition respond (db : Db) (id : ObjectId) (r : Booking * Outcome)
    : Db * Response :=
  match r with
  | (booking', Resolved) =>
      (set_bookings (<[id := booking']> (bookings db)) db, Ok200 booking')
  | (_, Thrown msg) => (db, Errored msg)
  end.

(** The same for the cancel route, which reads the populated route. *)
Definition respondCancel (db : Db) (id : ObjectId) (r : Booking * Outcome)
    : Db * Response :=
  match r with
  | (booking', Resolved) => afterCancel db id booking'
  | (_, Thrown msg) => (db, Errored msg)
  end.

(** *** The seed script ([seedData])

    A row of [bookings.json] whose user, route, schedule and vehicle were
    found; [row_reference] is the reference after the [uppercase]
    setter. *)
Record SeedRow : Type := mkSeedRow {
  row_user : ObjectId;
  row_route : ObjectId;
  row_schedule : ObjectId;
  row_vehicle : ObjectId;
  row_travelDate : Z;
  row_seatNumber : string;
  row_fare : Q;
  row_status : Status;
  row_paymentStatus : PaymentStatus;
  row_reference : option string;
  row_specialRequests : option string
}.

Arguments mkSeedRow (_ _ _ _)%_nat _%_Z _%_string _%_Q.

(** [new Booking({...})] of the script. *)
Definition seedDocument (row : SeedRow) : Booking :=
  mkBooking (row_user row) (row_route row) (row_schedule row)
    (row_vehicle row) (row_travelDate row) (trim (row_seatNumber row))
    (row_fare row) (row_status row) (row_paymentStatus row) None None None
    (trim <$> row_specialRequests row) None None None (row_reference row).

(** The loop over the rows: each document is saved in turn; an error
    ends the script and leaves what was stored before it. *)
Fixpoint seedBookings (schemaMin : Z) (db : Db) (rows : list SeedRow)
    : Db * Outcome :=
  match rows with
  | [] => (db, Resolved)
  | row :: rows' =>
      match insert schemaMin db (seedDocument row) with
      | (db', Resolved) => seedBookings schemaMin db' rows'
      | (db', Thrown msg) => (db', Thrown msg)
      end
  end.

(** The script empties the collection first ([Booking.deleteMany]). *)
Definition seedData (schemaMin : Z) (db : Db) (rows : list SeedRow)
    : Db * Outcome :=
  seedBookings schemaMin (set_bookings [] db) rows.


(** The labels [`Seat ${i}`], [i] from 1 to the vehicle's capacity, that
    the available-seats route ([backend/routes/schedules.js]) enumerates. *)
Definition seatLabels (totalSeats : Z) : list string :=
  (fun i => "Seat " +:+ pretty (Z.of_nat i)) <$> seq 1 (Z.to_nat totalSeats).


Definition isAdmin (u : User) : bool := String.eqb (role u) "admin".

End BookingRoutes.

(** ** JavaScript numbers, [parseInt], [moment] and [Math.random] *)

Module Num.
Import JS.

Local Open Scope Q_scope.

(** The result of an arithmetic expression whose divisor may be zero. *)
Inductive number : Type :=
| Fin (q : Q)
| PInf
| NInf
| NaN.

(** [a / b] on finite operands. *)
Definition div (a b : Q) : number :=
  if Qeq_bool b 0 then
    match a ?= 0 with
    | Gt => PInf
    | Lt => NInf
    | Eq => NaN
    end
  else Fin (a / b).

(** [x * k] for a finite factor [k]. *)
Definition mul (x : number) (k : Q) : number :=
  match x with
  | Fin q => Fin (q * k)
  | NaN => NaN
  | PInf =>
      match k ?= 0 with Gt => PInf | Lt => NInf | Eq => NaN end
  | NInf =>
      match k ?= 0 with Gt => NInf | Lt => PInf | Eq => NaN end
  end.

Definition floor (q : Q) : Z := Qfloor q.

(** [Math.round]: the nearest integer, ties towards +Infinity. *)
Definition round (q : Q) : Z := Qfloor (q + (1 # 2)).

Definition roundN (x : number) : number :=
  match x with
  | Fin q => Fin (inject_Z (round q))
  | _ => x
  end.

Definition maxQ (a b : Q) : Q := if Qle_bool a b then b else a.
Definition minQ (a b : Q) : Q := if Qle_bool a b then a else b.

(** [Math.min(a, x)] for a finite [a]. *)
Definition minN (a : Q) (x : number) : number :=
  match x with
  | Fin q => Fin (minQ a q)
  | PInf => Fin a
  | NInf => NInf
  | NaN => NaN
  end.

(** [x > k] and [x < k]; a comparison with [NaN] is false. *)
Definition gtN (x : number) (k : Q) : bool :=
  match x with
  | Fin q => negb (Qle_bool q k)
  | PInf => true
  | NInf | NaN => false
  end.

Definition ltN (x : number) (k : Q) : bool :=
  match x with
  | Fin q => negb (Qle_bool k q)
  | NInf => true
  | PInf | NaN => false
  end.

Definition gtQ (a b : Q) : bool := negb (Qle_bool a b).
Definition ltQ (a b : Q) : bool := negb (Qle_bool b a).

(** [lo <= x <= hi] for a [number]: false on the non-finite values. *)
Definition within (lo hi : Q) (x : number) : bool :=
  match x with
  | Fin q => Qle_bool lo q && Qle_bool q hi
  | _ => false
  end.

(** A value received as an optional argument or query parameter. *)
Inductive Value : Type :=
| Undefined
| Number (n : Z)
| Str (s : string).

Definition truthy (v : Value) : bool :=
  match v with
  | Undefined => false
  | Number n => negb (n =? 0)%Z
  | Str s => notEmpty s
  end.

Definition digitOf (radix : Z) (c : ascii) : option Z :=
  let n := Z.of_nat (nat_of_ascii c) in
  let d :=
    if ((48 <=? n) && (n <=? 57))%Z then Some (n - 48)%Z
    else if ((97 <=? n) && (n <=? 122))%Z then Some (n - 87)%Z
    else if ((65 <=? n) && (n <=? 90))%Z then Some (n - 55)%Z
    else None in
  match d with
  | Some d => if (d <? radix)%Z then Some d else None
  | None => None
  end.

Fixpoint digits (radix : Z) (acc : option Z) (l : list ascii) : option Z :=
  match l with
  | c :: l' =>
      match digitOf radix c with
      | Some d => digits radix (Some (radix * default 0%Z acc + d)%Z) l'
      | None => acc
      end
  | [] => acc
  end.

(** [parseInt(s)]: [None] is [NaN]. *)
Definition parseIntStr (s : string) : option Z :=
  let l := trimStartL (list_ascii_of_string s) in
  let '(sign, l) :=
    match l with
    | "-"%char :: l' => ((-1)%Z, l')
    | "+"%char :: l' => (1%Z, l')
    | _ => (1%Z, l)
    end in
  let '(radix, l) :=
    match l with
    | "0"%char :: "x"%char :: l' => (16%Z, l')
    | "0"%char :: "X"%char :: l' => (16%Z, l')
    | _ => (10%Z, l)
    end in
  (fun n => (sign * n)%Z) <$> digits radix None l.

Definition parseInt (v : Value) : option Z :=
  match v with
  | Undefined => None
  | Number n => Some n
  | Str s => parseIntStr s
  end.

End Num.

Module Moment.

(** A [moment] at day granularity: the number of days since 1970-01-01,
    or [None] for an invalid date. *)
Definition t := option Z.

(** Calendar month (1..12) of a day number, proleptic Gregorian. *)
Definition civilMonth (z : Z) : Z :=
  let z := z + 719468 in
  let era := z / 146097 in
  let doe := z - era * 146097 in
  let yoe := (doe - doe / 1460 + doe / 36524 - doe / 146096) / 365 in
  let doy := doe - (365 * yoe + yoe / 4 - yoe / 100) in
  let mp := (5 * doy + 2) / 153 in
  if mp <? 10 then mp + 3 else mp - 9.

(** Day number of a calendar date ([m] in 1..12). *)
Definition ymd (y m d : Z) : t :=
  let y := if m <=? 2 then y - 1 else y in
  let era := y / 400 in
  let yoe := y - era * 400 in
  let doy := (153 * (if 2 <? m then m - 3 else m + 9) + 2) / 5 + d - 1 in
  let doe := yoe * 365 + yoe / 4 - yoe / 100 + doy in
  Some (era * 146097 + doe - 719468).

(** [month()]: 0 (January) .. 11 (December); [None] is [NaN]. *)
Definition month (m : t) : option Z :=
  (fun z => civilMonth z - 1) <$> m.

(** [day()]: 0 (Sunday) .. 6 (Saturday); 1970-01-01 was a Thursday. *)
Definition day (m : t) : option Z :=
  (fun z => (z + 4) mod 7) <$> m.

Definition subtractDays (n : Z) (m : t) : t :=
  (fun z => z - n) <$> m.

Definition addDays (n : Z) (m : t) : t :=
  (fun z => z + n) <$> m.

(** [d.isBetween(start, end, 'day', '[]')]. *)
Definition isBetween (d start end_ : t) : bool :=
  match d, start, end_ with
  | Some d, Some s, Some e => (s <=? d) && (d <=? e)
  | _, _, _ => false
  end.

(** [x === k] for the result of [month()] or [day()]. *)
Definition equals (x : option Z) (k : Z) : bool :=
  match x with
  | Some v => v =? k
  | None => false
  end.

Definition ge (x : option Z) (k : Z) : bool :=
  match x with Some v => k <=? v | None => false end.

Definition le (x : option Z) (k : Z) : bool :=
  match x with Some v => v <=? k | None => false end.

End Moment.

Module Random.

(** A computation that calls [Math.random()]: it receives the stream of
    values and the number of calls made so far. *)
Definition M (A : Type) : Type := (nat -> Q) -> nat -> A * nat.

Definition ret {A : Type} (a : A) : M A := fun _ i => (a, i).

Definition bind {A B : Type} (m : M A) (f : A -> M B) : M B :=
  fun random i => let '(a, j) := m random i in f a random j.

Definition Math_random : M Q := fun random i => (random i, S i).

Fixpoint mapM {A B : Type} (f : A -> M B) (l : list A) : M (list B) :=
  match l with
  | [] => ret []
  | a :: l' =>
      bind (f a) (fun b => bind (mapM f l') (fun bs => ret (b :: bs)))
  end.

(** Every value of the stream is in [0, 1). *)
Definition unitInterval (random : nat -> Q) : Prop :=
  forall i, (0 <= random i)%Q /\ (random i < 1)%Q.

End Random.

Notation "'let*' x ':=' m 'in' k" :=
  (Random.bind m (fun x => k))
  (at level 10, x name, m at level 100, k at level 200).

(** ** The forecasting service ([forecastService.js]) *)

Module Forecast.
Import JS Num Random.

(** One row of [historicalData]. [date] is the day [moment(d.date)]
    denotes; the numeric columns are integers. *)
Record Sample : Type := mkSample {
  route : string;
  date : Moment.t;
  hour : Z;
  bookings : Z;
  capacity : Z
}.

Record Prediction : Type := mkPrediction {
  p_route : string;
  datetime : Moment.t;
  predicted_count : Z;
  p_capacity : Z;
  utilization_pct : number;
  confidence : Q;
  explanation : list string
}.

(** An entry of the heatmap or of a trend: [index] is its [hour] or
    [day] key. *)
Record Point : Type := mkPoint {
  index : Z;
  utilization : number;
  p_bookings : Z
}.

Record HeatmapRow : Type := mkRow {
  row_day : string;
  row_hours : list Point
}.

Record Analytics : Type := mkAnalytics {
  routeId : string;
  period_start : Moment.t;
  period_end : Moment.t;
  average : number;
  peak : number;
  low : number;
  heatmap : list HeatmapRow;
  weekly : list Point;
  hourly : list Point;
  recommendations : list string
}.

(** Result of a block that may throw. *)
Inductive Result (A : Type) : Type :=
| Returned (a : A)
| Raised (err : string).
Arguments Returned {A} a.
Arguments Raised {A} err.

Definition andThen {A B : Type} (r : Result A) (f : A -> Result B)
    : Result B :=
  match r with
  | Returned a => f a
  | Raised e => Raised e
  end.

(** [data.reduce((sum, d) => sum + f(d), 0)]. *)
Definition sumOf (f : Sample -> Z) (data : list Sample) : Z :=
  foldl (fun sum d => sum + f d) 0 data.

(** [sum / data.length], for a non-empty [data]. *)
Definition mean (f : Sample -> Z) (data : list Sample) : Q :=
  (inject_Z (sumOf f data) / inject_Z (Z.of_nat (length data)))%Q.

Definition isEmpty {A : Type} (l : list A) : bool :=
  match l with [] => true | _ => false end.

Definition calculateTrend (data : list Sample) : Q :=
  if (length data <? 2)%nat then 0%Q
  else
    let recent := drop (length data - 7) data in
    let older := take (length data - 7) data in
    if isEmpty recent || isEmpty older then 0%Q
    else (mean bookings recent - mean bookings older)%Q.

Definition getSeasonalFactor (date_ : Moment.t) : Z :=
  let month := Moment.month date_ in
  let dayOfWeek := Moment.day date_ in
  if Moment.equals month 11 || Moment.equals month 0 then 5
  else if Moment.ge month 4 && Moment.le month 8 then -3
  else if Moment.equals dayOfWeek 0 || Moment.equals dayOfWeek 6 then -5
  else 0.

Definition generateExplanation (predictedBookings : Z) (capacity_ : Q)
    (trend : Q) (date_ : Moment.t) : list string :=
  (if gtQ trend 5 then ["Increasing ridership trend detected"]
   else if ltQ trend (-5) then ["Decreasing ridership trend detected"]
   else [])
  ++ (if Moment.equals (Moment.day date_) 0
         || Moment.equals (Moment.day date_) 6
      then ["Weekend typically shows 30% lower ridership"]
      else ["Weekday peak hours expected"])
  ++ (if gtN (div (inject_Z predictedBookings) capacity_) (8 # 10)
      then ["High utilization expected - consider additional capacity"]
      else [])
  ++ ["Weather and events may affect actual ridership"].

Definition generateMockPrediction (route_ : string) (date_ : Moment.t)
    : M Prediction :=
  let* r1 := Math_random in
  let baseBookings := (20 + r1 * 30)%Q in
  let* r2 := Math_random in
  let capacity_ := 50 + floor (r2 * 50) in
  let utilization_ :=
    roundN (mul (div baseBookings (inject_Z capacity_)) 100) in
  let* r3 := Math_random in
  ret (mkPrediction route_ date_ (floor baseBookings) capacity_
         (minN 100 utilization_) (70 + r3 * 20)%Q
         [ "Based on historical patterns for this route";
           "Weekend traffic typically shows 20% higher utilization";
           "Weather conditions may affect ridership" ]).

(** [hour ? parseInt(hour) : 9]; [None] is [NaN]. *)
Definition targetHourOf (hour_ : Value) : option Z :=
  if truthy hour_ then parseInt hour_ else Some 9.

Definition sameSlot (sameDayOfWeek : option Z) (targetHour : option Z)
    (d : Sample) : bool :=
  match Moment.day (date d), sameDayOfWeek, targetHour with
  | Some dd, Some td, Some h => (dd =? td) && (hour d =? h)
  | _, _, _ => false
  end.

(** No statement of the [try] block throws, so the [catch] clause of
    the source (which returns the same mock prediction) is not entered. *)
Definition getPrediction (historicalData : list Sample) (route_ : string)
    (date_ : Moment.t) (hour_ : Value) : M Prediction :=
  let targetDate := date_ in
  let targetHour := targetHourOf hour_ in
  let routeData :=
    filter (fun d => String.eqb (route d) route_ = true) historicalData in
  if isEmpty routeData then generateMockPrediction route_ date_
  else
    let sameDayOfWeek := Moment.day targetDate in
    let sameHourData :=
      filter (fun d => sameSlot sameDayOfWeek targetHour d = true)
        routeData in
    if isEmpty sameHourData then generateMockPrediction route_ date_
    else
      let avgBookings := mean bookings sameHourData in
      let avgCapacity := mean capacity sameHourData in
      let trend := calculateTrend sameHourData in
      let seasonalFactor := getSeasonalFactor targetDate in
      let* r := Math_random in
      let predictedBookings :=
        Z.max 0 (floor (avgBookings + trend + (r - (1 # 2)) * 10
                        + inject_Z seasonalFactor)%Q) in
      let utilization_ :=
        roundN (mul (div (inject_Z predictedBookings) avgCapacity) 100) in
      let confidence_ := maxQ 60 (100 - Qabs trend * 2)%Q in
      ret (mkPrediction route_ targetDate predictedBookings
             (floor avgCapacity) (minN 100 utilization_)
             (minQ 95 confidence_)
             (generateExplanation predictedBookings avgCapacity trend
                targetDate)).

(** *** Historical data *)

Definition mockRoutes : list string :=
  [ "Central Station to Airport Express";
    "City Center to IT Hub";
    "University to Mall District";
    "Residential to Business District" ].

Definition mockSample (date_ : Moment.t) (route_ : string) (hour_ : Z)
    : M Sample :=
  let* r1 := Math_random in
  let baseBookings :=
    if ((7 <=? hour_) && (hour_ <=? 9)) || ((17 <=? hour_) && (hour_ <=? 19))
    then (40 + r1 * 20)%Q
    else if (10 <=? hour_) && (hour_ <=? 16) then (15 + r1 * 15)%Q
    else (5 + r1 * 10)%Q in
  let baseBookings :=
    if Moment.equals (Moment.day date_) 0
       || Moment.equals (Moment.day date_) 6
    then (baseBookings * (6 # 10))%Q
    else baseBookings in
  let* r2 := Math_random in
  let capacity_ := 50 + floor (r2 * 50) in
  let* r3 := Math_random in
  let bookings_ := floor (baseBookings + (r3 - (1 # 2)) * 10)%Q in
  ret (mkSample route_ date_ hour_ (Z.max 0 bookings_) capacity_).

Definition generateMockHistoricalData (now : Moment.t) : M (list Sample) :=
  let startDate := Moment.subtractDays 30 now in
  let* perDay :=
    mapM (fun i =>
            let date_ := Moment.addDays (Z.of_nat i) startDate in
            let* perRoute :=
              mapM (fun route_ =>
                      mapM (mockSample date_ route_)
                        ((fun h => Z.of_nat h) <$> seq 6 16))
                mockRoutes in
            ret (concat perRoute))
      (seq 0 30) in
  ret (concat perDay).

(** The seed file [datasets/forecast_seed.csv]: absent, unreadable, or
    parsed into rows. *)
Inductive SeedFile : Type :=
| Absent
| Unreadable
| Rows (rows : list Sample).

Definition loadHistoricalData (file : SeedFile) (now : Moment.t)
    : M (list Sample) :=
  match file with
  | Rows rows => ret rows
  | Absent | Unreadable => generateMockHistoricalData now
  end.

(** *** Analytics *)

Definition hours24 : list Z := Z.of_nat <$> seq 0 24.

Definition dayNames : list string :=
  ["monday"; "tuesday"; "wednesday"; "thursday"; "friday"; "saturday";
   "sunday"].

Definition cellOf (key : Z) (slice : list Sample) : Point :=
  let avgBookings := if isEmpty slice then 0%Q else mean bookings slice in
  let avgCapacity := if isEmpty slice then 50%Q else mean capacity slice in
  mkPoint key (roundN (mul (div avgBookings avgCapacity) 100))
    (round avgBookings).

Definition generateHeatmapData (data : list Sample) : list HeatmapRow :=
  (fun day_ =>
     mkRow day_
       ((fun hour_ =>
           cellOf hour_ (filter (fun d => (hour d =? hour_) = true) data))
        <$> hours24))
  <$> dayNames.

Definition generateWeeklyTrend (data : list Sample) : list Point :=
  (fun day_ =>
     cellOf day_
       (filter (fun d => Moment.equals (Moment.day (date d)) day_ = true)
          data))
  <$> [0; 1; 2; 3; 4; 5; 6].

Definition referenceError : string :=
  "ReferenceError: dayData is not defined".

(** In [generateHourlyTrend] the mean capacity of a non-empty slice is
    divided by [dayData.length]; no binding of [dayData] is in scope, so
    evaluating that branch throws a [ReferenceError]. *)
Fixpoint hourlyLoop (data : list Sample) (hours : list Z)
    : Result (list Point) :=
  match hours with
  | [] => Returned []
  | hour_ :: hours' =>
      let hourData := filter (fun d => (hour d =? hour_) = true) data in
      if isEmpty hourData then
        andThen (hourlyLoop data hours')
          (fun rest => Returned (cellOf hour_ hourData :: rest))
      else Raised referenceError
  end.

Definition generateHourlyTrend (data : list Sample) : Result (list Point) :=
  hourlyLoop data hours24.

Definition range (start end_ : Z) : string :=
  pretty start +:+ ":00-" +:+ pretty (end_ + 1) +:+ ":00".

Fixpoint rangesLoop (start end_ : Z) (rest : list Point) : list string :=
  match rest with
  | [] => [range start end_]
  | p :: rest' =>
      if index p =? end_ + 1 then rangesLoop start (index p) rest'
      else range start end_ :: rangesLoop (index p) (index p) rest'
  end.

Definition getPeakHourRanges (peakHours : list Point)
    : Result (list string) :=
  match peakHours with
  | [] => Raised "TypeError: Cannot read properties of undefined"
  | p :: rest => Returned (rangesLoop (index p) (index p) rest)
  end.

Fixpoint join (sep : string) (l : list string) : string :=
  match l with
  | [] => ""
  | [s] => s
  | s :: l' => s +:+ sep +:+ join sep l'
  end.

Definition generateRecommendations (avgUtilization : number)
    (data : list Sample) : Result (list string) :=
  let r1 :=
    if gtN avgUtilization 80
    then ["High utilization detected - consider increasing capacity"]
    else [] in
  let r2 :=
    if ltN avgUtilization 30
    then ["Low utilization - consider optimizing schedule"]
    else [] in
  andThen (generateHourlyTrend data) (fun hourlyData =>
    let peakHours :=
      filter (fun h => gtN (utilization h) 70 = true) hourlyData in
    andThen
      (if isEmpty peakHours then Returned []
       else
         andThen (getPeakHourRanges peakHours) (fun peakHourRanges =>
           Returned ["Peak utilization during: "
                     +:+ join ", " peakHourRanges]))
      (fun r3 =>
         Returned
           (r1 ++ r2 ++ r3
            ++ ["Monitor weather and events for demand fluctuations"]))).

Definition mockPoint (key : Z) (uSpan uBase bSpan bBase : Z) : M Point :=
  let* r1 := Math_random in
  let* r2 := Math_random in
  ret (mkPoint key
         (Fin (inject_Z (floor (r1 * inject_Z uSpan) + uBase)))
         (floor (r2 * inject_Z bSpan) + bBase)).

Definition generateMockHeatmap : M (list HeatmapRow) :=
  mapM (fun day_ =>
          let* cells := mapM (fun hour_ => mockPoint hour_ 100 0 50 10)
                          hours24 in
          ret (mkRow day_ cells))
    dayNames.

Definition generateMockWeeklyTrend : M (list Point) :=
  mapM (fun i => mockPoint i 60 20 100 20) (Z.of_nat <$> seq 0 7).

Definition generateMockHourlyTrend : M (list Point) :=
  mapM (fun i => mockPoint i 80 10 30 5) hours24.

Definition generateMockAnalytics (now : Moment.t) : M Analytics :=
  let* heatmap_ := generateMockHeatmap in
  let* weekly_ := generateMockWeeklyTrend in
  let* hourly_ := generateMockHourlyTrend in
  ret (mkAnalytics "mock-route" (Moment.subtractDays 30 now) now
         (Fin 65) (Fin 85) (Fin 35) heatmap_ weekly_ hourly_
         [ "Consider adding more vehicles during peak hours (7-9 AM, 5-7 PM)";
           "Route shows consistent high utilization on weekdays";
           "Weekend ridership is 40% lower than weekdays" ]).

Definition inWindow (start end_ : Moment.t) (d : Sample) : bool :=
  Moment.isBetween (date d) start end_.

(** The [try] block of [getAnalytics], after the early return for an
    empty window. An omitted (or empty) bound is [None]. *)
Definition analyticsBody (routeId_ : string) (start end_ : Moment.t)
    (routeData : list Sample) : Result Analytics :=
  let totalBookings := sumOf bookings routeData in
  let avgCapacity := mean capacity routeData in
  let avgUtilization :=
    mul (div (inject_Z totalBookings)
           (inject_Z (Z.of_nat (length routeData)) * avgCapacity)%Q) 100 in
  let heatmap_ := generateHeatmapData routeData in
  let weekly_ := generateWeeklyTrend routeData in
  andThen (generateHourlyTrend routeData) (fun hourly_ =>
    andThen (generateRecommendations avgUtilization routeData)
      (fun recs =>
         Returned
           (mkAnalytics routeId_ start end_
              (roundN avgUtilization)
              (roundN (mul avgUtilization (13 # 10)))
              (roundN (mul avgUtilization (7 # 10)))
              heatmap_ weekly_ hourly_ recs))).

Definition getAnalytics (historicalData : list Sample) (now : Moment.t)
    (routeId_ : string) (startDate endDate : option Moment.t)
    : M Analytics :=
  let start := match startDate with
               | Some s => s
               | None => Moment.subtractDays 30 now
               end in
  let end_ := match endDate with Some e => e | None => now end in
  let routeData :=
    filter (fun d => inWindow start end_ d = true) historicalData in
  if isEmpty routeData then generateMockAnalytics now
  else
    match analyticsBody routeId_ start end_ routeData with
    | Returned a => ret a
    | Raised _ => generateMockAnalytics now
    end.

(** What the aggregation formulas of [getAnalytics] give for the
    utilization block. *)
Definition utilizationFormula (routeData : list Sample)
    : number * number * number :=
  let avgUtilization :=
    mul (div (inject_Z (sumOf bookings routeData))
           (inject_Z (Z.of_nat (length routeData))
            * mean capacity routeData)%Q) 100 in
  (roundN avgUtilization, roundN (mul avgUtilization (13 # 10)),
   roundN (mul avgUtilization (7 # 10))).

(** The samples of a route, and the samples of a window. *)
Definition inRoute (route_ : string) (historicalData : list Sample)
    : list Sample :=
  filter (fun d => String.eqb (route d) route_ = true) historicalData.

Definition inPeriod (start end_ : Moment.t) (historicalData : list Sample)
    : list Sample :=
  filter (fun d => inWindow start end_ d = true) historicalData.

(** The shape of an analytics response: a 7 x 24 heatmap, 7 weekly and
    24 hourly points, at least one recommendation. *)
Definition wellShaped (a : Analytics) : Prop :=
  length (heatmap a) = 7%nat
  /\ Forall (fun row => length (row_hours row) = 24%nat) (heatmap a)
  /\ length (weekly a) = 7%nat
  /\ length (hourly a) = 24%nat
  /\ recommendations a <> [].

End Forecast.

(** ** The backend forecast route ([GET /api/forecast/predict]) *)

Module ForecastRoute.
Import JS Num Random.

(** [upstream] is the reply of the forecasting service, [None] when the
    [axios] call throws (unreachable, timeout, error status). The second
    component tells whether the response carries the mock-data note. *)
Definition predict (upstream : option Forecast.Prediction)
    (route_ : string) (date_ : Moment.t) : M (Forecast.Prediction * bool) :=
  match upstream with
  | Some data => ret (data, false)
  | None =>
      let* r1 := Math_random in
      let* r2 := Math_random in
      let* r3 := Math_random in
      ret (Forecast.mkPrediction route_ date_
             (floor (r1 * 50) + 10) 60
             (Fin (inject_Z (floor (r2 * 80) + 20)))
             (inject_Z (floor (r3 * 30) + 70))
             [ "Based on historical patterns for this route";
               "Weekend traffic typically shows 20% higher utilization";
               "Weather conditions may affect ridership" ],
           true)
  end.

End ForecastRoute.

(** ** The controller of the forecasting service
    ([forecasting/controllers/forecastController.js]) *)

Module ForecastController.
Import JS Num Random Forecast.

(** [req.query]: a parameter is absent or a string. *)
Record Query : Type := mkQuery {
  q_route : option string;
  q_date : option string;
  q_hour : option string
}.

(** A parameter as a JavaScript value; an absent one is [undefined]. *)
Definition param (p : option string) : Value :=
  match p with
  | Some s => Str s
  | None => Undefined
  end.

Inductive Reply : Type :=
| Status400 (message : string)
| Success (data : Prediction).

Section Predict.

(** How [moment] reads the text of a date. *)
Variable moment : string -> Moment.t.

(** [predict]: the service is called with the three parameters as they
    arrived. Its promise always resolves, so the [catch] clause (status
    500) is not entered. *)
Definition predict (historicalData : list Sample) (q : Query) : M Reply :=
  match q_route q, q_date q with
  | Some route_, Some date_ =>
      if negb (truthy (Str route_)) || negb (truthy (Str date_))
      then ret (Status400 "Route and date are required")
      else
        let* prediction :=
          getPrediction historicalData route_ (moment date_)
            (param (q_hour q)) in
        ret (Success prediction)
  | _, _ => ret (Status400 "Route and date are required")
  end.

End Predict.

End ForecastController.

(** ** Fixtures *)

Module Fixtures.
Import JS Booking BookingRoutes Num Forecast.

Definition sampleBooking (s : Status) : Booking :=
  mkBooking 1 10 20 30 1741564800000 "Seat 1" 20 s pay_pending
    None None None None None None None (Some "STSEED0001").

Definition db0 : Db :=
  mkDb {[10%nat]} {[20%nat := mkSchedule 10 (mkVehicle 30 50)]} [].

Definition alice : User := mkUser 1 "user".
Definition bob : User := mkUser 2 "user".
Definition root : User := mkUser 99 "admin".

(** Seat ["Seat 1"] on schedule 20 for 2025-03-10, fare 20. *)
Definition body0 : ReqBody :=
  mkReqBody (Some 10%nat) (Some 20%nat) (Some 1741564800000) "Seat 1"
    (Some 20%Q) None None.

(** A stored booking of that seat. *)
Definition booking0 (owner : ObjectId) : Booking :=
  mkBooking owner 10 20 30 1741564800000 "Seat 1" 20 pending pay_pending
    None None None None None None None (Some "STSEED0001").
Arguments booking0 _%_nat.

Definition db1 : Db := set_bookings [booking0 1] db0.

(** A stored pending booking of [owner] for [seat] on schedule 20. *)
Definition stored (owner : ObjectId) (seat ref : string) : Booking :=
  mkBooking owner 10 20 30 1741564800000 seat 20 pending pay_pending
    None None None None None None None (Some ref).
Arguments stored _%_nat (_ _)%_string.

(** The store with a second booking, of bob. *)
Definition db2 (seat : string) : Db :=
  set_bookings [booking0 1; stored 2 seat "STSEED0002"] db0.

Definition bodyFor (seat : string) (t : Z) : ReqBody :=
  mkReqBody (Some 10%nat) (Some 20%nat) (Some t) seat (Some 20%Q) None None.

Definition monday : Moment.t := Moment.ymd 2024 1 15.

Definition seed : list Sample := [mkSample "R" monday 9 30 60].

Definition steady : nat -> Q := fun _ => (9 # 10)%Q.




End Fixtures.

(** ** Read routes, statistics and seat availability *)

Module BookingQueries.
Import JS Booking BookingRoutes.

(** [GET /api/bookings/:id]: the owner and every administrator may read
    a booking. *)
Definition getBooking (db : Db) (id : ObjectId) (u : User) : Response :=
  match bookings db !! id with
  | None => NotFound404 "Booking not found"
  | Some booking =>
      if negb (user booking =? _id u)%nat
         && negb (String.eqb (role u) "admin")
      then Forbidden403
      else Ok200 booking
  end.

Arguments getBooking db id%_nat u.

(** [GET /api/bookings/stats/overview]. A bound of the date filter that
    is absent or empty is [None]; the filter applies when both are given. *)
Record Stats : Type := mkStats {
  total : nat;
  st_confirmed : nat;
  st_cancelled : nat;
  st_completed : nat;
  totalFare : Q
}.

Definition dateFilter (startDate endDate : option Z) (b : Booking) : bool :=
  match startDate, endDate with
  | Some s, Some e => (s <=? travelDate b) && (travelDate b <=? e)
  | _, _ => true
  end.

Definition userBookings (db : Db) (u : User) (startDate endDate : option Z)
    : list Booking :=
  filter (fun b => (user b =? _id u)%nat && dateFilter startDate endDate b
                   = true)
    (bookings db).

Definition withStatus (s : Status) (bs : list Booking) : list Booking :=
  filter (fun b => Status_eqb (status b) s = true) bs.

Definition sumFare (bs : list Booking) : Q :=
  foldl (fun sum b => (sum + fare b)%Q) 0%Q bs.

Definition statsOverview (db : Db) (u : User) (startDate endDate : option Z)
    : Stats :=
  let userBookings_ := userBookings db u startDate endDate in
  mkStats (length userBookings_)
    (length (withStatus confirmed userBookings_))
    (length (withStatus cancelled userBookings_))
    (length (withStatus completed userBookings_))
    (sumFare userBookings_).

(** *** Static methods of the model *)

(** [findByUser(userId, status)]; an absent or empty [status] is [None]. *)
Definition findByUser (bs : list Booking) (userId : ObjectId)
    (status_ : option Status) : list Booking :=
  filter (fun b => (user b =? userId)%nat
                   && match status_ with
                      | Some s => Status_eqb (status b) s
                      | None => true
                      end = true) bs.

(** Milliseconds in a day; [setHours] is taken on a clock in UTC. *)
Definition dayMs : Z := 86400000.

Definition startOfDay (date : Z) : Z := date - date mod dayMs.

Definition endOfDay (date : Z) : Z := startOfDay date + dayMs - 1.

Definition findByRouteAndDate (bs : list Booking) (routeId : ObjectId)
    (date : Z) : list Booking :=
  filter (fun b => (route b =? routeId)%nat
                   && (startOfDay date <=? travelDate b)
                   && (travelDate b <=? endOfDay date)
                   && active (status b) = true) bs.

Definition findByDateRange (bs : list Booking) (startDate endDate : Z)
    : list Booking :=
  filter (fun b => (startDate <=? travelDate b) && (travelDate b <=? endDate)
                   = true) bs.

(** [getStatistics]: one group per status that occurs in the range, with
    its count and the sum of its fares. The order of the groups is not
    fixed by the aggregation; they are listed in the order of the enum. *)
Record Group : Type := mkGroup {
  g_id : Status;
  g_count : nat;
  g_totalFare : Q
}.

Definition allStatuses : list Status :=
  [pending; confirmed; cancelled; completed; no_show].

Definition getStatistics (bs : list Booking) (startDate endDate : Z)
    : list Group :=
  let matched := findByDateRange bs startDate endDate in
  omap (fun s =>
          let members := withStatus s matched in
          match members with
          | [] => None
          | _ => Some (mkGroup s (length members) (sumFare members))
          end)
    allStatuses.

(** *** [GET /api/schedules/route/:routeId/available-seats] *)

Record SeatReport : Type := mkSeatReport {
  totalSeats : Z;
  availableSeats : list string;
  bookedSeats : list string;
  availableCount : nat;
  bookedCount : nat
}.

Inductive SeatsResponse : Type :=
| SeatsOk (data : SeatReport)
| SeatsBadRequest
| SeatsNotFound.

Definition bookedOn (sid : ObjectId) (date : Z) (b : Booking) : bool :=
  (schedule b =? sid)%nat && (travelDate b =? date) && active (status b).

Definition includes (l : list string) (x : string) : bool :=
  existsb (String.eqb x) l.

Definition availableSeatsRoute (db : Db) (scheduleId : option ObjectId)
    (date : option Z) : SeatsResponse :=
  match scheduleId, date with
  | Some sid, Some t =>
      match schedules db !! sid with
      | None => SeatsNotFound
      | Some sch =>
          let bookedSeatNumbers :=
            seatNumber <$> filter (fun b => bookedOn sid t b = true)
                             (bookings db) in
          let totalSeats_ := capacity (sched_vehicle sch) in
          let availableSeats_ :=
            filter (fun l => includes bookedSeatNumbers l = false)
              (seatLabels totalSeats_) in
          SeatsOk (mkSeatReport totalSeats_ availableSeats_
                     bookedSeatNumbers (length availableSeats_)
                     (length bookedSeatNumbers))
      end
  | _, _ => SeatsBadRequest
  end.

(** *** The booking reference of the pre-save hook *)

Definition base36Digit (d : Z) : ascii :=
  ascii_of_nat (Z.to_nat (if d <? 10 then 48 + d else 87 + d)).

Fixpoint toString36Go (fuel : nat) (n : Z) (acc : list ascii) : list ascii :=
  match fuel with
  | O => acc
  | S fuel' =>
      let acc' := base36Digit (n mod 36) :: acc in
      if n / 36 =? 0 then acc' else toString36Go fuel' (n / 36) acc'
  end.

(** [n.toString(36)] for an integer [n >= 0]. *)
Definition toString36 (n : Z) : list ascii :=
  toString36Go (S (Z.to_nat (Z.log2 n))) n [].

(** The digits after ["0."] of [r.toString(36)], at most [k] of them, for
    [0 <= r < 1]; the expansion stops when nothing is left. *)
Fixpoint fraction36 (k : nat) (r : Q) : list ascii :=
  match k with
  | O => []
  | S k' =>
      if Qeq_bool r 0 then []
      else
        let d := Qfloor (r * 36) in
        base36Digit d :: fraction36 k' (r * 36 - inject_Z d)%Q
  end.

Definition toUpperChar (c : ascii) : ascii :=
  let n := nat_of_ascii c in
  if ((97 <=? n) && (n <=? 122))%nat then ascii_of_nat (n - 32) else c.

Definition toUpperCase (l : list ascii) : list ascii := toUpperChar <$> l.

(** [`ST${timestamp}${random}`.toUpperCase()] with
    [timestamp = Date.now().toString(36)] and
    [random = Math.random().toString(36).substr(2, 5)]. *)
Definition generateReference (now : Z) (r : Q) : string :=
  string_of_list_ascii
    (toUpperCase (list_ascii_of_string "ST" ++ toString36 now
                  ++ fraction36 5 r)).

(** The hook keeps a reference that is already set. *)
Definition preSaveReference (bookingReference : option string) (now : Z)
    (r : Q) : string :=
  match bookingReference with
  | Some ref => if notEmpty ref then ref else generateReference now r
  | None => generateReference now r
  end.

Definition isDigitOrUpper (c : ascii) : bool :=
  let n := nat_of_ascii c in
  ((48 <=? n) && (n <=? 57) || (65 <=? n) && (n <=? 90))%nat.

(** *** A document under a sequence of method calls *)

Inductive Call : Type :=
| CallCancel (now : Z) (reason : option string) (cancelledBy_ : ObjectId)
| CallConfirm
| CallComplete (now : Z)
| CallCheckIn (now : Z).

Definition call (schemaMin : Z) (c : Call) (this : Booking)
    : Booking * Outcome :=
  match c with
  | CallCancel now reason who => cancel schemaMin now reason who this
  | CallConfirm => confirm schemaMin this
  | CallComplete now => complete schemaMin now this
  | CallCheckIn now => checkIn schemaMin now this
  end.

(** The document after the calls, whatever their outcomes. *)
Definition calls (schemaMin : Z) (cs : list Call) (this : Booking) : Booking :=
  foldl (fun b c => (call schemaMin c b).1) this cs.

(** Position of a status in the lifecycle. *)
Definition rank (s : Status) : nat :=
  match s with
  | pending => 0
  | confirmed => 1
  | cancelled | completed | no_show => 2
  end.

(** The fields that identify the trip and the seat. *)
Definition sameTrip (a b : Booking) : Prop :=
  user a = user b /\ route a = route b /\ schedule a = schedule b
  /\ vehicle a = vehicle b /\ travelDate a = travelDate b
  /\ seatNumber a = seatNumber b /\ fare a = fare b.

Definition actorOf (r : Request) : User :=
  match r with
  | PostBooking u _ => u
  | PutCancel _ u _ => u
  | PutConfirm _ u => u
  | PutCheckIn _ u => u
  end.

(** What every request keeps of a stored booking. *)
Definition keeps (b b' : Booking) : Prop :=
  sameTrip b' b /\ (rank (status b) <= rank (status b'))%nat.

End BookingQueries.

(** ** Forecast: the slice of a prediction and the backend analytics route *)

Module ForecastQueries.
Import JS Num Random Forecast.

(** The samples [getPrediction] averages: those of the route that share
    the day of the week and the hour of the target. *)
Definition sameHourData (historicalData : list Sample) (route_ : string)
    (date_ : Moment.t) (hour_ : Value) : list Sample :=
  filter (fun d => sameSlot (Moment.day date_) (targetHourOf hour_) d = true)
    (filter (fun d => String.eqb (route d) route_ = true) historicalData).

(** A point whose utilization and bookings lie in the given ranges. *)
Definition pointWithin (uLo uHi bLo bHi : Z) (p : Point) : bool :=
  within (inject_Z uLo) (inject_Z uHi) (utilization p)
  && (bLo <=? p_bookings p) && (p_bookings p <=? bHi).

(** The point of an hour or day without samples. *)
Definition emptyPoint (key : Z) : Point := mkPoint key (Fin 0) 0.

Definition mockRecommendations : list string :=
  [ "Consider adding more vehicles during peak hours (7-9 AM, 5-7 PM)";
    "Route shows consistent high utilization on weekdays";
    "Weekend ridership is 40% lower than weekdays" ].

(** [GET /api/forecast/routes/:routeId/analytics] of the backend:
    [upstream] is the reply of the forecasting service, [None] when the
    call throws. The mock generators of the route file are copies of those
    of the service. An omitted bound of the period is [None]. *)
Definition analytics (upstream : option Analytics) (now : Moment.t)
    (routeId_ : string) (startDate endDate : option Moment.t)
    : M (Analytics * bool) :=
  match upstream with
  | Some data => ret (data, false)
  | None =>
      let* heatmap_ := generateMockHeatmap in
      let* weekly_ := generateMockWeeklyTrend in
      let* hourly_ := generateMockHourlyTrend in
      ret (mkAnalytics routeId_
             (default (Moment.subtractDays 30 now) startDate)
             (default now endDate)
             (Fin 65) (Fin 85) (Fin 35) heatmap_ weekly_ hourly_
             mockRecommendations,
           true)
  end.

(** A sample moved to another date. *)
Definition redate (f : Moment.t -> Moment.t) (d : Sample) : Sample :=
  mkSample (route d) (f (date d)) (hour d) (bookings d) (capacity d).

(** The key of a sample: its route, day and hour. *)
Definition slotOf (d : Sample) : string * Moment.t * Z :=
  (route d, date d, hour d).

(** The keys of the synthetic history, in the order of generation: 30
    days from 30 days ago to yesterday, the four mock routes on each day,
    the hours 6..21 on each route. *)
Definition mockHours : list Z := (fun h => Z.of_nat h) <$> seq 6 16.

Definition mockSlotsOfDay (date_ : Moment.t)
    : list (string * Moment.t * Z) :=
  concat ((fun route_ => (fun hour_ => (route_, date_, hour_)) <$> mockHours)
          <$> mockRoutes).

Definition mockSlots (now : Moment.t) : list (string * Moment.t * Z) :=
  concat ((fun i =>
             mockSlotsOfDay
               (Moment.addDays (Z.of_nat i) (Moment.subtractDays 30 now)))
          <$> seq 0 30).

(** The two filters of [getPrediction], on the key of a sample. *)
Definition slotMatches (route_ : string) (sameDayOfWeek targetHour : option Z)
    (k : string * Moment.t * Z) : bool :=
  match Moment.day k.1.2, sameDayOfWeek, targetHour with
  | Some dd, Some td, Some h =>
      (dd =? td) && (k.2 =? h) && String.eqb k.1.1 route_
  | _, _, _ => false
  end.

(** The ranges of a synthetic sample. *)
Definition sampleOk (d : Sample) : Prop :=
  50 <= capacity d <= 99 /\ 0 <= bookings d <= 65.

End ForecastQueries.

(** * Properties *)

(** ** Booking lifecycle *)

Module LifecycleSpec.
Import JS Booking Fixtures.

Lemma Status_eqb_eq (a b : Status) : Status_eqb a b = true <-> a = b.
Proof. destruct a, b; simpl; split; intros H; congruence. Qed.

Lemma Status_eqb_refl (a : Status) : Status_eqb a a = true.
Proof. by apply Status_eqb_eq. Qed.

Lemma Status_eqb_neq (a b : Status) : a <> b -> Status_eqb a b = false.
Proof.
  intros H. destruct (Status_eqb a b) eqn:E; [|done].
  by apply Status_eqb_eq in E.
Qed.

(** The assignments of [confirm] touch [status] and [paymentStatus]
    only, so they preserve schema validity. *)
Lemma validate_confirmed (schemaMin : Z) (b : Booking) :
  validate schemaMin (set_paymentStatus paid (set_status confirmed b))
  = validate schemaMin b.
Proof. reflexivity. Qed.

Example cancel_pending_scenario :
  let b := sampleBooking pending in
  let r := cancel 0 1741500000000 (Some "change of plans") 1%nat b in
  r.2 = Resolved /\ status r.1 = cancelled
  /\ cancellationReason r.1 = Some "change of plans"
  /\ cancelledAt r.1 = Some 1741500000000
  /\ isThrown (cancel 0 1741500000001 (Some "again") 1%nat r.1).2 = true.
Proof. vm_compute. repeat split; reflexivity. Qed.

(** C2, as stated, fails: a [no_show] booking is in a terminal state and
    [cancel] on it resolves, moving it to [cancelled]. *)
Lemma cancel_no_show_resolves :
  let b := sampleBooking no_show in
  let r := cancel 0 1741500000000 (Some "change of plans") 1%nat b in
  terminal (status b) = true /\ r.2 = Resolved
  /\ status r.1 = cancelled /\ r.1 <> b.
Proof. vm_compute. repeat split; try reflexivity. discriminate. Qed.

(** C2 (amended): on a booking in a terminal state, [confirm] and
    [checkIn] (and [complete]) throw their illegal-state error and leave
    the booking unchanged; [cancel] does so when the status is
    [cancelled] or [completed]. *)
Theorem terminal_transitions_fail (schemaMin now : Z)
    (reason : option string) (actor : ObjectId) (b : Booking) :
  terminal (status b) = true ->
  confirm schemaMin b = (b, Thrown "Only pending bookings can be confirmed")
  /\ checkIn schemaMin now b
     = (b, Thrown "Only confirmed bookings can be checked in")
  /\ complete schemaMin now b
     = (b, Thrown "Only confirmed bookings can be completed")
  /\ (status b = completed ->
      cancel schemaMin now reason actor b
      = (b, Thrown "Cannot cancel completed booking"))
  /\ (status b = cancelled ->
      cancel schemaMin now reason actor b
      = (b, Thrown "Booking already cancelled")).
Proof.
  intros Ht. unfold confirm, checkIn, complete, cancel.
  destruct (status b) eqn:Es; simpl in Ht; try discriminate;
    simpl; repeat split; intros; try reflexivity; discriminate.
Qed.

Lemma terminal_transitions_fail_witness :
  terminal (status (sampleBooking completed)) = true
  /\ confirm 0 (sampleBooking completed)
     = (sampleBooking completed,
        Thrown "Only pending bookings can be confirmed").
Proof.
  split; [reflexivity|].
  apply (terminal_transitions_fail 0 5 None 1%nat (sampleBooking completed)).
  reflexivity.
Defined.

(** C3, as stated, fails: [confirm] saves the document, and [save]
    validates it. A stored pending booking whose travel date lies before
    the minimum of the schema (the instant at which the server last
    defined the schema) is not confirmed: the promise rejects with a
    validation error that names [travelDate]. *)
Lemma confirm_pending_past_date_rejects :
  let schemaMin := 1741700000000 in
  let b := sampleBooking pending in
  status b = pending /\ travelDate b < schemaMin
  /\ (confirm schemaMin b).2 = Thrown "ValidationError"
  /\ invalidPaths schemaMin (confirm schemaMin b).1 = ["travelDate"]
  /\ (confirm 0 b).2 = Resolved.
Proof. vm_compute. repeat split; reflexivity. Qed.

(** C3 (amended): [confirm] throws on every booking that is not
    [pending] (so on [confirmed], [cancelled] and [completed] ones) and
    leaves it as it was; on a [pending] booking it sets [status] to
    [confirmed] and [paymentStatus] to [paid] and changes nothing else,
    and its promise resolves exactly when the booking passes the
    validators of its schema and rejects with a validation error
    otherwise; a second [confirm] then throws. *)
Theorem confirm_requires_pending (schemaMin : Z) (b : Booking) :
  (status b <> pending ->
   confirm schemaMin b
   = (b, Thrown "Only pending bookings can be confirmed"))
  /\ (status b = pending ->
      let b' := (confirm schemaMin b).1 in
      status b' = confirmed /\ paymentStatus b' = paid
      /\ b' = set_paymentStatus paid (set_status confirmed b)
      /\ ((confirm schemaMin b).2 = Resolved
          <-> validate schemaMin b = true)
      /\ (validate schemaMin b = false ->
          (confirm schemaMin b).2 = Thrown "ValidationError")
      /\ confirm schemaMin b'
         = (b', Thrown "Only pending bookings can be confirmed")).
Proof.
  split.
  - intros Hs. unfold confirm. by rewrite (Status_eqb_neq _ _ Hs).
  - intros Hs. unfold confirm. rewrite Hs. simpl.
    unfold save. rewrite validate_confirmed.
    repeat split.
    + by destruct (validate schemaMin b).
    + by intros ->.
    + by intros ->.
Qed.

Lemma confirm_requires_pending_witness :
  status (sampleBooking pending) = pending
  /\ validate 0 (sampleBooking pending) = true
  /\ (confirm 0 (sampleBooking pending)).2 = Resolved
  /\ status (confirm 0 (sampleBooking pending)).1 = confirmed
  /\ paymentStatus (confirm 0 (sampleBooking pending)).1 = paid.
Proof.
  pose proof (confirm_requires_pending 0 (sampleBooking pending)) as [_ H].
  specialize (H eq_refl). simpl in H.
  destruct H as (H1 & H2 & _ & H4 & _).
  split; [reflexivity|]. split; [reflexivity|].
  split; [apply H4; reflexivity|]. split; [exact H1 | exact H2].
Defined.

End LifecycleSpec.

(** ** Booking routes *)

Module RoutesSpec.
Import JS Booking BookingRoutes Fixtures.

(** *** [trim] is idempotent *)

Lemma trimStartL_headOk (l : list ascii) : headOk (trimStartL l).
Proof.
  induction l as [|c l IH]; simpl; [done|].
  destruct (is_space c) eqn:E; [done|]. simpl. exact E.
Qed.

Lemma trimStartL_fix (l : list ascii) : headOk l -> trimStartL l = l.
Proof. destruct l as [|c l]; simpl; [done|]. by intros ->. Qed.

Lemma trimStartL_suffix (l : list ascii) :
  exists p, l = p ++ trimStartL l.
Proof.
  induction l as [|c l [p IH]]; simpl.
  - by exists [].
  - destruct (is_space c).
    + exists (c :: p). simpl. by rewrite <- IH.
    + by exists [].
Qed.

Lemma headOk_prefix (x y : list ascii) : headOk (x ++ y) -> headOk x.
Proof. destruct x; simpl; done. Qed.

Lemma trimL_idem (l : list ascii) : trimL (trimL l) = trimL l.
Proof.
  unfold trimL.
  set (a := trimStartL l).
  set (b := trimStartL (rev a)).
  assert (Ha : headOk a) by apply trimStartL_headOk.
  assert (Hb : headOk b) by apply trimStartL_headOk.
  destruct (trimStartL_suffix (rev a)) as [p Hp]. fold b in Hp.
  assert (Hx : headOk (rev b)).
  { apply (headOk_prefix _ (rev p)).
    rewrite <- rev_app_distr, <- Hp, rev_involutive. exact Ha. }
  rewrite (trimStartL_fix (rev b) Hx), rev_involutive.
  by rewrite (trimStartL_fix b Hb).
Qed.

Lemma trim_idem (s : string) : trim (trim s) = trim s.
Proof.
  unfold trim. rewrite list_ascii_of_string_of_list_ascii.
  fold (trimL (list_ascii_of_string s)).
  fold (trimL (trimL (list_ascii_of_string s))).
  by rewrite trimL_idem.
Qed.

Lemma fmap_trim_idem (o : option string) :
  trim <$> (trim <$> o) = trim <$> o.
Proof. destruct o; simpl; [|done]. by rewrite trim_idem. Qed.

(** *** What the validation chain guarantees *)

Lemma validateBody_inv (body : ReqBody) (v : Validated) :
  validateBody body = Some v ->
  body_routeId body = Some (v_routeId v)
  /\ body_scheduleId body = Some (v_scheduleId v)
  /\ body_travelDate body = Some (v_travelDate v)
  /\ body_fare body = Some (v_fare v)
  /\ v_seatNumber v = trim (body_seatNumber body)
  /\ notEmpty (v_seatNumber v) = true
  /\ v_specialRequests v = trim <$> body_specialRequests body.
Proof.
  unfold validateBody. intros H.
  destruct (body_routeId body) as [rid|]; [|discriminate].
  destruct (body_scheduleId body) as [sid|]; [|discriminate].
  destruct (body_travelDate body) as [t|]; [|discriminate].
  destruct (body_fare body) as [f|]; [|discriminate].
  destruct (notEmpty (trim (body_seatNumber body))) eqn:Es; [|discriminate].
  destruct (body_passengerDetails body) as [p|].
  - destruct (passengerChain p) as [p'|] eqn:Ep; [|discriminate].
    injection H as <-. simpl. repeat split; done.
  - injection H as <-. simpl. repeat split; done.
Qed.

Lemma newBooking_seat (u : User) (v : Validated) (sch : Schedule)
    (body : ReqBody) :
  validateBody body = Some v ->
  seatNumber (newBooking u v sch) = v_seatNumber v.
Proof.
  intros H. apply validateBody_inv in H as (_ & _ & _ & _ & Hs & _).
  simpl. rewrite Hs. apply trim_idem.
Qed.

(** *** The seat-uniqueness invariant as a proposition *)

Lemma sameSeat_sym (a b : Booking) : sameSeat a b = sameSeat b a.
Proof.
  unfold sameSeat.
  rewrite (Nat.eqb_sym (schedule a)), (Z.eqb_sym (travelDate a)).
  by rewrite (String.eqb_sym (seatNumber a)).
Qed.

Lemma seatUnique_spec (bs : list Booking) :
  seatUnique bs = true <-> SeatUnique bs.
Proof.
  induction bs as [|b bs IH]; simpl.
  - split; [|done]. intros _ i j bi bj _ Hi. by destruct i.
  - rewrite andb_true_iff, IH. split.
    + intros [Hb Hbs] i j bi bj Hij Hi Hj Ai Aj.
      destruct j as [|j]; [lia|]. simpl in Hj.
      destruct i as [|i]; simpl in Hi.
      * injection Hi as ->.
        apply orb_true_iff in Hb as [Hb|Hb].
        { rewrite Ai in Hb. discriminate. }
        rewrite forallb_forall in Hb.
        specialize (Hb bj).
        rewrite Aj in Hb. simpl in Hb.
        apply negb_true_iff, Hb.
        apply list_elem_of_In, list_elem_of_lookup. by exists j.
      * apply (Hbs i j); [lia|done..].
    + intros H. split.
      * destruct (active (status b)) eqn:Ab; [|done]. simpl.
        apply forallb_forall. intros b' Hin.
        apply list_elem_of_In, list_elem_of_lookup in Hin as [j Hj].
        destruct (active (status b')) eqn:Ab'; [|done]. simpl.
        apply negb_true_iff.
        apply (H 0%nat (S j)); [lia|done..].
      * intros i j bi bj Hij Hi Hj. apply (H (S i) (S j)); [lia|done..].
Qed.

(** Any two distinct positions, in either order. *)
Lemma SeatUnique_ne (bs : list Booking) i j bi bj :
  SeatUnique bs -> i <> j -> bs !! i = Some bi -> bs !! j = Some bj ->
  active (status bi) = true -> active (status bj) = true ->
  sameSeat bi bj = false.
Proof.
  intros H Hij Hi Hj Ai Aj.
  destruct (Nat.lt_ge_cases i j) as [Hlt|Hge].
  - by apply (H i j).
  - rewrite sameSeat_sym. apply (H j i); [lia|done..].
Qed.

Lemma findOne_None (sid : ObjectId) (t : Z) (seat : string)
    (bs : list Booking) (i : nat) (b : Booking) :
  findOne sid t seat bs = None -> bs !! i = Some b ->
  seatTaken sid t seat b = false.
Proof.
  unfold findOne. intros Hf Hi.
  apply (find_none _ _ Hf). apply list_elem_of_In, list_elem_of_lookup.
  by exists i.
Qed.

Lemma findOne_Some (sid : ObjectId) (t : Z) (seat : string)
    (bs : list Booking) (b : Booking) :
  b ∈ bs -> seatTaken sid t seat b = true ->
  exists b', findOne sid t seat bs = Some b'.
Proof.
  unfold findOne. intros Hin Ht.
  destruct (find _ bs) as [b'|] eqn:E; [by exists b'|].
  apply list_elem_of_In in Hin.
  rewrite (find_none _ _ E b Hin) in Ht. discriminate.
Qed.

Lemma SeatUnique_snoc (bs : list Booking) (doc : Booking) :
  SeatUnique bs ->
  findOne (schedule doc) (travelDate doc) (seatNumber doc) bs = None ->
  SeatUnique (bs ++ [doc]).
Proof.
  intros H Hf i j bi bj Hij Hi Hj Ai Aj.
  destruct (decide (j < length bs)%nat) as [Hlt|Hge].
  - rewrite lookup_app_l in Hi by lia. rewrite lookup_app_l in Hj by lia.
    by apply (H i j).
  - assert (Hjl : j = length bs).
    { apply lookup_lt_Some in Hj. rewrite length_app in Hj. simpl in Hj.
      lia. }
    subst j. rewrite lookup_app_l in Hi by lia.
    rewrite list_lookup_middle in Hj by done. injection Hj as <-.
    pose proof (findOne_None _ _ _ _ _ _ Hf Hi) as Ht.
    unfold seatTaken in Ht. rewrite Ai, andb_true_r in Ht.
    exact Ht.
Qed.

(** Replacing a document by one on the same seat that is active only
    if the old one was. *)
Lemma SeatUnique_update (bs : list Booking) (id : nat) (b b' : Booking) :
  SeatUnique bs -> bs !! id = Some b ->
  schedule b' = schedule b -> travelDate b' = travelDate b ->
  seatNumber b' = seatNumber b ->
  (active (status b') = true -> active (status b) = true) ->
  SeatUnique (<[id := b']> bs).
Proof.
  intros H Hid Hs Ht Hn Ha i j bi bj Hij Hi Hj Ai Aj.
  assert (Hlen : (id < length bs)%nat) by by eapply lookup_lt_Some.
  destruct (decide (i = id)) as [->|Hi'].
  - rewrite list_lookup_insert_eq in Hi by done. injection Hi as <-.
    rewrite list_lookup_insert_ne in Hj by lia.
    assert (E : sameSeat b' bj = sameSeat b bj).
    { unfold sameSeat. by rewrite Hs, Ht, Hn. }
    rewrite E. apply (H id j); auto.
  - rewrite list_lookup_insert_ne in Hi by done.
    destruct (decide (j = id)) as [->|Hj'].
    + rewrite list_lookup_insert_eq in Hj by done. injection Hj as <-.
      assert (E : sameSeat bi b' = sameSeat bi b).
      { unfold sameSeat. by rewrite Hs, Ht, Hn. }
      rewrite E. apply (H i id); auto.
    + rewrite list_lookup_insert_ne in Hj by done. by apply (H i j).
Qed.

(** *** Validation and insertion *)

Lemma elem_of_if (x y : string) (c : bool) :
  x ∈ (if c then [] else [y]) <-> c = false /\ x = y.
Proof.
  destruct c; split.
  - intros H. by apply elem_of_nil in H.
  - by intros [? _].
  - intros H. by apply list_elem_of_singleton in H.
  - intros [_ ->]. apply list_elem_of_here.
Qed.



Lemma invalidPaths_reference (schemaMin : Z) (b : Booking) :
  "bookingReference" ∈ invalidPaths schemaMin b
  <-> referencePresent b = false.
Proof.
  unfold invalidPaths. destruct (passengerDetails b) as [p|];
    rewrite !elem_of_app, !elem_of_if, ?elem_of_nil;
    intuition discriminate.
Qed.

(** The document passes the validators exactly when no path is named. *)
Lemma validate_invalidPaths (schemaMin : Z) (b : Booking) :
  validate schemaMin b = true <-> invalidPaths schemaMin b = [].
Proof.
  unfold validate, invalidPaths, otherFieldsValid, passengerValid.
  destruct (travelDateValid schemaMin b), (notEmpty (seatNumber b)),
    (Qle_bool 0 (fare b)), (referencePresent b),
    (maxlength500 (cancellationReason b)),
    (maxlength500 (specialRequests b));
    cbn [andb app]; try (split; discriminate).
  destruct (passengerDetails b) as [p|]; [|done].
  destruct (match pd_age p with Some _ => _ | None => _ end),
    (match pd_gender p with Some _ => _ | None => _ end),
    (match pd_idType p with Some _ => _ | None => _ end);
    cbn [andb app]; split; (done || discriminate).
Qed.

(** A document that the reservation handler builds has no reference. *)
Lemma newBooking_reference (u : User) (v : Validated) (sch : Schedule) :
  referencePresent (newBooking u v sch) = false.
Proof. reflexivity. Qed.

Lemma insert_inv (schemaMin : Z) (db db' : Db) (doc : Booking)
    (o : Outcome) :
  insert schemaMin db doc = (db', o) ->
  (o = Resolved /\ db' = set_bookings (bookings db ++ [doc]) db
   /\ validate schemaMin doc = true)
  \/ (exists msg, o = Thrown msg /\ db' = db).
Proof.
  unfold insert, save. destruct (validate schemaMin doc).
  - destruct (referenceTaken _ _); intros [= <- <-]; [right|left]; eauto.
  - intros [= <- <-]. right. eauto.
Qed.

(** *** Preservation by every handler *)

Lemma postBooking_preserves (schemaMin : Z) (db : Db) (u : User)
    (body : ReqBody) :
  SeatUnique (bookings db) ->
  SeatUnique (bookings (postBooking schemaMin db u body).1).
Proof.
  intros H. unfold postBooking.
  destruct (validateBody body) as [v|] eqn:Ev; [|done].
  destruct (negb _); [done|].
  destruct (schedules db !! v_scheduleId v) as [sch|]; [|done].
  destruct (negb _); [done|].
  destruct (findOne _ _ _ _) eqn:Ef; [done|]. cbv zeta.
  destruct (insert schemaMin db (newBooking u v sch)) as [db' o] eqn:Ei.
  apply insert_inv in Ei as [(-> & -> & _)|(msg & -> & ->)]; [|done].
  cbn [fst bookings set_bookings].
  apply SeatUnique_snoc; [done|].
  rewrite (newBooking_seat u v sch body Ev). exact Ef.
Qed.

Lemma putCancel_preserves (schemaMin now : Z) (db : Db) (id : ObjectId)
    (u : User) (reason : option string) :
  SeatUnique (bookings db) ->
  SeatUnique (bookings (putCancel schemaMin now db id u reason).1).
Proof.
  intros H. unfold putCancel.
  destruct (bookings db !! id) as [b|] eqn:Eb; [|done].
  destruct (negb _); [done|]. unfold cancel.
  destruct (Status_eqb _ completed); [done|].
  destruct (Status_eqb _ cancelled); [done|].
  destruct (save _ _); [|done]. unfold afterCancel.
  destruct (bool_decide _); cbn [fst bookings set_bookings];
    by apply (SeatUnique_update _ _ b).
Qed.

Lemma putConfirm_preserves (schemaMin : Z) (db : Db) (id : ObjectId)
    (u : User) :
  SeatUnique (bookings db) ->
  SeatUnique (bookings (putConfirm schemaMin db id u).1).
Proof.
  intros H. unfold putConfirm.
  destruct (bookings db !! id) as [b|] eqn:Eb; [|done].
  destruct (negb _); [done|]. unfold confirm.
  destruct (negb (Status_eqb _ _)) eqn:Es; [done|].
  destruct (save _ _); [|done]. simpl.
  apply (SeatUnique_update _ _ b); try done.
  intros _. apply negb_false_iff, LifecycleSpec.Status_eqb_eq in Es.
  by rewrite Es.
Qed.

Lemma putCheckIn_preserves (schemaMin now : Z) (db : Db) (id : ObjectId)
    (u : User) :
  SeatUnique (bookings db) ->
  SeatUnique (bookings (putCheckIn schemaMin now db id u).1).
Proof.
  intros H. unfold putCheckIn.
  destruct (bookings db !! id) as [b|] eqn:Eb; [|done].
  destruct (negb _); [done|]. unfold checkIn.
  destruct (negb (Status_eqb _ _)); [done|].
  destruct (save _ _); [|done]. simpl.
  by apply (SeatUnique_update _ _ b).
Qed.

Lemma serve_preserves (schemaMin : Z) (rs : list (Z * Request)) :
  forall db, SeatUnique (bookings db) ->
             SeatUnique (bookings (serve schemaMin db rs)).
Proof.
  induction rs as [|[now r] rs IH]; intros db H; simpl; [done|].
  apply IH. destruct r; simpl.
  - by apply postBooking_preserves.
  - by apply putCancel_preserves.
  - by apply putConfirm_preserves.
  - by apply putCheckIn_preserves.
Qed.

(** A request that runs alone goes through its four [await]s and ends
    as [postBooking] says. *)
Lemma postBooking_steps (schemaMin : Z) (db : Db) (u : User)
    (body : ReqBody) :
  interleave schemaMin [0; 0; 0; 0]%nat (db, [start u body])
  = ((postBooking schemaMin db u body).1,
     [Finished (postBooking schemaMin db u body).2]).
Proof.
  unfold start, postBooking.
  destruct (validateBody body) as [v|]; [|done]. simpl.
  destruct (bool_decide _); [|done]. simpl.
  destruct (schedules db !! v_scheduleId v) as [sch|]; [|done].
  destruct (sched_route sch =? v_routeId v)%nat; [|done]. simpl.
  destruct (findOne _ _ _ _); [done|]. simpl.
  by destruct (insert _ _ _) as [db' []].
Qed.

Example reserve_scenario :
  let r := postBooking 0 db1 bob body0 in
  r.2 = Conflict409 "Seat already booked" "SEAT_OCCUPIED"
  /\ bookings r.1 = [booking0 1].
Proof. vm_compute. repeat split; reflexivity. Qed.

(** *** Seat uniqueness (C1) *)

(** C1, as stated, fails: no uniqueness constraint of the collection
    covers the schedule, the travel date and the seat (the unique indexes
    are on the booking reference and the QR code). The seed script stores
    two pending bookings of seat ["Seat 1"] on schedule 20 for the same
    instant, and the collection then breaks the invariant. The guard is
    the seat check of the reservation handler alone, and it compares
    instants: for the same seat on the same day, one hour later, it finds
    nothing. *)
Lemma storage_accepts_two_bookings_of_a_seat :
  let row (owner : ObjectId) (ref : string) :=
    mkSeedRow owner 10 20 30 1741564800000 "Seat 1" 20 pending pay_pending
      (Some ref) None in
  let r := seedData 0 db0 [row 1%nat "STSEED0001"; row 2%nat "STSEED0002"] in
  r.2 = Resolved
  /\ bookings r.1
     = [seedDocument (row 1%nat "STSEED0001");
        seedDocument (row 2%nat "STSEED0002")]
  /\ Forall (fun b => active (status b) = true /\ schedule b = 20%nat
                      /\ travelDate b = 1741564800000
                      /\ seatNumber b = "Seat 1") (bookings r.1)
  /\ seatUnique (bookings r.1) = false
  /\ 1741568400000 / 86400000 = 1741564800000 / 86400000
  /\ findOne 20%nat 1741568400000 "Seat 1" (bookings db1) = None
  /\ findOne 20%nat 1741564800000 "Seat 1" (bookings db1)
     = Some (booking0 1).
Proof.
  vm_compute. split; [reflexivity|]. split; [reflexivity|].
  split; [by repeat constructor|]. repeat split; reflexivity.
Qed.

(** C1 (amended): seat uniqueness rests on the seat check of the
    reservation handler. A reservation whose seat check runs while a
    [pending] or [confirmed] booking with the same schedule, the same
    travel date (the same instant) and the same seat label exists is
    answered 409 [SEAT_OCCUPIED] and stores nothing; and when requests are
    served one after the other, the invariant (at most one [pending] or
    [confirmed] booking per schedule, instant and seat) is kept by every
    request. *)
Theorem seat_uniqueness_sequential (schemaMin : Z) (db : Db) :
  seatUnique (bookings db) = true ->
  (forall rs, seatUnique (bookings (serve schemaMin db rs)) = true)
  /\ (forall u v sch b,
        b ∈ bookings db ->
        seatTaken (v_scheduleId v) (v_travelDate v) (v_seatNumber v) b
        = true ->
        step schemaMin db (AwaitFindOne u v sch)
        = (db, Finished (Conflict409 "Seat already booked"
                           "SEAT_OCCUPIED")))
  /\ (forall u body v sch b,
        validateBody body = Some v ->
        v_routeId v ∈ routes db ->
        schedules db !! v_scheduleId v = Some sch ->
        sched_route sch = v_routeId v ->
        b ∈ bookings db ->
        seatTaken (v_scheduleId v) (v_travelDate v) (v_seatNumber v) b
        = true ->
        postBooking schemaMin db u body
        = (db, Conflict409 "Seat already booked" "SEAT_OCCUPIED")).
Proof.
  intros H. split; [|split].
  - intros rs. apply seatUnique_spec, serve_preserves.
    by apply seatUnique_spec.
  - intros u v sch b Hin Ht. simpl.
    destruct (findOne_Some _ _ _ _ _ Hin Ht) as [b' ->]. done.
  - intros u body v sch b Hv Hr Hs Hsr Hin Ht. unfold postBooking.
    rewrite Hv. rewrite (bool_decide_eq_true_2 _ Hr). simpl.
    rewrite Hs, Hsr, Nat.eqb_refl. simpl.
    destruct (findOne_Some _ _ _ _ _ Hin Ht) as [b' ->]. done.
Qed.

Lemma seat_uniqueness_sequential_witness :
  let rs := [(5, PostBooking bob body0); (6, PutConfirm 0 alice);
             (7, PostBooking bob body0); (8, PutCancel 0 alice None)] in
  seatUnique (bookings db1) = true
  /\ seatUnique (bookings (serve 0 db1 rs)) = true
  /\ status <$> bookings (serve 0 db1 rs) = [cancelled].
Proof.
  intros rs. split; [reflexivity|]. split; [|reflexivity].
  apply (seat_uniqueness_sequential 0 db1). reflexivity.
Defined.

(** *** Ownership (C4) *)

(** C4, as stated, fails: an administrator who does not own the booking
    is answered 403 by the cancel, confirm and check-in routes, which
    compare the actor with the owner and never read the role. *)
Lemma admin_not_owner_is_denied :
  isAdmin root = true
  /\ bookings db1 !! 0%nat = Some (booking0 1)
  /\ putCancel 0 5 db1 0 root None = (db1, Forbidden403)
  /\ putConfirm 0 db1 0 root = (db1, Forbidden403)
  /\ putCheckIn 0 5 db1 0 root = (db1, Forbidden403).
Proof. repeat split; reflexivity. Qed.

(** C4 (amended): the cancel, confirm and check-in routes answer 404
    when the booking does not exist and 403, without touching the store,
    to every actor other than the owning user, administrators included;
    for the owner they run the lifecycle method and answer with its
    outcome, so a request succeeds only for the owner. *)
Theorem ownership_rule (schemaMin now : Z) (db : Db) (id : ObjectId)
    (u : User) (reason : option string) :
  (bookings db !! id = None ->
   putCancel schemaMin now db id u reason
   = (db, NotFound404 "Booking not found")
   /\ putConfirm schemaMin db id u = (db, NotFound404 "Booking not found")
   /\ putCheckIn schemaMin now db id u
      = (db, NotFound404 "Booking not found"))
  /\ (forall booking,
        bookings db !! id = Some booking -> user booking <> _id u ->
        putCancel schemaMin now db id u reason = (db, Forbidden403)
        /\ putConfirm schemaMin db id u = (db, Forbidden403)
        /\ putCheckIn schemaMin now db id u = (db, Forbidden403))
  /\ (forall booking,
        bookings db !! id = Some booking -> user booking = _id u ->
        putCancel schemaMin now db id u reason
        = respondCancel db id
            (cancel schemaMin now (trim <$> reason) (_id u) booking)
        /\ putConfirm schemaMin db id u
           = respond db id (confirm schemaMin booking)
        /\ putCheckIn schemaMin now db id u
           = respond db id (checkIn schemaMin now booking))
  /\ (forall data,
        (putCancel schemaMin now db id u reason).2 = Ok200 data
        \/ (putConfirm schemaMin db id u).2 = Ok200 data
        \/ (putCheckIn schemaMin now db id u).2 = Ok200 data ->
        exists booking,
          bookings db !! id = Some booking /\ user booking = _id u).
Proof.
  unfold putCancel, putConfirm, putCheckIn.
  split; [|split; [|split]].
  - by intros ->.
  - intros booking -> Hne. unfold isOwner.
    apply Nat.eqb_neq in Hne. by rewrite Hne.
  - intros booking -> He. unfold isOwner, respond, respondCancel.
    apply Nat.eqb_eq in He. rewrite He. simpl.
    repeat split;
      match goal with |- context [let '(_, _) := ?r in _] =>
        destruct r as [? []] end; reflexivity.
  - intros data H.
    destruct (bookings db !! id) as [booking|];
      [|destruct H as [H|[H|H]]; discriminate].
    exists booking. split; [done|]. unfold isOwner in H.
    destruct (user booking =? _id u)%nat eqn:E;
      [by apply Nat.eqb_eq|].
    destruct H as [H|[H|H]]; discriminate.
Qed.

Lemma ownership_rule_witness :
  bookings db1 !! 0%nat = Some (booking0 1)
  /\ user (booking0 1) <> _id bob
  /\ user (booking0 1) = _id alice
  /\ putCancel 0 5 db1 0 bob None = (db1, Forbidden403)
  /\ (putConfirm 0 db1 0 alice).2
     = Ok200 (set_paymentStatus paid (set_status confirmed (booking0 1))).
Proof.
  destruct (ownership_rule 0 5 db1 0%nat bob None) as (_ & Hden & _).
  destruct (ownership_rule 0 5 db1 0%nat alice None) as (_ & _ & Hown & _).
  split; [reflexivity|]. split; [vm_compute; lia|].
  split; [reflexivity|]. split.
  - apply (Hden (booking0 1)); [reflexivity | vm_compute; lia].
  - destruct (Hown (booking0 1)) as (_ & -> & _); reflexivity.
Defined.

(** *** Input constraints of a reservation (C5) *)




End RoutesSpec.

(** ** Forecast estimator *)

Module ForecastSpec.
Import JS Num Random Forecast Fixtures.

(** *** Arithmetic of [floor], [round], [min] and [max] *)

Lemma floor_nonneg (q : Q) : (0 <= q)%Q -> 0 <= floor q.
Proof.
  intros H. unfold floor.
  change 0 with (Qfloor 0). by apply Qfloor_resp_le.
Qed.

Lemma floor_lower (q : Q) (n : Z) : (inject_Z n <= q)%Q -> n <= floor q.
Proof.
  intros H. unfold floor. rewrite <- (Qfloor_Z n).
  by apply Qfloor_resp_le.
Qed.

Lemma floor_upper (q : Q) (n : Z) : (q < inject_Z n)%Q -> floor q < n.
Proof.
  intros H. unfold floor. rewrite Zlt_Qlt.
  eapply Qle_lt_trans; [apply Qfloor_le | exact H].
Qed.

Lemma round_nonneg (q : Q) : (0 <= q)%Q -> 0 <= round q.
Proof. intros H. unfold round. apply floor_nonneg. lra. Qed.

Lemma Qle_bool_false (a b : Q) : Qle_bool a b = false -> (b < a)%Q.
Proof.
  intros H. apply Qnot_le_lt. intros Hle.
  apply Qle_bool_iff in Hle. congruence.
Qed.

Lemma minQ_spec (a b : Q) :
  (minQ a b <= a)%Q /\ (minQ a b <= b)%Q
  /\ (forall c, (c <= a)%Q -> (c <= b)%Q -> (c <= minQ a b)%Q).
Proof.
  unfold minQ. destruct (Qle_bool a b) eqn:E.
  - apply Qle_bool_iff in E. repeat split; intros; lra.
  - apply Qle_bool_false in E. repeat split; intros; lra.
Qed.

Lemma maxQ_spec (a b : Q) : (a <= maxQ a b)%Q /\ (b <= maxQ a b)%Q.
Proof.
  unfold maxQ. destruct (Qle_bool a b) eqn:E.
  - apply Qle_bool_iff in E. split; lra.
  - apply Qle_bool_false in E. split; lra.
Qed.

(** [min(95, max(60, x))] lies in the window whatever [x] is. *)
Lemma confidence_window (x : Q) :
  (60 <= minQ 95 (maxQ 60 x))%Q /\ (minQ 95 (maxQ 60 x) <= 95)%Q.
Proof.
  destruct (minQ_spec 95 (maxQ 60 x)) as (H1 & _ & H3).
  destruct (maxQ_spec 60 x) as [H4 _].
  split; [apply H3; lra | exact H1].
Qed.

(** [min(100, round(p / c * 100))] for [0 <= p] and [0 < c]. *)
Lemma utilization_window (p c : Q) :
  (0 <= p)%Q -> (0 < c)%Q ->
  within 0 100 (minN 100 (roundN (mul (div p c) 100))) = true.
Proof.
  intros Hp Hc. unfold div.
  destruct (Qeq_bool c 0) eqn:E.
  { apply Qeq_bool_iff in E. lra. }
  simpl. apply andb_true_iff.
  destruct (minQ_spec 100 (inject_Z (round (p / c * 100)))) as (H1 & _ & H3).
  split; apply Qle_bool_iff; [|exact H1].
  apply H3; [lra|].
  change 0%Q with (inject_Z 0). rewrite <- Zle_Qle.
  apply round_nonneg.
  apply Qmult_le_0_compat; [|lra].
  apply Qle_shift_div_l; [exact Hc | lra].
Qed.

(** *** Sums and means *)

Lemma sumOf_acc (f : Sample -> Z) (data : list Sample) (acc : Z) :
  foldl (fun sum d => sum + f d) acc data = acc + sumOf f data.
Proof.
  unfold sumOf. revert acc.
  induction data as [|d data IH]; intros acc; simpl; [lia|].
  rewrite (IH (acc + f d)), (IH (0 + f d)). lia.
Qed.

Lemma sumOf_cons (f : Sample -> Z) (d : Sample) (data : list Sample) :
  sumOf f (d :: data) = f d + sumOf f data.
Proof. unfold sumOf at 1. simpl. rewrite sumOf_acc. lia. Qed.

Lemma sumOf_pos (f : Sample -> Z) (data : list Sample) :
  data <> [] -> Forall (fun d => 0 < f d) data -> 0 < sumOf f data.
Proof.
  intros Hne H. induction H as [|d data Hd H IH]; [done|].
  rewrite sumOf_cons. destruct data as [|d' data].
  - unfold sumOf. simpl. lia.
  - assert (0 < sumOf f (d' :: data)) by by apply IH.
    lia.
Qed.

Lemma mean_pos (f : Sample -> Z) (data : list Sample) :
  data <> [] -> Forall (fun d => 0 < f d) data -> (0 < mean f data)%Q.
Proof.
  intros Hne H. unfold mean.
  apply Qlt_shift_div_l.
  - change 0%Q with (inject_Z 0). rewrite <- Zlt_Qlt.
    destruct data; [done|]. simpl. lia.
  - rewrite Qmult_0_l. change 0%Q with (inject_Z 0). rewrite <- Zlt_Qlt.
    by apply sumOf_pos.
Qed.

Lemma isEmpty_false {A : Type} (l : list A) : isEmpty l = false -> l <> [].
Proof. by destruct l. Qed.

Lemma Forall_filter_keep (P : Sample -> Prop) (f : Sample -> bool)
    (data : list Sample) :
  Forall P data -> Forall P (filter (fun d => f d = true) data).
Proof.
  rewrite !Forall_forall. intros H d Hd.
  apply list_elem_of_filter in Hd as [_ Hd]. by apply H.
Qed.

Lemma steady_unitInterval : unitInterval steady.
Proof. intros i. unfold steady. split; lra. Qed.

(** The month arithmetic agrees with the calendar on the first and the
    28th of every month from 1970 to 2100. *)
Example civilMonth_calendar :
  forallb (fun y =>
    forallb (fun m =>
      Moment.equals (Moment.month (Moment.ymd y m 1)) (m - 1)
      && Moment.equals (Moment.month (Moment.ymd y m 28)) (m - 1))
      (Z.of_nat <$> seq 1 12))
    (Z.of_nat <$> seq 1970 131) = true.
Proof. vm_compute. reflexivity. Qed.

Example weekdays :
  Moment.day monday = Some 1
  /\ Moment.day (Moment.ymd 1970 1 1) = Some 4
  /\ Moment.day (Moment.ymd 2024 12 28) = Some 6
  /\ Moment.day (Moment.ymd 2024 7 7) = Some 0.
Proof. vm_compute. repeat split; reflexivity. Qed.

(** *** Seasonal adjustment (C6) *)

(** C6, as stated, fails: a Wednesday in November (month index 10) gets
    no adjustment, and a Monday in January (month index 0) gets +5. *)
Lemma november_gets_no_boost :
  Moment.month (Moment.ymd 2024 11 13) = Some 10
  /\ Moment.day (Moment.ymd 2024 11 13) = Some 3
  /\ getSeasonalFactor (Moment.ymd 2024 11 13) = 0
  /\ Moment.month monday = Some 0
  /\ getSeasonalFactor monday = 5.
Proof. vm_compute. repeat split; reflexivity. Qed.

(** C6 (amended): the seasonal adjustment of a date is +5 when its month
    index is 11 or 0 (December, January); otherwise -3 when the month
    index is 4 to 8 (May to September); otherwise -5 on a Saturday or a
    Sunday; otherwise 0. The first rule that matches decides alone. *)
Theorem seasonal_adjustment (date_ : Moment.t) (m w : Z) :
  Moment.month date_ = Some m -> Moment.day date_ = Some w ->
  ((m = 11 \/ m = 0) -> getSeasonalFactor date_ = 5)
  /\ (4 <= m <= 8 -> getSeasonalFactor date_ = -3)
  /\ (m <> 11 -> m <> 0 -> ~ 4 <= m <= 8 -> (w = 0 \/ w = 6) ->
      getSeasonalFactor date_ = -5)
  /\ (m <> 11 -> m <> 0 -> ~ 4 <= m <= 8 -> w <> 0 -> w <> 6 ->
      getSeasonalFactor date_ = 0).
Proof.
  intros Hm Hw. unfold getSeasonalFactor. rewrite Hm, Hw. simpl.
  repeat split; intros;
    repeat match goal with
           | |- context [?a =? ?b] => destruct (Z.eqb_spec a b)
           | |- context [?a <=? ?b] => destruct (Z.leb_spec a b)
           end; simpl; try reflexivity; lia.
Qed.

Lemma seasonal_adjustment_witness :
  Moment.month (Moment.ymd 2024 12 28) = Some 11
  /\ Moment.day (Moment.ymd 2024 12 28) = Some 6
  /\ getSeasonalFactor (Moment.ymd 2024 12 28) = 5.
Proof.
  split; [reflexivity|]. split; [reflexivity|].
  apply (seasonal_adjustment (Moment.ymd 2024 12 28) 11 6);
    [reflexivity | reflexivity | by left].
Defined.

Example seasonal_rules_do_not_stack :
  getSeasonalFactor (Moment.ymd 2024 12 28) = 5
  /\ getSeasonalFactor (Moment.ymd 2024 7 7) = -3
  /\ getSeasonalFactor (Moment.ymd 2024 3 9) = -5
  /\ getSeasonalFactor (Moment.ymd 2024 3 11) = 0
  /\ getSeasonalFactor None = 0.
Proof. vm_compute. repeat split; reflexivity. Qed.

(** *** Default hour (C10) *)




Example hour_values :
  targetHourOf (Str "0") = Some 0 /\ targetHourOf (Str "23") = Some 23
  /\ targetHourOf (Number 17) = Some 17
  /\ targetHourOf (Str "noon") = None.
Proof. vm_compute. repeat split; reflexivity. Qed.


(** *** Bounds of a prediction (C7) *)

Ltac run_random :=
  cbv [generateMockPrediction ForecastRoute.predict bind ret Math_random
       fst snd predicted_count p_capacity utilization_pct confidence].

(** [Math.floor(Math.random() * n)] is one of [0 .. n-1]. *)
Lemma floor_random (r : Q) (n : Z) :
  (0 <= r)%Q -> (r < 1)%Q -> 0 < n -> 0 <= floor (r * inject_Z n) < n.
Proof.
  intros H0 H1 Hn.
  assert (Hq : (0 < inject_Z n)%Q).
  { change 0%Q with (inject_Z 0). by rewrite <- Zlt_Qlt. }
  split.
  - apply floor_nonneg. apply Qmult_le_0_compat; lra.
  - apply floor_upper.
    apply Qlt_le_trans with (1 * inject_Z n)%Q;
      [apply Qmult_lt_compat_r; lra | rewrite Qmult_1_l; apply Qle_refl].
Qed.

Lemma mock_prediction_bounds (random : nat -> Q) (route_ : string)
    (date_ : Moment.t) (i : nat) :
  unitInterval random ->
  let p := (generateMockPrediction route_ date_ random i).1 in
  20 <= predicted_count p <= 49
  /\ 50 <= p_capacity p <= 99
  /\ within 0 100 (utilization_pct p) = true
  /\ (70 <= confidence p)%Q /\ (confidence p < 90)%Q.
Proof.
  intros Hr. run_random.
  destruct (Hr i) as [H1 H1'].
  destruct (Hr (S i)) as [H2 H2'].
  destruct (Hr (S (S i))) as [H3 H3'].
  pose proof (floor_random (random (S i)) 50 H2 H2' eq_refl) as Hf.
  change (inject_Z 50) with 50%Q in Hf.
  repeat split.
  - apply floor_lower. unfold inject_Z. lra.
  - apply Z.lt_succ_r. change (Z.succ 49) with 50.
    apply floor_upper. unfold inject_Z. lra.
  - lia.
  - lia.
  - apply utilization_window; [lra|].
    change 0%Q with (inject_Z 0). rewrite <- Zlt_Qlt. lia.
  - lra.
  - lra.
Qed.

Lemma historical_prediction_bounds (random : nat -> Q)
    (historicalData : list Sample) (route_ : string) (date_ : Moment.t)
    (hour_ : Value) (i : nat) :
  unitInterval random ->
  Forall (fun d => 0 < capacity d) historicalData ->
  let p := (getPrediction historicalData route_ date_ hour_ random i).1 in
  0 <= predicted_count p
  /\ within 0 100 (utilization_pct p) = true
  /\ (60 <= confidence p)%Q /\ (confidence p <= 95)%Q.
Proof.
  intros Hr Hcap. unfold getPrediction.
  pose proof (mock_prediction_bounds random route_ date_ i Hr)
    as (Hm1 & _ & Hm2 & Hm3 & Hm4).
  destruct (isEmpty (filter _ historicalData)) eqn:E1.
  { cbv zeta in *. repeat split; [lia | done | lra | lra]. }
  destruct (isEmpty (filter _ (filter _ historicalData))) eqn:E2.
  { cbv zeta in *. repeat split; [lia | done | lra | lra]. }
  cbv [bind ret Math_random fst snd predicted_count p_capacity
       utilization_pct confidence].
  repeat split.
  - lia.
  - apply utilization_window.
    + change 0%Q with (inject_Z 0). rewrite <- Zle_Qle. lia.
    + apply mean_pos; [by apply isEmpty_false|].
      by do 2 apply Forall_filter_keep.
  - apply confidence_window.
  - apply confidence_window.
Qed.

(** C7, as stated, fails on the mock fallback of the backend route:
    with a random value of 0.9 its confidence is 97. *)
Lemma backend_fallback_confidence_exceeds_95 :
  let p := (ForecastRoute.predict None "R" monday steady 0%nat).1.1 in
  unitInterval steady
  /\ confidence p = inject_Z 97
  /\ Qle_bool (confidence p) 95 = false.
Proof.
  split; [exact steady_unitInterval|]. vm_compute. split; reflexivity.
Qed.

(** C7 (amended): over every stream of random values in [0, 1), a
    prediction of the forecasting service, computed from historical
    samples of positive capacity or by its mock generator, has
    [predicted_count >= 0], [0 <= utilization_pct <= 100] and
    [60 <= confidence <= 95]; the mock fallback of the backend route
    has [10 <= predicted_count <= 59], [20 <= utilization_pct <= 99] and
    [70 <= confidence <= 99]. *)
Theorem prediction_bounds (random : nat -> Q)
    (historicalData : list Sample) (route_ : string) (date_ : Moment.t)
    (hour_ : Value) (i : nat) :
  unitInterval random ->
  Forall (fun d => 0 < capacity d) historicalData ->
  let p := (getPrediction historicalData route_ date_ hour_ random i).1 in
  let m := (generateMockPrediction route_ date_ random i).1 in
  let q := (ForecastRoute.predict None route_ date_ random i).1.1 in
  (0 <= predicted_count p
   /\ within 0 100 (utilization_pct p) = true
   /\ (60 <= confidence p)%Q /\ (confidence p <= 95)%Q)
  /\ (0 <= predicted_count m
      /\ within 0 100 (utilization_pct m) = true
      /\ (60 <= confidence m)%Q /\ (confidence m <= 95)%Q)
  /\ (10 <= predicted_count q <= 59
      /\ within 20 99 (utilization_pct q) = true
      /\ (70 <= confidence q)%Q /\ (confidence q <= 99)%Q).
Proof.
  intros Hr Hcap. split; [|split].
  - by apply historical_prediction_bounds.
  - pose proof (mock_prediction_bounds random route_ date_ i Hr)
      as (H1 & _ & H2 & H3 & H4).
    cbv zeta in *. repeat split; [lia | done | lra | lra].
  - run_random.
    destruct (Hr i) as [H1 H1'].
    destruct (Hr (S i)) as [H2 H2'].
    destruct (Hr (S (S i))) as [H3 H3'].
    pose proof (floor_random (random i) 50 H1 H1' eq_refl) as Hf1.
    pose proof (floor_random (random (S i)) 80 H2 H2' eq_refl) as Hf2.
    pose proof (floor_random (random (S (S i))) 30 H3 H3' eq_refl) as Hf3.
    change (inject_Z 50) with 50%Q in Hf1.
    change (inject_Z 80) with 80%Q in Hf2.
    change (inject_Z 30) with 30%Q in Hf3.
    repeat split; try lia.
    + apply andb_true_iff. split; apply Qle_bool_iff.
      * change 20%Q with (inject_Z 20). rewrite <- Zle_Qle. lia.
      * change 99%Q with (inject_Z 99). rewrite <- Zle_Qle. lia.
    + change 70%Q with (inject_Z 70). rewrite <- Zle_Qle. lia.
    + change 99%Q with (inject_Z 99). rewrite <- Zle_Qle. lia.
Qed.

Lemma prediction_bounds_witness :
  let p := (getPrediction seed "R" (Moment.ymd 2024 1 22) (Number 9)
              steady 0%nat).1 in
  unitInterval steady
  /\ Forall (fun d => 0 < capacity d) seed
  /\ 0 <= predicted_count p
  /\ within 0 100 (utilization_pct p) = true
  /\ (60 <= confidence p)%Q /\ (confidence p <= 95)%Q.
Proof.
  assert (Hcap : Forall (fun d => 0 < capacity d) seed).
  { repeat constructor. }
  split; [exact steady_unitInterval|]. split; [exact Hcap|].
  apply (prediction_bounds steady seed "R" (Moment.ymd 2024 1 22)
           (Number 9) 0%nat steady_unitInterval Hcap).
Defined.

(** Without the assumption on capacities the utilization can leave the
    window: a seed row of capacity -60 gives a negative percentage. *)
Example negative_capacity_row :
  let p := (getPrediction [mkSample "R" monday 9 30 (-60)] "R"
              (Moment.ymd 2024 1 22) (Number 9) steady 0%nat).1 in
  utilization_pct p = Fin (inject_Z (-65)).
Proof. vm_compute. reflexivity. Qed.

(** *** Shape of the responses (C8) *)

Lemma mapM_length {A B : Type} (f : A -> M B) (random : nat -> Q)
    (l : list A) :
  forall i, length (mapM f l random i).1 = length l.
Proof.
  induction l as [|a l IH]; intros i; simpl; [done|].
  unfold bind. destruct (f a random i) as [b j].
  specialize (IH j). destruct (mapM f l random j) as [bs k].
  simpl in *. by rewrite IH.
Qed.

Lemma mapM_Forall {A B : Type} (P : B -> Prop) (f : A -> M B)
    (random : nat -> Q) (l : list A) :
  (forall a i, P (f a random i).1) ->
  forall i, Forall P (mapM f l random i).1.
Proof.
  intros Hf. induction l as [|a l IH]; intros i; simpl; [constructor|].
  unfold bind. pose proof (Hf a i) as Ha.
  destruct (f a random i) as [b j].
  specialize (IH j). destruct (mapM f l random j) as [bs k].
  simpl in *. by constructor.
Qed.

Lemma mockAnalytics_wellShaped (random : nat -> Q) (now : Moment.t)
    (i : nat) :
  wellShaped (generateMockAnalytics now random i).1.
Proof.
  unfold generateMockAnalytics, bind.
  pose proof (mapM_length
    (fun day_ =>
       let* cells := mapM (fun hour_ => mockPoint hour_ 100 0 50 10)
                       hours24 in
       ret (mkRow day_ cells)) random dayNames i) as Hh.
  pose proof (mapM_Forall
    (fun row => length (row_hours row) = 24%nat)
    (fun day_ =>
       let* cells := mapM (fun hour_ => mockPoint hour_ 100 0 50 10)
                       hours24 in
       ret (mkRow day_ cells)) random dayNames) as Hrows.
  fold generateMockHeatmap in Hh, Hrows.
  assert (Hr : Forall (fun row => length (row_hours row) = 24%nat)
                 (generateMockHeatmap random i).1).
  { apply Hrows. intros day_ j. unfold bind.
    pose proof (mapM_length (fun hour_ => mockPoint hour_ 100 0 50 10)
                  random hours24 j) as Hc.
    destruct (mapM _ hours24 random j) as [cells k]. simpl in *.
    exact Hc. }
  destruct (generateMockHeatmap random i) as [h j].
  pose proof (mapM_length (fun k => mockPoint k 60 20 100 20) random
                (Z.of_nat <$> seq 0 7) j) as Hw.
  fold generateMockWeeklyTrend in Hw.
  destruct (generateMockWeeklyTrend random j) as [w k].
  pose proof (mapM_length (fun k => mockPoint k 80 10 30 5) random
                hours24 k) as Ho.
  fold generateMockHourlyTrend in Ho.
  destruct (generateMockHourlyTrend random k) as [ho l].
  simpl in *. repeat split; try done.
Qed.

Lemma hourlyLoop_length (data : list Sample) (hours : list Z) :
  forall l, hourlyLoop data hours = Returned l -> length l = length hours.
Proof.
  induction hours as [|h hours IH]; intros l; simpl.
  - by intros [= <-].
  - destruct (isEmpty _); [|discriminate].
    destruct (hourlyLoop data hours) as [rest|]; [|discriminate].
    simpl. intros [= <-]. simpl. by rewrite (IH rest).
Qed.

Lemma recommendations_nonempty (u : number) (data : list Sample)
    (recs : list string) :
  generateRecommendations u data = Returned recs -> recs <> [].
Proof.
  unfold generateRecommendations.
  destruct (generateHourlyTrend data) as [hourlyData|]; [|discriminate].
  simpl. destruct (isEmpty _).
  - simpl. intros [= <-]. intros H.
    repeat (apply app_eq_nil in H as [_ H]). discriminate.
  - destruct (getPeakHourRanges _); [|discriminate].
    simpl. intros [= <-]. intros H.
    repeat (apply app_eq_nil in H as [_ H]). discriminate.
Qed.

Lemma analyticsBody_wellShaped (routeId_ : string) (start end_ : Moment.t)
    (routeData : list Sample) (a : Analytics) :
  analyticsBody routeId_ start end_ routeData = Returned a ->
  wellShaped a.
Proof.
  unfold analyticsBody.
  destruct (generateHourlyTrend routeData) as [hourly_|] eqn:Eh;
    [|discriminate].
  cbn [andThen].
  destruct (generateRecommendations _ routeData) as [recs|] eqn:Er;
    [|discriminate].
  cbn [andThen]. intros [= <-]. unfold wellShaped.
  cbn [heatmap weekly hourly recommendations].
  split; [|split; [|split; [|split]]].
  - unfold generateHeatmapData. by rewrite length_fmap.
  - unfold generateHeatmapData. apply Forall_fmap, Forall_forall.
    intros day_ _. cbn [compose row_hours]. by rewrite length_fmap.
  - unfold generateWeeklyTrend. by rewrite length_fmap.
  - apply (hourlyLoop_length routeData hours24 hourly_ Eh).
  - exact (recommendations_nonempty _ _ _ Er).
Qed.

Lemma explanation_nonempty (p : Z) (c trend : Q) (d : Moment.t) :
  generateExplanation p c trend d <> [].
Proof.
  unfold generateExplanation. intros H.
  repeat (apply app_eq_nil in H as [_ H]). discriminate.
Qed.

(** C8: for every input, [getPrediction] and [getAnalytics] return a
    value (the model has no throwing path left once the [try]/[catch] of
    the source is applied): the prediction carries the requested route
    and date and a non-empty explanation, the analytics a 7 x 24 heatmap,
    7 weekly and 24 hourly points and a non-empty recommendation list.
    When no sample matches the route (for a prediction) or the window
    (for the analytics), in particular when there is no historical data,
    and when the analytics block throws, the mock value is returned. *)
Theorem forecast_always_returns (random : nat -> Q)
    (historicalData : list Sample) (now date_ : Moment.t)
    (route_ routeId_ : string) (hour_ : Value)
    (startDate endDate : option Moment.t) (i : nat) :
  let p := (getPrediction historicalData route_ date_ hour_ random i).1 in
  let a := (getAnalytics historicalData now routeId_ startDate endDate
              random i).1 in
  let start := default (Moment.subtractDays 30 now) startDate in
  let end_ := default now endDate in
  (p_route p = route_ /\ datetime p = date_ /\ explanation p <> [])
  /\ wellShaped a
  /\ (inRoute route_ historicalData = [] ->
      getPrediction historicalData route_ date_ hour_ random i
      = generateMockPrediction route_ date_ random i)
  /\ (inPeriod start end_ historicalData = [] ->
      getAnalytics historicalData now routeId_ startDate endDate random i
      = generateMockAnalytics now random i)
  /\ (forall err,
        analyticsBody routeId_ start end_
          (inPeriod start end_ historicalData) = Raised err ->
        getAnalytics historicalData now routeId_ startDate endDate random i
        = generateMockAnalytics now random i).
Proof.
  cbv zeta. split; [|split; [|split; [|split]]].
  - unfold getPrediction.
    destruct (isEmpty (filter _ historicalData)); [by repeat split|].
    destruct (isEmpty (filter _ (filter _ historicalData)));
      [by repeat split|].
    cbv [bind ret Math_random fst p_route datetime explanation].
    repeat split. apply explanation_nonempty.
  - unfold getAnalytics.
    destruct startDate as [s|], endDate as [e|]; simpl;
      (destruct (isEmpty _); [apply mockAnalytics_wellShaped|]);
      (destruct (analyticsBody _ _ _ _) as [a|] eqn:Ea;
         [by apply analyticsBody_wellShaped in Ea
         |apply mockAnalytics_wellShaped]).
  - unfold inRoute, getPrediction. by intros ->.
  - unfold inPeriod, getAnalytics.
    destruct startDate, endDate; simpl; by intros ->.
  - unfold inPeriod, getAnalytics. intros err.
    destruct startDate, endDate; simpl; intros ->;
      by destruct (isEmpty _).
Qed.

Lemma forecast_always_returns_witness :
  let hd := [mkSample "R" monday 24 30 60] in
  inRoute "Q" hd = []
  /\ getPrediction hd "Q" monday Undefined steady 0%nat
     = generateMockPrediction "Q" monday steady 0%nat
  /\ inPeriod (Moment.ymd 2023 1 1) (Moment.ymd 2023 1 31) hd = []
  /\ getAnalytics hd monday "Q" (Some (Moment.ymd 2023 1 1))
       (Some (Moment.ymd 2023 1 31)) steady 0%nat
     = generateMockAnalytics monday steady 0%nat.
Proof.
  intros hd.
  destruct (forecast_always_returns steady hd monday monday "Q" "Q"
              Undefined (Some (Moment.ymd 2023 1 1))
              (Some (Moment.ymd 2023 1 31)) 0%nat)
    as (_ & _ & Hp & Ha & _).
  split; [reflexivity|]. split; [apply Hp; reflexivity|].
  split; [reflexivity|]. apply Ha. reflexivity.
Defined.

(** *** Aggregation formulas of the analytics (C9) *)

Lemma hourlyLoop_raises (data : list Sample) (d : Sample)
    (hours : list Z) :
  d ∈ data -> hour d ∈ hours ->
  hourlyLoop data hours = Raised referenceError.
Proof.
  intros Hd. induction hours as [|h hours IH]; intros Hh.
  - by apply elem_of_nil in Hh.
  - simpl. destruct (isEmpty _) eqn:E; [|done].
    apply elem_of_cons in Hh as [Hh|Hh].
    + subst h.
      assert (Hin : d ∈ filter (fun d' => (hour d' =? hour d) = true) data).
      { apply list_elem_of_filter. split; [apply Z.eqb_refl | done]. }
      destruct (filter _ data); [by apply elem_of_nil in Hin | done].
    + by rewrite (IH Hh).
Qed.

Lemma hours24_spec (h : Z) : 0 <= h < 24 -> h ∈ hours24.
Proof.
  intros Hh. unfold hours24. apply list_elem_of_fmap.
  exists (Z.to_nat h). split; [lia|]. apply elem_of_seq. lia.
Qed.

(** Whenever the window holds a sample whose hour is one of 0..23, the
    hourly trend throws and [getAnalytics] answers with the mock
    analytics. *)
Lemma getAnalytics_falls_back (random : nat -> Q)
    (historicalData : list Sample) (now : Moment.t) (routeId_ : string)
    (startDate endDate : option Moment.t) (i : nat) (d : Sample) :
  d ∈ inPeriod (default (Moment.subtractDays 30 now) startDate)
        (default now endDate) historicalData ->
  0 <= hour d < 24 ->
  getAnalytics historicalData now routeId_ startDate endDate random i
  = generateMockAnalytics now random i.
Proof.
  intros Hd Hh. unfold getAnalytics.
  assert (E : forall s e,
            d ∈ inPeriod s e historicalData ->
            analyticsBody routeId_ s e
              (filter (fun d => inWindow s e d = true) historicalData)
            = Raised referenceError).
  { intros s e Hin. unfold inPeriod in Hin.
    unfold analyticsBody, generateHourlyTrend.
    by rewrite (hourlyLoop_raises _ d _ Hin (hours24_spec _ Hh)). }
  destruct startDate, endDate; simpl in *; rewrite (E _ _ Hd);
    by destruct (isEmpty _).
Qed.

(** C9 fails on the code: with one sample (route R, 2024-01-15, 09:00,
    30 bookings, capacity 60) inside the window 2024-01-01..2024-01-31
    the formulas give average 50, peak 65 and low 35, but the hourly
    trend throws on the unbound [dayData] and [getAnalytics] answers with
    the mock structure (route ["mock-route"], average 65, peak 85,
    low 35). *)
Theorem analytics_formulas_not_returned :
  let start := Moment.ymd 2024 1 1 in
  let end_ := Moment.ymd 2024 1 31 in
  let now := Moment.ymd 2024 2 1 in
  let a := (getAnalytics seed now "R" (Some start) (Some end_)
              steady 0%nat).1 in
  inPeriod start end_ seed = seed
  /\ utilizationFormula seed = (Fin 50, Fin 65, Fin 35)
  /\ generateHourlyTrend seed = Raised referenceError
  /\ getAnalytics seed now "R" (Some start) (Some end_) steady 0%nat
     = generateMockAnalytics now steady 0%nat
  /\ (routeId a, average a, peak a, low a)
     = ("mock-route", Fin 65, Fin 85, Fin 35).
Proof. vm_compute. repeat split; reflexivity. Qed.

End ForecastSpec.

(** * Further properties of the bookings *)

(** ** Lifecycle methods *)

Module LifecycleExtra.
Import JS Booking BookingRoutes BookingQueries Fixtures.

Lemma validate_cancelled (schemaMin now : Z) (reason : option string)
    (who : ObjectId) (b : Booking) :
  validate schemaMin b = true ->
  maxlength500 (trim <$> reason) = true ->
  validate schemaMin
    (set_cancellation reason now who (set_status cancelled b)) = true.
Proof.
  unfold validate, otherFieldsValid, travelDateValid, referencePresent.
  simpl. intros Hv Hr.
  apply andb_true_iff in Hv as [Hv Ho].
  apply andb_true_iff in Ho as [Ho Hp].
  apply andb_true_iff in Ho as [Ho Hs].
  apply andb_true_iff in Ho as [Hf _].
  by rewrite Hv, Hf, Hr, Hs, Hp.
Qed.

Lemma validate_long_reason (schemaMin : Z) (b : Booking) :
  maxlength500 (cancellationReason b) = false -> validate schemaMin b = false.
Proof.
  unfold validate, otherFieldsValid. intros ->.
  by rewrite !andb_false_r, ?andb_false_l.
Qed.

(** The effect of [cancel], for the proofs about the routes. *)
Lemma cancel_outcome (schemaMin now now' : Z) (reason reason' : option string)
    (who who' : ObjectId) (b : Booking) :
  status b <> completed -> status b <> cancelled ->
  let r := cancel schemaMin now reason who b in
  status r.1 = cancelled
  /\ cancellationReason r.1 = trim <$> reason
  /\ cancelledAt r.1 = Some now
  /\ cancelledBy r.1 = Some who
  /\ paymentStatus r.1 = paymentStatus b
  /\ sameTrip r.1 b
  /\ (validate schemaMin b = true ->
      maxlength500 (trim <$> reason) = true -> r.2 = Resolved)
  /\ (maxlength500 (trim <$> reason) = false -> r.2 = Thrown "ValidationError")
  /\ cancel schemaMin now' reason' who' r.1
     = (r.1, Thrown "Booking already cancelled").
Proof.
  intros Hc Hx. unfold cancel.
  rewrite (LifecycleSpec.Status_eqb_neq _ _ Hc),
    (LifecycleSpec.Status_eqb_neq _ _ Hx).
  cbn [fst snd]. repeat split.
  - intros Hv Hr. unfold save. by rewrite validate_cancelled.
  - intros Hr. unfold save. by rewrite validate_long_reason.
Qed.

(** [cancel] on a booking that is neither completed nor cancelled marks
    it cancelled and records the trimmed reason, the instant and the
    actor, leaving the payment status and the trip as they were; the
    promise resolves when the booking is valid and the trimmed reason has
    at most 500 code units, and rejects when it is longer; a second
    [cancel] throws. *)
Theorem cancel_records (schemaMin now now' : Z) (reason reason' : option string)
    (who who' : ObjectId) (b : Booking) :
  status b <> completed -> status b <> cancelled ->
  let r := cancel schemaMin now reason who b in
  status r.1 = cancelled
  /\ cancellationReason r.1 = trim <$> reason
  /\ cancelledAt r.1 = Some now
  /\ cancelledBy r.1 = Some who
  /\ paymentStatus r.1 = paymentStatus b
  /\ sameTrip r.1 b
  /\ (validate schemaMin b = true ->
      maxlength500 (trim <$> reason) = true -> r.2 = Resolved)
  /\ (maxlength500 (trim <$> reason) = false -> r.2 = Thrown "ValidationError")
  /\ cancel schemaMin now' reason' who' r.1
     = (r.1, Thrown "Booking already cancelled").
Proof.
  intros Hc Hx. unfold cancel.
  rewrite (LifecycleSpec.Status_eqb_neq _ _ Hc),
    (LifecycleSpec.Status_eqb_neq _ _ Hx).
  cbn [fst snd]. repeat split.
  - intros Hv Hr. unfold save. by rewrite validate_cancelled.
  - intros Hr. unfold save. by rewrite validate_long_reason.
Qed.

(** A reason of 500 letters between a no-break space (U+00A0) and a
    line feed is stored without them, and the promise resolves. *)
Lemma cancel_records_witness :
  let nbsp := ascii_of_nat 160 in
  let letters := repeat "x"%char 500 in
  let reason :=
    string_of_list_ascii (nbsp :: letters ++ [ascii_of_nat 10]) in
  let r := cancel 0 7 (Some reason) 1%nat
             (confirm 0 (sampleBooking pending)).1 in
  status (confirm 0 (sampleBooking pending)).1 <> completed
  /\ String.length reason = 502%nat
  /\ status r.1 = cancelled
  /\ cancellationReason r.1 = Some (string_of_list_ascii letters)
  /\ paymentStatus r.1 = paid
  /\ r.2 = Resolved.
Proof.
  intros nbsp letters reason.
  set (b := (confirm 0 (sampleBooking pending)).1).
  assert (H1 : status b <> completed) by (vm_compute; discriminate).
  assert (H2 : status b <> cancelled) by (vm_compute; discriminate).
  destruct (cancel_records 0 7 8 (Some reason) None 1%nat 1%nat
              b H1 H2) as (Hs & Hr & _ & _ & Hp & _ & Hok & _).
  split; [exact H1|]. split; [by vm_compute|]. split; [exact Hs|].
  split; [rewrite Hr; by vm_compute|].
  split; [rewrite Hp; reflexivity|]. apply Hok; by vm_compute.
Defined.

Lemma validate_checkIn (schemaMin now : Z) (b : Booking) :
  validate schemaMin (set_checkInTime now b) = validate schemaMin b.
Proof. reflexivity. Qed.

Lemma validate_completed (schemaMin now : Z) (b : Booking) :
  validate schemaMin (set_checkOutTime now (set_status completed b))
  = validate schemaMin b.
Proof. reflexivity. Qed.

(** [checkIn] on a valid confirmed booking resolves and writes only
    [checkInTime]: the status stays [confirmed], so a later [checkIn]
    resolves again and replaces the instant. [complete] does not ask for a
    check-in: it resolves on a confirmed booking that was never checked
    in. *)
Theorem checkIn_keeps_status (schemaMin t1 t2 : Z) (b : Booking) :
  status b = confirmed -> validate schemaMin b = true ->
  let r1 := checkIn schemaMin t1 b in
  let r2 := checkIn schemaMin t2 r1.1 in
  r1 = (set_checkInTime t1 b, Resolved)
  /\ status r1.1 = confirmed
  /\ r2 = (set_checkInTime t2 b, Resolved)
  /\ (complete schemaMin t2 b).2 = Resolved
  /\ checkInTime (complete schemaMin t2 b).1 = checkInTime b.
Proof.
  intros Hs Hv.
  assert (H : forall t b', status b' = confirmed ->
                validate schemaMin b' = true ->
                checkIn schemaMin t b' = (set_checkInTime t b', Resolved)).
  { intros t b' Hs' Hv'. unfold checkIn, save.
    by rewrite Hs', validate_checkIn, Hv'. }
  cbv zeta. rewrite (H t1 b Hs Hv). cbn [fst].
  rewrite (H t2 (set_checkInTime t1 b)) by done.
  unfold complete, save. rewrite Hs, validate_completed, Hv.
  repeat split; exact Hs.
Qed.

Lemma checkIn_keeps_status_witness :
  let b := (confirm 0 (sampleBooking pending)).1 in
  status b = confirmed /\ validate 0 b = true
  /\ checkIn 0 9 (checkIn 0 8 b).1 = (set_checkInTime 9 b, Resolved).
Proof.
  intros b. split; [reflexivity|]. split; [reflexivity|].
  apply (checkIn_keeps_status 0 8 9 b); reflexivity.
Defined.

(** A valid pending booking goes through [confirm], [checkIn] and
    [complete]: each call resolves, and the document ends completed and
    paid, with both instants recorded and the trip unchanged. *)
Theorem full_journey (schemaMin t1 t2 : Z) (b : Booking) :
  status b = pending -> validate schemaMin b = true ->
  let r1 := confirm schemaMin b in
  let r2 := checkIn schemaMin t1 r1.1 in
  let r3 := complete schemaMin t2 r2.1 in
  r1.2 = Resolved /\ r2.2 = Resolved /\ r3.2 = Resolved
  /\ status r3.1 = completed /\ paymentStatus r3.1 = paid
  /\ checkInTime r3.1 = Some t1 /\ checkOutTime r3.1 = Some t2
  /\ sameTrip r3.1 b
  /\ calls schemaMin [CallConfirm; CallCheckIn t1; CallComplete t2] b = r3.1.
Proof.
  intros Hs Hv. unfold calls, call, confirm, checkIn, complete.
  cbn [foldl fst snd]. rewrite Hs. cbn [Status_eqb negb status fst snd].
  unfold save.
  change (validate schemaMin
            (set_paymentStatus paid (set_status confirmed b)))
    with (validate schemaMin b).
  change (validate schemaMin
            (set_checkInTime t1
               (set_paymentStatus paid (set_status confirmed b))))
    with (validate schemaMin b).
  change (validate schemaMin
            (set_checkOutTime t2
               (set_status completed
                  (set_checkInTime t1
                     (set_paymentStatus paid (set_status confirmed b))))))
    with (validate schemaMin b).
  rewrite Hv. unfold sameTrip. cbn. repeat split.
  match goal with
  | |- context [validate schemaMin ?x] =>
      change (validate schemaMin x) with (validate schemaMin b)
  end.
  by rewrite Hv.
Qed.

Lemma full_journey_witness :
  let b := sampleBooking pending in
  status b = pending /\ validate 0 b = true
  /\ status (calls 0 [CallConfirm; CallCheckIn 8; CallComplete 9] b)
     = completed.
Proof.
  intros b.
  destruct (full_journey 0 8 9 b eq_refl eq_refl)
    as (_ & _ & _ & Hs & _ & _ & _ & _ & ->).
  split; [reflexivity|]. split; [reflexivity|]. exact Hs.
Defined.

Lemma call_step (schemaMin : Z) (c : Call) (b : Booking) :
  let b' := (call schemaMin c b).1 in
  (rank (status b) <= rank (status b'))%nat
  /\ sameTrip b' b
  /\ (status b = completed \/ status b = cancelled -> b' = b).
Proof.
  destruct c as [now reason who| |now|now];
    unfold call, cancel, confirm, complete, checkIn, sameTrip;
    destruct (status b) eqn:Es; cbn [Status_eqb negb fst];
    cbn; rewrite ?Es; cbn;
    repeat split; try lia; try (intros [H|H]; discriminate); auto.
Qed.

(** Whatever methods are called on a document, in whatever order and
    with whatever outcome, its status never moves back (pending, then
    confirmed, then one of cancelled, completed, no_show), its trip (user,
    route, schedule, vehicle, date, seat, fare) never changes, and a
    completed or cancelled document is never changed again. *)
Theorem calls_never_go_back (schemaMin : Z) (cs : list Call) (b : Booking) :
  (rank (status b) <= rank (status (calls schemaMin cs b)))%nat
  /\ sameTrip (calls schemaMin cs b) b
  /\ (status b = completed \/ status b = cancelled ->
      calls schemaMin cs b = b).
Proof.
  revert b. induction cs as [|c cs IH]; intros b.
  - unfold calls, sameTrip. simpl. repeat split; auto.
  - change (calls schemaMin (c :: cs) b)
      with (calls schemaMin cs (call schemaMin c b).1).
    destruct (call_step schemaMin c b) as (Hr & Ht & Hf).
    destruct (IH (call schemaMin c b).1) as (Hr' & Ht' & Hf').
    split; [lia|]. split.
    + unfold sameTrip in *.
      destruct Ht as (?&?&?&?&?&?&?), Ht' as (?&?&?&?&?&?&?).
      repeat split; congruence.
    + intros H. rewrite (Hf H) in *. by apply Hf'.
Qed.

Lemma calls_never_go_back_witness :
  let b := sampleBooking completed in
  let cs := [CallCancel 5 None 1%nat; CallConfirm; CallCheckIn 6] in
  status b = completed /\ calls 0 cs b = b.
Proof.
  intros b cs. split; [reflexivity|].
  destruct (calls_never_go_back 0 cs b) as (_ & _ & H).
  apply H. left. reflexivity.
Defined.

End LifecycleExtra.

(** ** Requests and their effect on the store *)

Module RoutesExtra.
Import JS Booking BookingRoutes BookingQueries Fixtures.

(** *** What one request changes *)

(** The cases of [POST /api/bookings] as the handler is written, for the
    proofs about sequences of requests. *)
Lemma postBooking_cases (schemaMin : Z) (db : Db) (u : User)
    (body : ReqBody) :
  let r := postBooking schemaMin db u body in
  routes r.1 = routes db /\ schedules r.1 = schedules db
  /\ match r.2 with
     | Created201 doc =>
         bookings r.1 = bookings db ++ [doc] /\ user doc = _id u
     | Ok200 _ | Forbidden403 => False
     | _ => r.1 = db
     end.
Proof.
  unfold postBooking.
  destruct (validateBody body) as [v|] eqn:Ev; [|done].
  destruct (negb _); [done|].
  destruct (schedules db !! v_scheduleId v) as [sch|] eqn:Es; [|done].
  destruct (negb _) eqn:Er; [done|].
  destruct (findOne _ _ _ _); [done|]. cbv zeta.
  destruct (insert schemaMin db (newBooking u v sch)) as [db' o] eqn:Ei.
  by apply RoutesSpec.insert_inv in Ei as [(-> & -> & _)|(msg & -> & ->)].
Qed.

(** [POST /api/bookings] never stores a booking and never answers 201.
    The handler builds the document without a booking reference; the
    schema requires one, and the pre-save hook that generates it runs
    after the validation. A request that passes the validators, names
    an existing route and a schedule of that route, and asks for a free
    seat, ends with a validation error that names [bookingReference];
    every other request is answered 400, 404 or 409 as before. *)
Theorem reservation_is_never_stored (schemaMin : Z) (db : Db) (u : User)
    (body : ReqBody) :
  let r := postBooking schemaMin db u body in
  r.1 = db
  /\ (forall doc, r.2 <> Created201 doc)
  /\ (r.2 = BadRequest400 \/ (exists m, r.2 = NotFound404 m)
      \/ r.2 = Conflict409 "Seat already booked" "SEAT_OCCUPIED"
      \/ r.2 = Errored "ValidationError")
  /\ (forall v sch,
        validateBody body = Some v ->
        v_routeId v ∈ routes db ->
        schedules db !! v_scheduleId v = Some sch ->
        sched_route sch = v_routeId v ->
        findOne (v_scheduleId v) (v_travelDate v) (v_seatNumber v)
          (bookings db) = None ->
        r.2 = Errored "ValidationError"
        /\ "bookingReference" ∈ invalidPaths schemaMin (newBooking u v sch)).
Proof.
  assert (Hins : forall v sch,
            insert schemaMin db (newBooking u v sch)
            = (db, Thrown "ValidationError")).
  { intros v sch. unfold insert, save, validate.
    rewrite RoutesSpec.newBooking_reference.
    by rewrite andb_false_r. }
  cbv zeta. split; [|split; [|split]].
  - unfold postBooking. repeat case_match; try done.
    all: rewrite Hins in *; simplify_eq; done.
  - intros doc. unfold postBooking. repeat case_match; try done.
    all: rewrite Hins in *; simplify_eq.
  - unfold postBooking. repeat case_match; simplify_eq; eauto 6.
    all: rewrite Hins in *; simplify_eq; eauto 6.
  - intros v sch Hv Hr Hs Hsr Hf. unfold postBooking.
    rewrite Hv, (bool_decide_eq_true_2 _ Hr). cbn [negb].
    rewrite Hs, Hsr, Nat.eqb_refl. cbn [negb]. rewrite Hf. cbv zeta.
    rewrite Hins. split; [done|].
    by apply RoutesSpec.invalidPaths_reference.
Qed.

(** The request of the test ["should create a new booking"]: seat
    ["A1"], fare 20, on an existing route and schedule. *)
Lemma reservation_is_never_stored_witness :
  let r := postBooking 0 db0 alice (bodyFor "A1" 1741564800000) in
  r = (db0, Errored "ValidationError")
  /\ invalidPaths 0
       (newBooking alice
          (mkValidated 10 20 1741564800000 "A1" 20 None None)
          (mkSchedule 10 (mkVehicle 30 50)))
     = ["bookingReference"].
Proof.
  intros r.
  destruct (reservation_is_never_stored 0 db0 alice
              (bodyFor "A1" 1741564800000)) as (Hdb & _ & _ & H).
  destruct (H (mkValidated 10 20 1741564800000 "A1" 20 None None)
              (mkSchedule 10 (mkVehicle 30 50))) as [Hr _];
    [reflexivity | apply (bool_decide_unpack _); by vm_compute
    | reflexivity | reflexivity | reflexivity |].
  split; [|reflexivity].
  rewrite (surjective_pairing r). fold r in Hdb, Hr. by rewrite Hdb, Hr.
Defined.

(** The store after a request is the store before it, or (as the
    reservation handler is written) the store with one more document of
    the actor, or the store with one document of the actor replaced by
    the result of a lifecycle method. *)
Lemma handle_store (schemaMin now : Z) (db : Db) (r : Request) :
  let db' := (handle schemaMin now db r).1 in
  db' = db
  \/ (exists doc, db' = set_bookings (bookings db ++ [doc]) db
                  /\ user doc = _id (actorOf r))
  \/ (exists (id : ObjectId) b c,
        bookings db !! id = Some b /\ user b = _id (actorOf r)
        /\ db' = set_bookings
                   (<[id := (call schemaMin c b).1]> (bookings db)) db).
Proof.
  destruct r as [u body|id u reason|id u|id u]; cbn [handle actorOf].
  - pose proof (postBooking_cases schemaMin db u body) as (Hr & Hs & H).
    cbv zeta in *.
    destruct (postBooking schemaMin db u body) as [db' resp]. cbn in *.
    destruct resp; try done; try (by left).
    destruct H as [Hb Hu]. right. left. exists data. split; [|done].
    destruct db'. cbn in *. by subst.
  - unfold putCancel. destruct (bookings db !! id) as [b|] eqn:Eb; [|by left].
    unfold isOwner. destruct (user b =? _id u)%nat eqn:Eo; [|by left].
    apply Nat.eqb_eq in Eo. cbn [negb].
    destruct (cancel _ _ _ _ _) as [b' o] eqn:Ec.
    destruct o; [|by left]. right. right.
    exists id, b, (CallCancel now (trim <$> reason) (_id u)).
    split; [done|]. split; [done|]. cbn [call]. rewrite Ec.
    unfold afterCancel. by destruct (bool_decide _).
  - unfold putConfirm. destruct (bookings db !! id) as [b|] eqn:Eb; [|by left].
    unfold isOwner. destruct (user b =? _id u)%nat eqn:Eo; [|by left].
    apply Nat.eqb_eq in Eo. cbn [negb].
    destruct (confirm _ _) as [b' o] eqn:Ec.
    destruct o; [|by left]. right. right.
    exists id, b, CallConfirm.
    split; [done|]. split; [done|]. cbn [call]. by rewrite Ec.
  - unfold putCheckIn. destruct (bookings db !! id) as [b|] eqn:Eb; [|by left].
    unfold isOwner. destruct (user b =? _id u)%nat eqn:Eo; [|by left].
    apply Nat.eqb_eq in Eo. cbn [negb].
    destruct (checkIn _ _ _) as [b' o] eqn:Ec.
    destruct o; [|by left]. right. right.
    exists id, b, (CallCheckIn now).
    split; [done|]. split; [done|]. cbn [call]. by rewrite Ec.
Qed.

(** The three lifecycle routes keep the number of bookings and every
    booking other than the addressed one. With an answer 200 the
    addressed booking is the returned document. With any other answer
    the store is unchanged, also when the method had already written to
    the document before [save] rejected it, with one exception: the
    cancel route reads the populated route after the cancellation was
    saved, so when the route document of the booking no longer exists
    the booking is stored as cancelled and the answer is an error. *)
Theorem lifecycle_routes_frame (schemaMin now : Z) (db : Db) (r : Request) :
  (forall u body, r <> PostBooking u body) ->
  let out := handle schemaMin now db r in
  routes out.1 = routes db /\ schedules out.1 = schedules db
  /\ length (bookings out.1) = length (bookings db)
  /\ match r, out.2 with
     | PostBooking _ _, _ => False
     | (PutCancel id _ _ | PutConfirm id _ | PutCheckIn id _), Ok200 data =>
         bookings out.1 = <[id := data]> (bookings db)
         /\ (forall j, j <> id -> bookings out.1 !! j = bookings db !! j)
     | _, Created201 _ => False
     | PutCancel id u reason, Errored msg =>
         out.1 = db
         \/ (exists b b',
               bookings db !! id = Some b /\ (route b ∉ routes db)
               /\ cancel schemaMin now (trim <$> reason) (_id u) b
                  = (b', Resolved)
               /\ status b' = cancelled /\ route b' = route b
               /\ bookings out.1 = <[id := b']> (bookings db)
               /\ (forall j, j <> id ->
                             bookings out.1 !! j = bookings db !! j))
     | _, _ => out.1 = db
     end.
Proof.
  intros Hr. destruct r as [u body|id u reason|id u|id u];
    [by destruct (Hr u body)|..];
    cbn [handle]; unfold putCancel, putConfirm, putCheckIn;
    (destruct (bookings db !! id) as [b|] eqn:Eb; [|done]);
    (destruct (negb _); [done|]).
  - destruct (cancel _ _ _ _ _) as [b' o] eqn:Ec.
    destruct o; [|by repeat split; try left].
    assert (Hb' : status b' = cancelled /\ route b' = route b).
    { unfold cancel in Ec. repeat case_match; by simplify_eq. }
    unfold afterCancel. destruct (bool_decide _) eqn:Ed;
      cbn; rewrite length_insert; repeat split.
    + intros j Hj. by rewrite list_lookup_insert_ne.
    + right. exists b, b'. destruct Hb' as [Hs Hro].
      apply bool_decide_eq_false in Ed. rewrite Hro in Ed.
      repeat split; try done.
      intros j Hj. by rewrite list_lookup_insert_ne.
  - destruct (confirm _ _) as [b' []]; [|done].
    cbn. rewrite length_insert. repeat split.
    intros j Hj. by rewrite list_lookup_insert_ne.
  - destruct (checkIn _ _ _) as [b' []]; [|done].
    cbn. rewrite length_insert. repeat split.
    intros j Hj. by rewrite list_lookup_insert_ne.
Qed.

(** A booking of route 11, whose document is gone: the owner's cancel is
    answered with an error and the booking is cancelled all the same. *)
Lemma lifecycle_routes_frame_witness :
  let b := mkBooking 1 11 20 30 1741564800000 "Seat 1" 20 pending
             pay_pending None None None None None None None
             (Some "STSEED0001") in
  let db := set_bookings [b] db0 in
  let out := handle 0 5 db (PutCancel 0 alice None) in
  (forall u body, PutCancel 0 alice None <> PostBooking u body)
  /\ (route b ∉ routes db)
  /\ out.2 = Errored "TypeError: Cannot read properties of null"
  /\ status <$> bookings out.1 = [cancelled]
  /\ length (bookings out.1) = 1%nat.
Proof.
  intros b db out.
  assert (Hne : forall u body,
            PutCancel 0 alice None <> PostBooking u body) by done.
  pose proof (lifecycle_routes_frame 0 5 db (PutCancel 0 alice None) Hne)
    as (_ & _ & Hlen & _).
  split; [exact Hne|]. split; [by vm_compute|].
  split; [by vm_compute|]. split; [by vm_compute | exact Hlen].
Defined.

(** A reason of 501 letters: [cancel] has assigned its fields when
    [save] rejects, and the store keeps the booking as it was. *)
Example long_reason_changes_nothing :
  let long := string_of_list_ascii (repeat "x"%char 501) in
  let out := handle 0 5 db1 (PutCancel 0 alice (Some long)) in
  (cancel 0 5 (Some long) 1%nat (booking0 1)).2 = Thrown "ValidationError"
  /\ out = (db1, Errored "ValidationError").
Proof. vm_compute. split; reflexivity. Qed.

(** *** What a sequence of requests keeps *)

Lemma method_step (schemaMin : Z) (c : Call) (b : Booking) :
  (rank (status b) <= rank (status (call schemaMin c b).1))%nat
  /\ sameTrip (call schemaMin c b).1 b.
Proof.
  destruct c as [now reason who| |now|now];
    unfold call, cancel, confirm, complete, checkIn, sameTrip;
    destruct (status b) eqn:Es; cbn [Status_eqb negb fst];
    cbn; rewrite ?Es; cbn; repeat split; lia.
Qed.

Lemma keeps_refl (b : Booking) : keeps b b.
Proof. unfold keeps, sameTrip. repeat split; lia. Qed.

Lemma keeps_trans (a b c : Booking) : keeps a b -> keeps b c -> keeps a c.
Proof.
  unfold keeps, sameTrip.
  intros [(?&?&?&?&?&?&?) ?] [(?&?&?&?&?&?&?) ?].
  repeat split; try congruence. lia.
Qed.

Lemma handle_keeps (schemaMin now : Z) (db : Db) (r : Request)
    (id : ObjectId) (b : Booking) :
  bookings db !! id = Some b ->
  exists b', bookings (handle schemaMin now db r).1 !! id = Some b'
             /\ keeps b b'.
Proof.
  intros Hb.
  destruct (handle_store schemaMin now db r)
    as [->|[(doc & -> & _)|(id' & b0 & c & Hb0 & _ & ->)]].
  - exists b. split; [done | apply keeps_refl].
  - exists b. split; [by apply lookup_app_l_Some | apply keeps_refl].
  - cbn [bookings set_bookings].
    destruct (decide (id = id')) as [->|Hne].
    + assert (b0 = b) as -> by (unfold ObjectId in *; congruence).
      exists (call schemaMin c b).1.
      rewrite list_lookup_insert_eq by (by eapply lookup_lt_Some).
      split; [done|]. destruct (method_step schemaMin c b). by split.
    + exists b. rewrite list_lookup_insert_ne by done.
      split; [done | apply keeps_refl].
Qed.

(** No request removes or re-keys a booking: after any sequence of
    requests a booking is still stored under its id with the same user,
    route, schedule, vehicle, travel date, seat and fare, and its status
    has not moved back. *)
Theorem serve_keeps_bookings (schemaMin : Z) (rs : list (Z * Request))
    (db : Db) (id : ObjectId) (b : Booking) :
  bookings db !! id = Some b ->
  exists b', bookings (serve schemaMin db rs) !! id = Some b'
             /\ sameTrip b' b
             /\ (rank (status b) <= rank (status b'))%nat.
Proof.
  revert db b. induction rs as [|[now r] rs IH]; intros db b Hb.
  - exists b. split; [done|]. apply keeps_refl.
  - cbn [serve].
    destruct (handle_keeps schemaMin now db r id b Hb) as (b1 & H1 & K1).
    destruct (IH _ _ H1) as (b2 & H2 & K2).
    exists b2. split; [done|]. by apply (keeps_trans b b1 b2).
Qed.

Lemma serve_keeps_bookings_witness :
  let db' := serve 0 db1 [(5, PutConfirm 0 alice); (6, PostBooking bob body0);
                          (7, PutCancel 0 alice None)] in
  bookings db1 !! 0%nat = Some (booking0 1)
  /\ exists b', bookings db' !! 0%nat = Some b'
                /\ sameTrip b' (booking0 1)
                /\ (rank (status (booking0 1)) <= rank (status b'))%nat.
Proof.
  intros db'. split; [reflexivity|].
  apply (serve_keeps_bookings 0 _ db1 0%nat (booking0 1)). reflexivity.
Defined.

Lemma handle_isolated (schemaMin now : Z) (db : Db) (r : Request)
    (id : ObjectId) (b : Booking) :
  bookings db !! id = Some b -> _id (actorOf r) <> user b ->
  bookings (handle schemaMin now db r).1 !! id = Some b.
Proof.
  intros Hb Hne.
  destruct (handle_store schemaMin now db r)
    as [->|[(doc & -> & _)|(id' & b0 & c & Hb0 & Hu & ->)]].
  - done.
  - by apply lookup_app_l_Some.
  - cbn [bookings set_bookings].
    rewrite list_lookup_insert_ne; [done|].
    intros <-. unfold ObjectId in *. congruence.
Qed.

(** A booking is changed only by requests of its owner: whatever the
    other users (administrators included) send, in any number and order,
    the booking stays exactly as it was. *)
Theorem serve_isolation (schemaMin : Z) (rs : list (Z * Request)) (db : Db)
    (id : ObjectId) (b : Booking) :
  bookings db !! id = Some b ->
  Forall (fun nr => _id (actorOf nr.2) <> user b) rs ->
  bookings (serve schemaMin db rs) !! id = Some b.
Proof.
  intros Hb Hrs. revert db Hb.
  induction Hrs as [|[now r] rs Hr Hrs IH]; intros db Hb; [done|].
  cbn [serve]. apply IH. by apply handle_isolated.
Qed.

Lemma serve_isolation_witness :
  let rs := [(5, PutCancel 0 bob None); (6, PutConfirm 0 root);
             (7, PostBooking bob body0); (8, PutCheckIn 0 root)] in
  bookings db1 !! 0%nat = Some (booking0 1)
  /\ Forall (fun nr => _id (actorOf nr.2) <> user (booking0 1)) rs
  /\ bookings (serve 0 db1 rs) !! 0%nat = Some (booking0 1).
Proof.
  intros rs.
  assert (H : Forall (fun nr => _id (actorOf nr.2) <> user (booking0 1)) rs).
  { repeat constructor; vm_compute; lia. }
  split; [reflexivity|]. split; [exact H|].
  apply (serve_isolation 0 rs db1 0%nat (booking0 1)); [reflexivity | exact H].
Defined.

End RoutesExtra.

(** ** Read routes and statistics *)

Module QueriesExtra.
Import JS Booking BookingRoutes BookingQueries Fixtures.

(** *** Cancelling frees the seat *)

Lemma seatTaken_sameSeat (b b' : Booking) :
  seatTaken (schedule b) (travelDate b) (seatNumber b) b'
  = sameSeat b' b && active (status b').
Proof. reflexivity. Qed.

(** In a store that satisfies the seat invariant, a reservation of the
    seat of an active booking is answered 409; once the owner has
    cancelled that booking the seat check finds nothing for its
    schedule, instant and seat, and a reservation of that seat by any
    user passes the seat check and goes on to [save]. *)
Theorem cancel_frees_seat (schemaMin now : Z) (db : Db) (id : ObjectId)
    (u u2 : User) (reason : option string) (b : Booking) (v : Validated)
    (sch : Schedule) :
  seatUnique (bookings db) = true ->
  bookings db !! id = Some b ->
  user b = _id u -> active (status b) = true ->
  validate schemaMin b = true ->
  maxlength500 (trim <$> (trim <$> reason)) = true ->
  v_scheduleId v = schedule b -> v_travelDate v = travelDate b ->
  v_seatNumber v = seatNumber b ->
  let r1 := putCancel schemaMin now db id u reason in
  step schemaMin db (AwaitFindOne u2 v sch)
  = (db, Finished (Conflict409 "Seat already booked" "SEAT_OCCUPIED"))
  /\ (exists b', bookings r1.1 !! id = Some b' /\ status b' = cancelled
                 /\ (route b ∈ routes db -> r1.2 = Ok200 b'))
  /\ findOne (schedule b) (travelDate b) (seatNumber b) (bookings r1.1) = None
  /\ step schemaMin r1.1 (AwaitFindOne u2 v sch)
     = (r1.1, AwaitSave (newBooking u2 v sch)).
Proof.
  intros Hu Hb Ho Ha Hv Hr Hs Ht Hn.
  apply RoutesSpec.seatUnique_spec in Hu.
  assert (Hst : status b <> completed /\ status b <> cancelled).
  { destruct (status b); simpl in Ha; split; congruence. }
  destruct Hst as [Hc Hx].
  destruct (LifecycleExtra.cancel_outcome schemaMin now now (trim <$> reason)
              None (_id u) (_id u) b Hc Hx)
    as (Hs' & _ & _ & _ & _ & Htrip & Hok & _).
  specialize (Hok Hv Hr).
  set (b' := (cancel schemaMin now (trim <$> reason) (_id u) b).1) in *.
  assert (E1 : putCancel schemaMin now db id u reason
               = afterCancel db id b').
  { unfold putCancel, isOwner. rewrite Hb, Ho, Nat.eqb_refl. cbn [negb].
    unfold b'. destruct (cancel _ _ _ _ b) as [b0 o]. cbn in Hok.
    by rewrite Hok. }
  assert (E2 : bookings (afterCancel db id b').1 = <[id := b']> (bookings db)).
  { unfold afterCancel. by destruct (bool_decide _). }
  assert (Hfind : findOne (schedule b) (travelDate b) (seatNumber b)
                    (<[id := b']> (bookings db)) = None).
  { unfold findOne. destruct (find _ _) as [x|] eqn:Ef; [|done].
    apply find_some in Ef as [Hin Hx'].
    apply list_elem_of_In, list_elem_of_lookup in Hin as [j Hj].
    destruct (decide (j = id)) as [->|Hne].
    - rewrite list_lookup_insert_eq in Hj by (by eapply lookup_lt_Some).
      injection Hj as <-. unfold seatTaken in Hx'.
      rewrite Hs', andb_false_r in Hx'. discriminate.
    - rewrite list_lookup_insert_ne in Hj by done.
      rewrite seatTaken_sameSeat in Hx'.
      apply andb_true_iff in Hx' as [Hss Hax].
      rewrite (RoutesSpec.SeatUnique_ne _ j id x b Hu Hne Hj Hb Hax Ha)
        in Hss. discriminate. }
  cbv zeta. rewrite E1. split; [|split; [|split]].
  - cbn [step]. rewrite Hs, Ht, Hn.
    destruct (RoutesSpec.findOne_Some (schedule b) (travelDate b)
                (seatNumber b) (bookings db) b) as [x ->]; [|by rewrite
      seatTaken_sameSeat, Ha, andb_true_r; unfold sameSeat;
      rewrite Nat.eqb_refl, Z.eqb_refl, String.eqb_refl|done].
    apply list_elem_of_lookup. by exists id.
  - exists b'. rewrite E2.
    rewrite list_lookup_insert_eq by (by eapply lookup_lt_Some).
    split; [done|]. split; [done|]. intros Hroute. unfold afterCancel.
    assert (Hrb : route b' = route b) by apply Htrip.
    rewrite Hrb. by rewrite (bool_decide_eq_true_2 _ Hroute).
  - by rewrite E2.
  - cbn [step]. rewrite Hs, Ht, Hn, E2, Hfind. done.
Qed.

Lemma cancel_frees_seat_witness :
  let v := mkValidated 10 20 1741564800000 "Seat 1" 20 None None in
  let sch := mkSchedule 10 (mkVehicle 30 50) in
  let r1 := putCancel 0 5 db1 0 alice None in
  postBooking 0 db1 bob body0
  = (db1, Conflict409 "Seat already booked" "SEAT_OCCUPIED")
  /\ step 0 r1.1 (AwaitFindOne bob v sch)
     = (r1.1, AwaitSave (newBooking bob v sch)).
Proof.
  intros v sch r1. split; [reflexivity|].
  by apply (cancel_frees_seat 0 5 db1 0%nat alice bob None (booking0 1)
              v sch).
Defined.

(** *** Reading a booking *)

(** [GET /api/bookings/:id] answers 200 with the booking exactly when the
    actor owns it or has the role admin, and 403 otherwise; so an
    administrator who does not own a booking can read it, while the
    cancel, confirm and check-in routes answer 403 to the same actor. *)
Theorem read_access (schemaMin now : Z) (db : Db) (id : ObjectId) (u : User)
    (reason : option string) (booking : Booking) :
  bookings db !! id = Some booking ->
  (getBooking db id u = Ok200 booking
   <-> user booking = _id u \/ role u = "admin")
  /\ (getBooking db id u <> Ok200 booking -> getBooking db id u = Forbidden403)
  /\ (role u = "admin" -> user booking <> _id u ->
      getBooking db id u = Ok200 booking
      /\ putCancel schemaMin now db id u reason = (db, Forbidden403)
      /\ putConfirm schemaMin db id u = (db, Forbidden403)
      /\ putCheckIn schemaMin now db id u = (db, Forbidden403)).
Proof.
  intros Hb. unfold getBooking, putCancel, putConfirm, putCheckIn, isOwner.
  rewrite Hb.
  destruct (Nat.eqb_spec (user booking) (_id u)) as [He|Hne];
    destruct (String.eqb_spec (role u) "admin") as [Ha|Hna];
    cbn [negb andb]; intuition (try congruence; try done).
Qed.

Lemma read_access_witness :
  bookings db1 !! 0%nat = Some (booking0 1)
  /\ role root = "admin" /\ user (booking0 1) <> _id root
  /\ getBooking db1 0 root = Ok200 (booking0 1)
  /\ putCancel 0 5 db1 0 root None = (db1, Forbidden403)
  /\ getBooking db1 0 bob = Forbidden403.
Proof.
  destruct (read_access 0 5 db1 0%nat root None (booking0 1) eq_refl)
    as (_ & _ & H).
  destruct (read_access 0 5 db1 0%nat bob None (booking0 1) eq_refl)
    as (_ & Hb & _).
  assert (Hne : user (booking0 1) <> _id root) by (vm_compute; lia).
  destruct (H eq_refl Hne) as (H1 & H2 & _).
  split; [reflexivity|]. split; [reflexivity|]. split; [exact Hne|].
  split; [exact H1|]. split; [exact H2|].
  apply Hb. vm_compute. discriminate.
Defined.

(** *** Statistics *)

Lemma status_partition (bs : list Booking) :
  length bs
  = (length (withStatus pending bs) + length (withStatus confirmed bs)
     + length (withStatus cancelled bs) + length (withStatus completed bs)
     + length (withStatus no_show bs))%nat.
Proof.
  unfold withStatus. induction bs as [|b bs IH]; [done|].
  rewrite !filter_cons. destruct (status b) eqn:Es;
    repeat case_decide; simpl in *; try congruence; lia.
Qed.

Lemma sumFare_acc (bs : list Booking) (acc : Q) :
  (foldl (fun sum b => sum + fare b) acc bs == acc + sumFare bs)%Q.
Proof.
  unfold sumFare. revert acc.
  induction bs as [|b bs IH]; intros acc; simpl; [ring|].
  rewrite (IH (acc + fare b)%Q), (IH (0 + fare b)%Q). ring.
Qed.

Lemma sumFare_nonneg (bs : list Booking) :
  Forall (fun b => Qle_bool 0 (fare b) = true) bs -> (0 <= sumFare bs)%Q.
Proof.
  induction 1 as [|b bs Hb _ IH]; [unfold sumFare; simpl; lra|].
  unfold sumFare. simpl. rewrite sumFare_acc.
  apply Qle_bool_iff in Hb. lra.
Qed.

Lemma filter_insert_out {A : Type} (P : A -> Prop) `{!forall x, Decision (P x)}
    (l : list A) (i : nat) (x y : A) :
  l !! i = Some x -> ~ P x -> ~ P y -> filter P (<[i := y]> l) = filter P l.
Proof.
  revert i. induction l as [|a l IH]; intros i Hi Hx Hy; [done|].
  destruct i as [|i]; simpl in *.
  - injection Hi as ->. rewrite !filter_cons.
    by rewrite !decide_False.
  - rewrite !filter_cons, (IH i Hi Hx Hy). done.
Qed.

Lemma userBookings_handle (schemaMin now : Z) (db : Db) (r : Request)
    (u : User) (s e : option Z) :
  _id (actorOf r) <> _id u ->
  userBookings (handle schemaMin now db r).1 u s e = userBookings db u s e.
Proof.
  intros Hne. unfold userBookings.
  assert (Hout : forall b, user b = _id (actorOf r) ->
            ~ ((user b =? _id u)%nat && dateFilter s e b = true)).
  { intros b Hb. rewrite Hb. apply Nat.eqb_neq in Hne. by rewrite Hne. }
  destruct (RoutesExtra.handle_store schemaMin now db r)
    as [->|[(doc & -> & Hd)|(id & b & c & Hb & Hu & ->)]].
  - done.
  - cbn [bookings set_bookings].
    rewrite filter_app, filter_cons, decide_False, filter_nil, app_nil_r;
      [done|]. by apply Hout.
  - cbn [bookings set_bookings].
    destruct (RoutesExtra.method_step schemaMin c b) as [_ Ht].
    apply (filter_insert_out _ _ id b _ Hb); apply Hout; [done|].
    destruct Ht as [-> _]. done.
Qed.

(** The overview counts confirmed, cancelled and completed bookings;
    pending and no-show ones appear in [total] only, so the three counts
    never exceed it. The total fare is non-negative when the fares are.
    The overview of a user is not changed by anything the other users
    request. *)
Theorem stats_overview (schemaMin : Z) (db : Db) (u : User)
    (startDate endDate : option Z) (rs : list (Z * Request)) :
  let s := statsOverview db u startDate endDate in
  let mine := userBookings db u startDate endDate in
  total s
  = (st_confirmed s + st_cancelled s + st_completed s
     + length (withStatus pending mine) + length (withStatus no_show mine))%nat
  /\ (Forall (fun b => Qle_bool 0 (fare b) = true) (bookings db) ->
      (0 <= totalFare s)%Q)
  /\ (Forall (fun nr => _id (actorOf nr.2) <> _id u) rs ->
      statsOverview (serve schemaMin db rs) u startDate endDate = s).
Proof.
  cbv zeta. unfold statsOverview. cbn [total st_confirmed st_cancelled
    st_completed totalFare]. split; [|split].
  - rewrite (status_partition (userBookings db u startDate endDate)). lia.
  - intros Hf. apply sumFare_nonneg. unfold userBookings.
    rewrite Forall_forall in *. intros b Hb.
    apply list_elem_of_filter in Hb as [_ Hb]. by apply Hf.
  - intros Hrs. revert db.
    induction Hrs as [|[now r] rs Hr _ IH]; intros db; [done|].
    cbn [serve]. rewrite IH.
    by rewrite (userBookings_handle schemaMin now db r u _ _ Hr).
Qed.

Lemma stats_overview_witness :
  let db := db2 "Seat 2" in
  let rs := [(5, PostBooking bob (bodyFor "Seat 3" 1741564800000));
             (6, PutCancel 0 bob None); (7, PutConfirm 1 bob)] in
  Forall (fun b => Qle_bool 0 (fare b) = true) (bookings db)
  /\ Forall (fun nr => _id (actorOf nr.2) <> _id alice) rs
  /\ status <$> bookings (serve 0 db rs) = [pending; confirmed]
  /\ statsOverview (serve 0 db rs) alice None None
     = statsOverview db alice None None
  /\ (0 <= totalFare (statsOverview db alice None None))%Q.
Proof.
  intros db rs.
  assert (H1 : Forall (fun b => Qle_bool 0 (fare b) = true) (bookings db))
    by (repeat constructor).
  assert (H2 : Forall (fun nr => _id (actorOf nr.2) <> _id alice) rs)
    by (repeat constructor; vm_compute; lia).
  destruct (stats_overview 0 db alice None None rs) as (_ & Hf & Hs).
  split; [exact H1|]. split; [exact H2|]. split; [reflexivity|].
  split; [exact (Hs H2) | exact (Hf H1)].
Defined.

(** The groups of [getStatistics] cover the bookings of the range exactly
    once: their counts add up to the number of bookings whose travel date
    lies in the range, no group is empty, and no status has two groups. *)
Theorem getStatistics_counts (bs : list Booking) (startDate endDate : Z) :
  let groups := getStatistics bs startDate endDate in
  sum_list (g_count <$> groups)
  = length (findByDateRange bs startDate endDate)
  /\ Forall (fun g => (1 <= g_count g)%nat) groups
  /\ NoDup (g_id <$> groups).
Proof.
  cbv zeta. unfold getStatistics.
  set (matched := findByDateRange bs startDate endDate).
  rewrite (status_partition matched).
  unfold allStatuses. cbn [omap list_omap].
  destruct (withStatus pending matched) as [|? ?];
    destruct (withStatus confirmed matched) as [|? ?];
    destruct (withStatus cancelled matched) as [|? ?];
    destruct (withStatus completed matched) as [|? ?];
    destruct (withStatus no_show matched) as [|? ?];
    cbn; (split; [lia|split]);
    repeat (constructor;
            [first [cbn; lia
                   | intros Hin;
                     repeat (apply elem_of_cons in Hin as [Hin|Hin];
                             [discriminate|]);
                     by apply elem_of_nil in Hin]|]);
    constructor.
Qed.

End QueriesExtra.

(** ** Bookings of a day and available seats *)

Module SeatsExtra.
Import JS Booking BookingRoutes BookingQueries Fixtures.

(** *** Bookings of a route on a day *)

Lemma same_day (t d : Z) :
  startOfDay d <= t <= endOfDay d <-> startOfDay t = startOfDay d.
Proof.
  unfold endOfDay, startOfDay, dayMs.
  pose proof (Z.mod_pos_bound t 86400000 eq_refl).
  pose proof (Z.mod_pos_bound d 86400000 eq_refl).
  pose proof (Z.div_mod t 86400000 ltac:(lia)).
  pose proof (Z.div_mod d 86400000 ltac:(lia)).
  split; intros Hd; [|lia].
  assert (t / 86400000 = d / 86400000).
  { symmetry.
    apply (Z.div_unique t 86400000 (d / 86400000)
             (t - 86400000 * (d / 86400000))); lia. }
  lia.
Qed.

(** [findByRouteAndDate] returns the pending and confirmed bookings of the
    route whose travel date falls on the same (UTC) day as the date asked
    for, whatever the time of day of either; two instants of one day give
    the same result. *)
Theorem findByRouteAndDate_day (bs : list Booking) (routeId : ObjectId)
    (date date' : Z) (b : Booking) :
  (b ∈ findByRouteAndDate bs routeId date
   <-> b ∈ bs /\ route b = routeId /\ active (status b) = true
       /\ startOfDay (travelDate b) = startOfDay date)
  /\ (startOfDay date' = startOfDay date ->
      findByRouteAndDate bs routeId date' = findByRouteAndDate bs routeId date).
Proof.
  assert (Hiff : forall d x,
            (route x =? routeId)%nat && (startOfDay d <=? travelDate x)
            && (travelDate x <=? endOfDay d) && active (status x) = true
            <-> route x = routeId /\ active (status x) = true
                /\ startOfDay (travelDate x) = startOfDay d).
  { intros d x. rewrite !andb_true_iff, Nat.eqb_eq, !Z.leb_le.
    pose proof (same_day (travelDate x) d). tauto. }
  split.
  - unfold findByRouteAndDate. rewrite list_elem_of_filter, Hiff. tauto.
  - intros Hd. unfold findByRouteAndDate. apply list_filter_iff.
    intros x. rewrite !Hiff, Hd. tauto.
Qed.

Lemma findByRouteAndDate_day_witness :
  startOfDay 1741600000000 = startOfDay 1741564800000
  /\ findByRouteAndDate (bookings db1) 10%nat 1741600000000 = [booking0 1]
  /\ findByRouteAndDate (bookings db1) 10%nat 1741564800000 = [booking0 1].
Proof.
  assert (H : startOfDay 1741600000000 = startOfDay 1741564800000)
    by reflexivity.
  split; [exact H|].
  destruct (findByRouteAndDate_day (bookings db1) 10%nat 1741564800000
              1741600000000 (booking0 1)) as [_ Hd].
  rewrite (Hd H). split; reflexivity.
Defined.

(** *** Available seats *)

Lemma includes_spec (l : list string) (x : string) :
  includes l x = true <-> x ∈ l.
Proof.
  unfold includes. rewrite existsb_exists, list_elem_of_In. split.
  - intros (y & Hy & He). apply String.eqb_eq in He. by subst.
  - intros H. exists x. split; [done | apply String.eqb_refl].
Qed.

Lemma seatLabel_inj (i j : nat) :
  "Seat " +:+ pretty (Z.of_nat i) = "Seat " +:+ pretty (Z.of_nat j) -> i = j.
Proof.
  intros H. cbn [String.append] in H. injection H as H.
  change ("" +:+ ?x) with x in H.
  apply (inj (pretty (A:=Z))) in H. lia.
Qed.

Lemma seatLabels_NoDup (n : Z) : NoDup (seatLabels n).
Proof.
  unfold seatLabels. apply NoDup_fmap_2_strong; [|apply NoDup_seq].
  intros i j _ _ H. by apply seatLabel_inj.
Qed.

Lemma seatLabels_length (n : Z) : length (seatLabels n) = Z.to_nat n.
Proof. unfold seatLabels. by rewrite length_fmap, length_seq. Qed.

(** The available-seats route lists a label exactly when it is one of
    [Seat 1 .. Seat capacity] and no pending or confirmed booking of the
    schedule and date has it; for such a label the seat check of a
    reservation finds nothing. The two counts add up to at least the
    capacity: a booked label outside the enumeration is counted as booked
    without taking a seat away. *)
Theorem available_seats (db : Db) (sid : ObjectId) (date : Z)
    (data : SeatReport) (label : string) :
  availableSeatsRoute db (Some sid) (Some date) = SeatsOk data ->
  (label ∈ availableSeats data
   <-> label ∈ seatLabels (totalSeats data)
       /\ forall b, b ∈ bookings db -> bookedOn sid date b = true ->
                    seatNumber b <> label)
  /\ (label ∈ availableSeats data ->
      findOne sid date label (bookings db) = None)
  /\ (Z.to_nat (totalSeats data) <= availableCount data + bookedCount data)%nat
  /\ (availableCount data <= Z.to_nat (totalSeats data))%nat.
Proof.
  unfold availableSeatsRoute.
  destruct (schedules db !! sid) as [sch|]; [|discriminate].
  intros [= <-]. cbn [availableSeats totalSeats availableCount bookedCount].
  set (booked := seatNumber <$> filter _ (bookings db)).
  set (cap := capacity (sched_vehicle sch)).
  assert (Hb : forall l, l ∈ booked
            <-> exists b, b ∈ bookings db /\ bookedOn sid date b = true
                          /\ seatNumber b = l).
  { intros l. unfold booked. rewrite list_elem_of_fmap. split.
    - intros (b & -> & Hin). apply list_elem_of_filter in Hin as [? ?].
      by exists b.
    - intros (b & Hin & Hon & <-). exists b. split; [done|].
      by apply list_elem_of_filter. }
  assert (Hav : label ∈ filter (fun l => includes booked l = false)
                         (seatLabels cap)
            <-> label ∈ seatLabels cap
                /\ forall b, b ∈ bookings db -> bookedOn sid date b = true ->
                             seatNumber b <> label).
  { rewrite list_elem_of_filter. split.
    - intros [Hn Hl]. split; [done|]. intros b Hin Hon He.
      assert (Hin' : label ∈ booked) by (apply Hb; by exists b).
      apply includes_spec in Hin'. congruence.
    - intros [Hl Hn]. split; [|done].
      destruct (includes booked label) eqn:E; [|done].
      apply includes_spec, Hb in E as (b & Hin & Hon & He).
      by destruct (Hn b Hin Hon). }
  split; [exact Hav|]. split; [|split].
  - intros Hin. apply Hav in Hin as [_ Hn].
    unfold findOne. destruct (find _ _) as [x|] eqn:Ef; [|done].
    apply find_some in Ef as [Hx Ht]. unfold seatTaken in Ht.
    apply andb_true_iff in Ht as [Ht Ha].
    apply andb_true_iff in Ht as [Ht Hs].
    apply String.eqb_eq in Hs.
    destruct (Hn x); [by apply list_elem_of_In | | done].
    unfold bookedOn. by rewrite Ht, Ha.
  - rewrite <- (seatLabels_length cap).
    pose proof (filter_app_complement
                  (fun l => includes booked l = false) (seatLabels cap)) as Hp.
    apply Permutation_length in Hp. rewrite length_app in Hp.
    assert (Hle : (length (filter (fun l => ~ includes booked l = false)
                             (seatLabels cap)) <= length booked)%nat).
    { apply submseteq_length, NoDup_submseteq.
      - apply NoDup_filter, seatLabels_NoDup.
      - intros l Hl. apply list_elem_of_filter in Hl as [Hl _].
        apply includes_spec. by destruct (includes booked l). }
    lia.
  - rewrite <- (seatLabels_length cap). apply length_filter.
Qed.

Lemma available_seats_witness :
  let db := db2 "A1" in
  exists data,
    availableSeatsRoute db (Some 20%nat) (Some 1741564800000) = SeatsOk data
    /\ "Seat 2" ∈ availableSeats data
    /\ findOne 20%nat 1741564800000 "Seat 2" (bookings db) = None
    /\ bookedSeats data = ["Seat 1"; "A1"]
    /\ (availableCount data + bookedCount data)%nat = 51%nat.
Proof.
  intros db.
  destruct (availableSeatsRoute db (Some 20%nat) (Some 1741564800000))
    as [data| |] eqn:E; [|vm_compute in E; discriminate..].
  exists data.
  destruct (available_seats db 20%nat 1741564800000 data "Seat 2" E)
    as (Hiff & Hfind & _).
  assert (Hin : "Seat 2" ∈ availableSeats data).
  { vm_compute in E. injection E as <-. cbn [availableSeats].
    apply list_elem_of_In. vm_compute. tauto. }
  split; [reflexivity|]. split; [exact Hin|]. split; [exact (Hfind Hin)|].
  vm_compute in E. injection E as <-. split; reflexivity.
Defined.

End SeatsExtra.

(** ** Booking reference; requests in flight *)

Module ReferenceExtra.
Import JS Booking BookingRoutes BookingQueries Fixtures.

(** *** The generated booking reference *)

Lemma base36Digit_upper (d : Z) :
  0 <= d < 36 -> isDigitOrUpper (toUpperChar (base36Digit d)) = true.
Proof.
  intros Hd.
  assert (H : forallb (fun k => isDigitOrUpper
                                  (toUpperChar (base36Digit (Z.of_nat k))))
                (seq 0 36) = true) by (vm_compute; reflexivity).
  rewrite forallb_forall in H.
  specialize (H (Z.to_nat d)). rewrite Z2Nat.id in H by lia.
  apply H, in_seq. lia.
Qed.

Lemma toString36Go_chars (fuel : nat) (n : Z) (acc : list ascii) :
  Forall (fun c => isDigitOrUpper (toUpperChar c) = true) acc ->
  Forall (fun c => isDigitOrUpper (toUpperChar c) = true)
    (toString36Go fuel n acc).
Proof.
  revert n acc. induction fuel as [|fuel IH]; intros n acc Hacc; [done|].
  simpl.
  assert (Hd : isDigitOrUpper (toUpperChar (base36Digit (n mod 36))) = true).
  { apply base36Digit_upper. apply Z.mod_pos_bound. lia. }
  destruct (n / 36 =? 0); [|apply IH]; by constructor.
Qed.

Lemma toString36_nonempty (n : Z) : toString36 n <> [].
Proof.
  unfold toString36. simpl.
  assert (H : forall fuel m acc, acc <> [] -> toString36Go fuel m acc <> []).
  { induction fuel as [|fuel IH]; intros m acc Hacc; [done|]. simpl.
    destruct (m / 36 =? 0); [done|]. by apply IH. }
  destruct (n / 36 =? 0); [done|]. by apply H.
Qed.

Lemma fraction36_chars (k : nat) (r : Q) :
  (0 <= r)%Q -> (r < 1)%Q ->
  Forall (fun c => isDigitOrUpper (toUpperChar c) = true) (fraction36 k r)
  /\ (length (fraction36 k r) <= k)%nat.
Proof.
  revert r. induction k as [|k IH]; intros r H0 H1; [by split|].
  cbn [fraction36]. destruct (Qeq_bool r 0); [split; [done | simpl; lia]|].
  assert (Hd : 0 <= Qfloor (r * 36) < 36).
  { split.
    - apply ForecastSpec.floor_nonneg. lra.
    - apply ForecastSpec.floor_upper. unfold inject_Z. lra. }
  pose proof (Qfloor_le (r * 36)) as Hlo.
  pose proof (Qlt_floor (r * 36)) as Hhi.
  rewrite inject_Z_plus in Hhi. change (inject_Z 1) with 1%Q in Hhi.
  set (f := inject_Z (Qfloor (r * 36))) in *.
  destruct (IH (r * 36 - f)%Q) as [Hc Hl]; [lra | lra |].
  split; [|cbn [length]; lia]. constructor; [|done].
  by apply base36Digit_upper.
Qed.

(** The reference generated by the pre-save hook is ["ST"] followed by at
    least one and at most five more than the digits of the timestamp
    characters, all of them digits or upper-case letters (the pattern
    [ST[0-9A-Z]+]); a reference that is already set is kept. *)
Theorem reference_pattern (now : Z) (r : Q) (existing : string) :
  0 <= now -> (0 <= r)%Q -> (r < 1)%Q ->
  (exists rest,
     list_ascii_of_string (generateReference now r)
     = "S"%char :: "T"%char :: rest
     /\ rest <> []
     /\ Forall (fun c => isDigitOrUpper c = true) rest
     /\ (length (toString36 now) <= length rest
         <= length (toString36 now) + 5)%nat)
  /\ preSaveReference None now r = generateReference now r
  /\ (existing <> "" -> preSaveReference (Some existing) now r = existing).
Proof.
  intros Hn H0 H1. split; [|split].
  - unfold generateReference, toUpperCase.
    rewrite list_ascii_of_string_of_list_ascii.
    exists (toUpperChar <$> toString36 now ++ fraction36 5 r).
    destruct (fraction36_chars 5 r H0 H1) as [Hf Hl].
    split; [reflexivity|]. split; [|split].
    + intros H. apply fmap_nil_inv, app_eq_nil in H as [H _].
      by apply toString36_nonempty in H.
    + apply Forall_fmap, Forall_app. split; [|exact Hf].
      unfold toString36. by apply toString36Go_chars.
    + rewrite length_fmap, length_app. lia.
  - reflexivity.
  - intros He. unfold preSaveReference, notEmpty.
    destruct (String.eqb_spec existing ""); done.
Qed.

Lemma reference_pattern_witness :
  0 <= 1741564800000 /\ (0 <= 1 # 10)%Q /\ (1 # 10 < 1)%Q
  /\ generateReference 1741564800000 (1 # 10) = "STM82APS003LLLL"
  /\ exists rest,
       list_ascii_of_string (generateReference 1741564800000 (1 # 10))
       = "S"%char :: "T"%char :: rest
       /\ rest <> [].
Proof.
  assert (H0 : 0 <= 1741564800000) by lia.
  assert (H1 : (0 <= 1 # 10)%Q) by lra.
  assert (H2 : (1 # 10 < 1)%Q) by lra.
  destruct (reference_pattern 1741564800000 (1 # 10) "" H0 H1 H2)
    as ((rest & Hr & Hne & _) & _).
  split; [exact H0|]. split; [exact H1|]. split; [exact H2|].
  split; [reflexivity|]. exists rest. by split.
Defined.

(** *** Requests in flight *)

Lemma start_inFlight (u : User) (body : ReqBody) : inFlight (start u body).
Proof. unfold start. by destruct (validateBody body). Qed.

Lemma step_inFlight (schemaMin : Z) (db : Db) (t : Task) :
  inFlight t ->
  (step schemaMin db t).1 = db /\ inFlight (step schemaMin db t).2.
Proof.
  destruct t as [u v|u v|u v sch|doc|r]; cbn [step inFlight]; intros Ht.
  - by destruct (bool_decide _).
  - destruct (schedules db !! v_scheduleId v) as [sch|];
      [destruct (_ =? _)%nat|]; done.
  - by destruct (findOne _ _ _ _).
  - unfold insert, save, validate. rewrite Ht, andb_false_r. done.
  - done.
Qed.

Lemma interleave_inFlight (schemaMin : Z) (sched : list nat) (db : Db)
    (ts : list Task) :
  Forall inFlight ts ->
  let st := interleave schemaMin sched (db, ts) in
  st.1 = db /\ length st.2 = length ts /\ Forall inFlight st.2.
Proof.
  revert ts. induction sched as [|i sched IH]; intros ts Hts;
    cbn [interleave]; [done|].
  destruct (ts !! i) as [t|] eqn:Ei; [|by apply IH].
  assert (Ht : inFlight t) by (by eapply Forall_lookup_1).
  destruct (step_inFlight schemaMin db t Ht) as [Hdb Ht'].
  destruct (step schemaMin db t) as [db' t']. cbn [fst snd] in Hdb, Ht'.
  subst db'.
  destruct (IH (<[i := t']> ts)) as (H1 & H2 & H3).
  { by apply Forall_insert. }
  cbv zeta. by rewrite H2, length_insert.
Qed.

(** However the reservation handlers of any number of requests are
    interleaved, the store is never written and no request is answered
    201: the document each handler builds has no booking reference, and
    [save] rejects it before the hook that would generate one runs. *)
Theorem interleaved_reservations_store_nothing (schemaMin : Z)
    (sched : list nat) (db : Db) (reqs : list (User * ReqBody)) :
  let st := interleave schemaMin sched
              (db, (fun r => start r.1 r.2) <$> reqs) in
  st.1 = db /\ length st.2 = length reqs
  /\ (forall i doc, st.2 !! i <> Some (Finished (Created201 doc)))
  /\ (forall i doc, st.2 !! i = Some (AwaitSave doc) ->
       "bookingReference" ∈ invalidPaths schemaMin doc
       /\ step schemaMin db (AwaitSave doc)
          = (db, Finished (Errored "ValidationError"))).
Proof.
  assert (Hs : Forall inFlight ((fun r => start r.1 r.2) <$> reqs)).
  { apply Forall_fmap, Forall_forall. intros r _. apply start_inFlight. }
  destruct (interleave_inFlight schemaMin sched db _ Hs) as (H1 & H2 & H3).
  cbv zeta. split; [exact H1|]. split; [by rewrite H2, length_fmap|].
  split.
  - intros i doc Hi. by apply (Forall_lookup_1 _ _ _ _ H3) in Hi.
  - intros i doc Hi. apply (Forall_lookup_1 _ _ _ _ H3) in Hi.
    cbn [inFlight] in Hi. split.
    + by apply RoutesSpec.invalidPaths_reference.
    + cbn [step]. unfold insert, save, validate.
      by rewrite Hi, andb_false_r.
Qed.

(** Two requests for the same free seat, run turn by turn: both pass the
    seat check, and both are refused by [save]. *)
Example two_reservations_in_flight :
  let body := bodyFor "Seat 2" 1741564800000 in
  interleave 0 [0; 1; 0; 1; 0; 1; 0; 1]%nat
    (db1, [start alice body; start bob body])
  = (db1, [Finished (Errored "ValidationError");
           Finished (Errored "ValidationError")]).
Proof. reflexivity. Qed.

End ReferenceExtra.

(** * Further properties of the forecasts *)

Module ForecastExtra.
Import JS Num Random Forecast ForecastQueries Fixtures.

(** *** Trend and confidence *)

Lemma calculateTrend_short (data : list Sample) :
  (length data <= 7)%nat -> calculateTrend data = 0%Q.
Proof.
  intros Hl. unfold calculateTrend.
  destruct (length data <? 2)%nat; [done|].
  replace (length data - 7)%nat with 0%nat by lia.
  rewrite take_0. by rewrite orb_true_r.
Qed.

Lemma getPrediction_historical (historicalData : list Sample)
    (route_ : string) (date_ : Moment.t) (hour_ : Value) (random : nat -> Q)
    (i : nat) :
  let slice := sameHourData historicalData route_ date_ hour_ in
  slice <> [] ->
  getPrediction historicalData route_ date_ hour_ random i
  = (let avgBookings := mean bookings slice in
     let avgCapacity := mean capacity slice in
     let trend := calculateTrend slice in
     let predictedBookings :=
       Z.max 0 (floor (avgBookings + trend + (random i - (1 # 2)) * 10
                       + inject_Z (getSeasonalFactor date_))%Q) in
     (mkPrediction route_ date_ predictedBookings (floor avgCapacity)
        (minN 100 (roundN (mul (div (inject_Z predictedBookings) avgCapacity)
                             100)))
        (minQ 95 (maxQ 60 (100 - Qabs trend * 2)%Q))
        (generateExplanation predictedBookings avgCapacity trend date_),
      S i)).
Proof.
  cbv zeta. unfold sameHourData, getPrediction. intros Hne.
  destruct (filter _ historicalData) as [|d0 l0] eqn:E1; [done|].
  cbn [isEmpty].
  destruct (filter _ (d0 :: l0)) as [|d1 l1] eqn:E2; [done|].
  reflexivity.
Qed.

Lemma sumOf_bounds (f : Sample -> Z) (lo hi : Z) (data : list Sample) :
  Forall (fun d => lo <= f d <= hi) data ->
  lo * Z.of_nat (length data) <= sumOf f data
  <= hi * Z.of_nat (length data).
Proof.
  induction 1 as [|d data Hd _ IH].
  - unfold sumOf. simpl. lia.
  - rewrite ForecastSpec.sumOf_cons. cbn [length]. lia.
Qed.

Lemma mean_bounds (f : Sample -> Z) (lo hi : Z) (data : list Sample) :
  data <> [] -> Forall (fun d => lo <= f d <= hi) data ->
  (inject_Z lo <= mean f data)%Q /\ (mean f data <= inject_Z hi)%Q.
Proof.
  intros Hne Hall. pose proof (sumOf_bounds f lo hi data Hall) as [Hl Hh].
  assert (Hn : 0 < Z.of_nat (length data))
    by (destruct data; [done|simpl; lia]).
  unfold mean. set (n := Z.of_nat (length data)) in *.
  assert (Hq : (0 < inject_Z n)%Q).
  { change 0%Q with (inject_Z 0). by rewrite <- Zlt_Qlt. }
  split.
  - apply Qle_shift_div_l; [done|]. rewrite <- inject_Z_mult.
    by rewrite <- Zle_Qle.
  - apply Qle_shift_div_r; [done|]. rewrite <- inject_Z_mult.
    by rewrite <- Zle_Qle.
Qed.

(** When at most seven samples match the route, weekday and hour of the
    target, there is no older part to compare with: the trend is 0 and
    the confidence is 95. The prediction is then the mean of the matching
    bookings moved by the noise (at most 5 either way) and by the
    seasonal adjustment: when these bookings lie in [lo, hi] the
    predicted count lies between [lo - 5] and [hi + 5] plus that
    adjustment, cut at 0. *)
Theorem small_slice_has_no_trend (historicalData : list Sample)
    (route_ : string) (date_ : Moment.t) (hour_ : Value) (random : nat -> Q)
    (i : nat) (lo hi : Z) :
  let slice := sameHourData historicalData route_ date_ hour_ in
  let p := (getPrediction historicalData route_ date_ hour_ random i).1 in
  slice <> [] -> (length slice <= 7)%nat ->
  unitInterval random ->
  Forall (fun d => lo <= bookings d <= hi) slice ->
  calculateTrend slice = 0%Q
  /\ confidence p = 95%Q
  /\ Z.max 0 (lo - 5 + getSeasonalFactor date_) <= predicted_count p
     <= Z.max 0 (hi + 5 + getSeasonalFactor date_)
  /\ (length (explanation p) <= 3)%nat.
Proof.
  cbv zeta. intros Hne Hl Hr Hb.
  rewrite (getPrediction_historical _ _ _ _ random i Hne).
  cbv zeta. cbn [fst confidence predicted_count explanation].
  rewrite (calculateTrend_short _ Hl).
  split; [done|]. split; [done|]. split.
  - destruct (mean_bounds bookings lo hi _ Hne Hb) as [Ha1 Ha2].
    destruct (Hr i) as [Hr0 Hr1].
    set (sf := getSeasonalFactor date_).
    set (x := (mean bookings (sameHourData historicalData route_ date_
                                hour_) + 0 + (random i - (1 # 2)) * 10
               + inject_Z sf)%Q).
    assert (H1 : lo - 5 + sf <= floor x).
    { apply ForecastSpec.floor_lower. unfold Zminus.
      rewrite !inject_Z_plus, !inject_Z_opp.
      change (inject_Z 5) with 5%Q. unfold x. lra. }
    assert (H2 : floor x < hi + 5 + sf + 1).
    { apply ForecastSpec.floor_upper.
      rewrite !inject_Z_plus.
      change (inject_Z 5) with 5%Q. change (inject_Z 1) with 1%Q.
      unfold x. lra. }
    lia.
  - unfold generateExplanation. cbn [gtQ ltQ].
    change (gtQ 0 5) with false. change (ltQ 0 (-5)) with false.
    rewrite !length_app. cbn [app length].
    destruct (_ || _); destruct (gtN _ _); simpl; lia.
Qed.

Lemma small_slice_has_no_trend_witness :
  let p := (getPrediction seed "R" (Moment.ymd 2024 1 22) (Number 9)
              steady 0%nat).1 in
  sameHourData seed "R" (Moment.ymd 2024 1 22) (Number 9) <> []
  /\ confidence p = 95%Q /\ 30 <= predicted_count p <= 40.
Proof.
  assert (H1 : sameHourData seed "R" (Moment.ymd 2024 1 22) (Number 9) <> [])
    by (vm_compute; discriminate).
  destruct (small_slice_has_no_trend seed "R" (Moment.ymd 2024 1 22)
              (Number 9) steady 0%nat 30 30 H1) as (_ & Hc & Hp & _).
  - vm_compute. lia.
  - exact ForecastSpec.steady_unitInterval.
  - repeat constructor; vm_compute; discriminate.
  - split; [exact H1|]. split; [exact Hc | exact Hp].
Defined.




(** *** The prediction stays near the data *)

Lemma trend_bounds (lo hi : Z) (data : list Sample) :
  lo <= hi -> Forall (fun d => lo <= bookings d <= hi) data ->
  (inject_Z (lo - hi) <= calculateTrend data)%Q
  /\ (calculateTrend data <= inject_Z (hi - lo))%Q.
Proof.
  intros Hlh Hall. unfold calculateTrend.
  assert (H0 : (inject_Z (lo - hi) <= 0)%Q /\ (0 <= inject_Z (hi - lo))%Q).
  { change 0%Q with (inject_Z 0). rewrite <- !Zle_Qle. lia. }
  destruct (length data <? 2)%nat; [done|].
  destruct (isEmpty (drop _ data)) eqn:E1; [done|].
  destruct (isEmpty (take _ data)) eqn:E2; [done|].
  cbn [orb].
  destruct (mean_bounds bookings lo hi (drop (length data - 7) data))
    as [Hr1 Hr2]; [by apply ForecastSpec.isEmpty_false | by apply Forall_drop|].
  destruct (mean_bounds bookings lo hi (take (length data - 7) data))
    as [Ho1 Ho2]; [by apply ForecastSpec.isEmpty_false | by apply Forall_take|].
  unfold Zminus. rewrite !inject_Z_plus, !inject_Z_opp. lra.
Qed.

Lemma seasonal_range (date_ : Moment.t) : -5 <= getSeasonalFactor date_ <= 5.
Proof.
  unfold getSeasonalFactor.
  destruct (_ || _); [lia|]. destruct (_ && _); [lia|].
  destruct (_ || _); lia.
Qed.

(** A prediction made from historical samples stays near them: when the
    bookings of the samples lie in [lo, hi] and their capacities in
    [clo, chi], the reported capacity lies in [clo, chi] and the predicted
    count between [2 lo - hi - 10] and [2 hi - lo + 10] (cut at 0): the
    trend adds at most the width of the data, the noise at most 5 and
    the seasonal adjustment at most 5. *)
Theorem prediction_tracks_data (historicalData : list Sample)
    (route_ : string) (date_ : Moment.t) (hour_ : Value) (random : nat -> Q)
    (i : nat) (lo hi clo chi : Z) :
  let p := (getPrediction historicalData route_ date_ hour_ random i).1 in
  sameHourData historicalData route_ date_ hour_ <> [] ->
  unitInterval random ->
  Forall (fun d => lo <= bookings d <= hi /\ clo <= capacity d <= chi)
    historicalData ->
  clo <= p_capacity p <= chi
  /\ Z.max 0 (2 * lo - hi - 10) <= predicted_count p
     <= Z.max 0 (2 * hi - lo + 10).
Proof.
  cbv zeta. intros Hne Hr Hall.
  rewrite (getPrediction_historical _ _ _ _ random i Hne).
  cbv zeta. cbn [fst predicted_count p_capacity].
  set (slice := sameHourData historicalData route_ date_ hour_) in *.
  assert (Hs : Forall (fun d => lo <= bookings d <= hi
                               /\ clo <= capacity d <= chi) slice).
  { unfold slice, sameHourData. by do 2 apply ForecastSpec.Forall_filter_keep. }
  assert (Hb : Forall (fun d => lo <= bookings d <= hi) slice)
    by (eapply Forall_impl; [exact Hs | by intros d [? ?]]).
  assert (Hc : Forall (fun d => clo <= capacity d <= chi) slice)
    by (eapply Forall_impl; [exact Hs | by intros d [? ?]]).
  assert (Hlh : lo <= hi).
  { destruct slice as [|d l]; [done|]. by inversion Hb; subst; lia. }
  destruct (mean_bounds bookings lo hi slice Hne Hb) as [Ha1 Ha2].
  destruct (mean_bounds capacity clo chi slice Hne Hc) as [Hc1 Hc2].
  destruct (trend_bounds lo hi slice Hlh Hb) as [Ht1 Ht2].
  pose proof (seasonal_range date_) as [Hs1 Hs2].
  destruct (Hr i) as [Hr0 Hr1].
  split.
  - split; [by apply ForecastSpec.floor_lower|].
    assert (floor (mean capacity slice) < chi + 1); [|lia].
    apply ForecastSpec.floor_upper. rewrite inject_Z_plus.
    change (inject_Z 1) with 1%Q. lra.
  - set (x := (mean bookings slice + calculateTrend slice
               + (random i - (1 # 2)) * 10
               + inject_Z (getSeasonalFactor date_))%Q).
    assert (Hse1 : (inject_Z (-5) <= inject_Z (getSeasonalFactor date_))%Q)
      by (rewrite <- Zle_Qle; lia).
    assert (Hse2 : (inject_Z (getSeasonalFactor date_) <= inject_Z 5)%Q)
      by (rewrite <- Zle_Qle; lia).
    change (inject_Z (-5)) with (-5)%Q in Hse1.
    change (inject_Z 5) with 5%Q in Hse2.
    unfold Zminus in Ht1, Ht2.
    rewrite !inject_Z_plus, !inject_Z_opp in Ht1, Ht2.
    assert (H1 : 2 * lo - hi - 10 <= floor x).
    { apply ForecastSpec.floor_lower. unfold Zminus.
      rewrite !inject_Z_plus, !inject_Z_opp, inject_Z_mult.
      change (inject_Z 2) with 2%Q. change (inject_Z 10) with 10%Q.
      unfold x. lra. }
    assert (H2 : floor x < 2 * hi - lo + 10).
    { apply ForecastSpec.floor_upper. unfold Zminus.
      rewrite !inject_Z_plus, !inject_Z_opp, inject_Z_mult.
      change (inject_Z 2) with 2%Q. change (inject_Z 10) with 10%Q.
      unfold x. lra. }
    lia.
Qed.

Lemma prediction_tracks_data_witness :
  let p := (getPrediction seed "R" (Moment.ymd 2024 1 22) (Number 9)
              steady 0%nat).1 in
  60 <= p_capacity p <= 60 /\ 20 <= predicted_count p <= 40.
Proof.
  apply (prediction_tracks_data seed "R" (Moment.ymd 2024 1 22) (Number 9)
           steady 0%nat 30 30 60 60).
  - vm_compute. discriminate.
  - exact ForecastSpec.steady_unitInterval.
  - repeat constructor; vm_compute; discriminate.
Defined.

(** *** Analytics computed from samples *)

Lemma filter_hour_off (data : list Sample) (h : Z) :
  Forall (fun d => ~ (0 <= hour d < 24)) data -> 0 <= h < 24 ->
  filter (fun d => (hour d =? h) = true) data = [].
Proof.
  intros Hall Hh. induction Hall as [|d data Hd _ IH]; [done|].
  rewrite filter_cons. destruct (decide _) as [E|E]; [|exact IH].
  apply Z.eqb_eq in E. lia.
Qed.

Lemma hours24_range (h : Z) : h ∈ hours24 -> 0 <= h < 24.
Proof.
  unfold hours24. intros Hin. apply list_elem_of_fmap in Hin as (n & -> & Hn).
  apply elem_of_seq in Hn. lia.
Qed.

Lemma cellOf_nil (key : Z) : cellOf key [] = emptyPoint key.
Proof. reflexivity. Qed.

Lemma hourlyLoop_off (data : list Sample) (hours : list Z) :
  Forall (fun d => ~ (0 <= hour d < 24)) data ->
  Forall (fun h => 0 <= h < 24) hours ->
  hourlyLoop data hours = Returned (emptyPoint <$> hours).
Proof.
  intros Hall. induction 1 as [|h hours Hh _ IH]; [done|].
  cbn [hourlyLoop]. rewrite (filter_hour_off data h Hall Hh).
  cbn [isEmpty]. rewrite IH. reflexivity.
Qed.

Lemma hours24_Forall : Forall (fun h => 0 <= h < 24) hours24.
Proof. apply Forall_forall. intros h. apply hours24_range. Qed.

Lemma no_peak_hours (hours : list Z) :
  filter (fun h => gtN (utilization h) 70 = true) (emptyPoint <$> hours) = [].
Proof.
  induction hours as [|h hours IH]; [done|].
  rewrite fmap_cons, filter_cons. destruct (decide _) as [E|E]; [|exact IH].
  vm_compute in E. discriminate.
Qed.

(** [getAnalytics] computes its answer from the samples only when no
    sample of the window has an hour in 0..23. The answer then has the
    requested route, but every cell of the heatmap and every point of
    the hourly trend is empty (utilization 0, bookings 0), and the
    recommendations never name a peak period. *)
Theorem computed_analytics_are_flat (routeId_ : string)
    (start end_ : Moment.t) (routeData : list Sample) :
  Forall (fun d => ~ (0 <= hour d < 24)) routeData ->
  exists a,
    analyticsBody routeId_ start end_ routeData = Returned a
    /\ routeId a = routeId_
    /\ hourly a = emptyPoint <$> hours24
    /\ Forall (fun row => row_hours row = emptyPoint <$> hours24) (heatmap a)
    /\ recommendations a
       ⊆ [ "High utilization detected - consider increasing capacity";
           "Low utilization - consider optimizing schedule";
           "Monitor weather and events for demand fluctuations" ].
Proof.
  intros Hall. unfold analyticsBody, generateRecommendations.
  unfold generateHourlyTrend.
  rewrite (hourlyLoop_off routeData hours24 Hall hours24_Forall).
  cbn [andThen]. rewrite no_peak_hours. cbn [isEmpty andThen].
  eexists. split; [reflexivity|].
  cbn [routeId hourly heatmap recommendations].
  split; [done|]. split; [done|]. split.
  - unfold generateHeatmapData. apply Forall_fmap, Forall_forall.
    intros day_ _. cbn [compose row_hours].
    apply Forall_fmap_ext_1.
    eapply Forall_impl; [exact hours24_Forall|]. intros h Hh.
    by rewrite (filter_hour_off routeData h Hall Hh).
  - intros r Hr. rewrite app_nil_l in Hr.
    apply elem_of_app in Hr as [Hr|Hr].
    { destruct (gtN _ 80); [|by apply elem_of_nil in Hr].
      apply list_elem_of_singleton in Hr as ->. apply list_elem_of_here. }
    apply elem_of_app in Hr as [Hr|Hr].
    { destruct (ltN _ 30); [|by apply elem_of_nil in Hr].
      apply list_elem_of_singleton in Hr as ->.
      apply list_elem_of_further, list_elem_of_here. }
    apply list_elem_of_singleton in Hr as ->.
    do 2 apply list_elem_of_further. apply list_elem_of_here.
Qed.

Lemma computed_analytics_are_flat_witness :
  exists a,
    analyticsBody "R" (Moment.ymd 2024 1 1) (Moment.ymd 2024 1 31)
      [mkSample "R" monday 24 30 60] = Returned a
    /\ routeId a = "R"
    /\ hourly a = emptyPoint <$> hours24.
Proof.
  destruct (computed_analytics_are_flat "R" (Moment.ymd 2024 1 1)
              (Moment.ymd 2024 1 31) [mkSample "R" monday 24 30 60])
    as (a & Ha & Hr & Hh & _).
  - repeat constructor. cbn [hour]. lia.
  - exists a. split; [exact Ha|]. split; [exact Hr | exact Hh].
Defined.

(** *** Peak ranges *)

Lemma rangesLoop_run (start end_ : Z) (rest : list Point) :
  index <$> rest = seqZ (end_ + 1) (Z.of_nat (length rest)) ->
  rangesLoop start end_ rest
  = [range start (end_ + Z.of_nat (length rest))].
Proof.
  revert end_. induction rest as [|p rest IH]; intros end_ Hrun.
  - cbn [rangesLoop length]. by rewrite Z.add_0_r.
  - cbn [length] in *. rewrite seqZ_cons in Hrun by lia.
    rewrite fmap_cons in Hrun. injection Hrun as Hp Hrest.
    cbn [rangesLoop]. rewrite Hp, Z.eqb_refl, IH.
    + f_equal. f_equal. lia.
    + rewrite Hrest. f_equal; lia.
Qed.

Lemma rangesLoop_length (start end_ : Z) (rest : list Point) :
  (1 <= length (rangesLoop start end_ rest) <= S (length rest))%nat.
Proof.
  revert start end_. induction rest as [|p rest IH]; intros start end_.
  - cbn. lia.
  - cbn [rangesLoop]. destruct (index p =? end_ + 1).
    + specialize (IH start (index p)). cbn [length]. lia.
    + specialize (IH (index p) (index p)). cbn [length]. lia.
Qed.

(** [getPeakHourRanges] merges a run of consecutive hours into one range:
    for peak hours [h, h+1, ..., h+n-1] the result is the single range
    from [h]:00 to [h+n]:00. For any non-empty list it returns at least
    one range and at most one per peak hour. *)
Theorem peak_run_is_one_range (peakHours : list Point) (h : Z) :
  peakHours <> [] ->
  (exists ranges,
     getPeakHourRanges peakHours = Returned ranges
     /\ (1 <= length ranges <= length peakHours)%nat)
  /\ (index <$> peakHours = seqZ h (Z.of_nat (length peakHours)) ->
      getPeakHourRanges peakHours
      = Returned [pretty h +:+ ":00-"
                  +:+ pretty (h + Z.of_nat (length peakHours))
                  +:+ ":00"]).
Proof.
  intros Hne. destruct peakHours as [|p rest]; [done|].
  cbn [getPeakHourRanges]. split.
  - eexists. split; [reflexivity|].
    pose proof (rangesLoop_length (index p) (index p) rest). cbn [length]. lia.
  - cbn [length]. rewrite seqZ_cons by lia. rewrite fmap_cons.
    intros [= Hp Hrest]. rewrite rangesLoop_run.
    + unfold range. rewrite Hp.
      by replace (h + Z.of_nat (S (length rest)))
        with (h + Z.of_nat (length rest) + 1) by lia.
    + rewrite Hrest, Hp. f_equal; lia.
Qed.

Lemma peak_run_is_one_range_witness :
  getPeakHourRanges [mkPoint 7 (Fin 80) 40; mkPoint 8 (Fin 90) 45;
                     mkPoint 9 (Fin 75) 38]
  = Returned ["7:00-10:00"].
Proof.
  apply (peak_run_is_one_range
           [mkPoint 7 (Fin 80) 40; mkPoint 8 (Fin 90) 45;
            mkPoint 9 (Fin 75) 38] 7); [discriminate | reflexivity].
Defined.

(** *** Mock analytics *)

Lemma mockPoint_within (random : nat -> Q) (key uSpan uBase bSpan bBase : Z)
    (i : nat) :
  unitInterval random -> 0 < uSpan -> 0 < bSpan ->
  pointWithin uBase (uBase + uSpan - 1) bBase (bBase + bSpan - 1)
    (mockPoint key uSpan uBase bSpan bBase random i).1 = true.
Proof.
  intros Hr Hu Hb. cbv [mockPoint bind ret Math_random fst].
  destruct (Hr i) as [H1 H1']. destruct (Hr (S i)) as [H2 H2'].
  pose proof (ForecastSpec.floor_random (random i) uSpan H1 H1' Hu) as Hf1.
  pose proof (ForecastSpec.floor_random (random (S i)) bSpan H2 H2' Hb)
    as Hf2.
  unfold pointWithin. cbn [utilization p_bookings within].
  repeat (apply andb_true_iff; split).
  - apply Qle_bool_iff. rewrite <- Zle_Qle. lia.
  - apply Qle_bool_iff. rewrite <- Zle_Qle. lia.
  - apply Z.leb_le. lia.
  - apply Z.leb_le. lia.
Qed.

Lemma mockHeatmap_within (random : nat -> Q) (i : nat) :
  unitInterval random ->
  Forall (fun row =>
            Forall (fun p => pointWithin 0 99 10 59 p = true)
              (row_hours row))
    (generateMockHeatmap random i).1.
Proof.
  intros Hr. unfold generateMockHeatmap. apply ForecastSpec.mapM_Forall.
  intros day_ j. unfold bind.
  pose proof (ForecastSpec.mapM_Forall
                (fun p => pointWithin 0 99 10 59 p = true)
                (fun hour_ => mockPoint hour_ 100 0 50 10) random hours24)
    as Hc.
  specialize (Hc (fun a k =>
                    mockPoint_within random a 100 0 50 10 k Hr
                      eq_refl eq_refl) j).
  destruct (mapM _ hours24 random j) as [cells k]. exact Hc.
Qed.

Lemma mockWeekly_within (random : nat -> Q) (i : nat) :
  unitInterval random ->
  Forall (fun p => pointWithin 20 79 20 119 p = true)
    (generateMockWeeklyTrend random i).1.
Proof.
  intros Hr. unfold generateMockWeeklyTrend. apply ForecastSpec.mapM_Forall.
  intros a k. exact (mockPoint_within random a 60 20 100 20 k Hr
                       eq_refl eq_refl).
Qed.

Lemma mockHourly_within (random : nat -> Q) (i : nat) :
  unitInterval random ->
  Forall (fun p => pointWithin 10 89 5 34 p = true)
    (generateMockHourlyTrend random i).1.
Proof.
  intros Hr. unfold generateMockHourlyTrend. apply ForecastSpec.mapM_Forall.
  intros a k. exact (mockPoint_within random a 80 10 30 5 k Hr
                       eq_refl eq_refl).
Qed.

Lemma mockAnalytics_ranges (random : nat -> Q) (now : Moment.t) (i : nat) :
  unitInterval random ->
  let a := (generateMockAnalytics now random i).1 in
  routeId a = "mock-route"
  /\ (average a, peak a, low a) = (Fin 65, Fin 85, Fin 35)
  /\ Forall (fun row =>
               Forall (fun p => pointWithin 0 99 10 59 p = true)
                 (row_hours row)) (heatmap a)
  /\ Forall (fun p => pointWithin 20 79 20 119 p = true) (weekly a)
  /\ Forall (fun p => pointWithin 10 89 5 34 p = true) (hourly a).
Proof.
  intros Hr. cbv zeta. unfold generateMockAnalytics, bind.
  pose proof (mockHeatmap_within random i Hr) as Hh.
  destruct (generateMockHeatmap random i) as [h j].
  pose proof (mockWeekly_within random j Hr) as Hw.
  destruct (generateMockWeeklyTrend random j) as [w k].
  pose proof (mockHourly_within random k Hr) as Ho.
  destruct (generateMockHourlyTrend random k) as [ho l].
  cbn in *. done.
Qed.

(** Whenever the window of [getAnalytics] holds a sample whose hour is
    one of 0..23 (or holds no sample), the answer is the mock one: it
    names the route ["mock-route"] whatever route was asked for, reports
    the fixed utilization 65 / 85 / 35, and its random points lie in the
    ranges of the generators: heatmap utilization 0..99 and bookings
    10..59, weekly 20..79 and 20..119, hourly 10..89 and 5..34. *)
Theorem analytics_of_clock_hours_are_mock (random : nat -> Q)
    (historicalData : list Sample) (now : Moment.t) (routeId_ : string)
    (startDate endDate : option Moment.t) (i : nat) :
  let window := inPeriod (default (Moment.subtractDays 30 now) startDate)
                  (default now endDate) historicalData in
  let a := (getAnalytics historicalData now routeId_ startDate endDate
              random i).1 in
  unitInterval random ->
  window = [] \/ Exists (fun d => 0 <= hour d < 24) window ->
  routeId a = "mock-route"
  /\ (average a, peak a, low a) = (Fin 65, Fin 85, Fin 35)
  /\ Forall (fun row =>
               Forall (fun p => pointWithin 0 99 10 59 p = true)
                 (row_hours row)) (heatmap a)
  /\ Forall (fun p => pointWithin 20 79 20 119 p = true) (weekly a)
  /\ Forall (fun p => pointWithin 10 89 5 34 p = true) (hourly a).
Proof.
  cbv zeta. intros Hr Hw.
  assert (E : getAnalytics historicalData now routeId_ startDate endDate
                random i = generateMockAnalytics now random i).
  { destruct Hw as [Hw|Hw].
    - unfold inPeriod in Hw. unfold getAnalytics.
      destruct startDate, endDate; simpl in *; by rewrite Hw.
    - apply Exists_exists in Hw as (d & Hd & Hh).
      by apply (ForecastSpec.getAnalytics_falls_back random historicalData
                  now routeId_ startDate endDate i d). }
  rewrite E. by apply mockAnalytics_ranges.
Qed.

Lemma analytics_of_clock_hours_are_mock_witness :
  let a := (getAnalytics seed (Moment.ymd 2024 2 1) "R"
              (Some (Moment.ymd 2024 1 1)) (Some (Moment.ymd 2024 1 31))
              steady 0%nat).1 in
  routeId a = "mock-route"
  /\ (average a, peak a, low a) = (Fin 65, Fin 85, Fin 35).
Proof.
  destruct (analytics_of_clock_hours_are_mock steady seed
              (Moment.ymd 2024 2 1) "R" (Some (Moment.ymd 2024 1 1))
              (Some (Moment.ymd 2024 1 31)) 0%nat)
    as (H1 & H2 & _).
  - exact ForecastSpec.steady_unitInterval.
  - right. apply Exists_exists. exists (mkSample "R" monday 9 30 60).
    split; [vm_compute; constructor | cbn [hour]; lia].
  - split; [exact H1 | exact H2].
Defined.

(** The analytics route of the backend: a reply of the forecasting
    service is passed on unchanged and without note; when the service
    cannot be reached the answer carries the note, the requested route,
    the requested bounds of the period (30 days back to today when not
    given), the fixed utilization 65 / 85 / 35, a 7 x 24 heatmap with 7
    weekly and 24 hourly points, all within the ranges of the mock
    generators. *)
Theorem backend_analytics_fallback (random : nat -> Q)
    (upstream : option Analytics) (now : Moment.t) (routeId_ : string)
    (startDate endDate : option Moment.t) (i : nat) :
  let r := (analytics upstream now routeId_ startDate endDate random i).1 in
  unitInterval random ->
  match upstream with
  | Some data => r = (data, false)
  | None =>
      r.2 = true
      /\ routeId r.1 = routeId_
      /\ period_start r.1 = default (Moment.subtractDays 30 now) startDate
      /\ period_end r.1 = default now endDate
      /\ (average r.1, peak r.1, low r.1) = (Fin 65, Fin 85, Fin 35)
      /\ wellShaped r.1
      /\ Forall (fun row =>
                   Forall (fun p => pointWithin 0 99 10 59 p = true)
                     (row_hours row)) (heatmap r.1)
      /\ Forall (fun p => pointWithin 20 79 20 119 p = true) (weekly r.1)
      /\ Forall (fun p => pointWithin 10 89 5 34 p = true) (hourly r.1)
  end.
Proof.
  cbv zeta. intros Hr. destruct upstream as [data|]; [done|].
  pose proof (ForecastSpec.mockAnalytics_wellShaped random now i) as Hs.
  pose proof (mockAnalytics_ranges random now i Hr) as Hm.
  cbv zeta in Hm. unfold wellShaped in *.
  unfold analytics, generateMockAnalytics, bind in *.
  destruct (generateMockHeatmap random i) as [h j].
  destruct (generateMockWeeklyTrend random j) as [w k].
  destruct (generateMockHourlyTrend random k) as [ho l].
  cbn in *. destruct Hs as (? & ? & ? & ? & _).
  destruct Hm as (_ & _ & ? & ? & ?).
  repeat split; try done.
Qed.

Lemma backend_analytics_fallback_witness :
  let r := (analytics None (Moment.ymd 2024 2 1) "route-7" None None
              steady 0%nat).1 in
  r.2 = true /\ routeId r.1 = "route-7"
  /\ period_start r.1 = Moment.ymd 2024 1 2.
Proof.
  destruct (backend_analytics_fallback steady None (Moment.ymd 2024 2 1)
              "route-7" None None 0%nat ForecastSpec.steady_unitInterval)
    as (H1 & H2 & H3 & _).
  split; [exact H1|]. split; [exact H2|]. rewrite H3. reflexivity.
Defined.

(** *** The heatmap ignores the day *)

Lemma filter_redate (f : Moment.t -> Moment.t) (h : Z) (data : list Sample) :
  filter (fun d => (hour d =? h) = true) (redate f <$> data)
  = redate f <$> filter (fun d => (hour d =? h) = true) data.
Proof.
  induction data as [|d data IH]; [done|].
  rewrite fmap_cons, !filter_cons. cbn [redate hour].
  destruct (decide _); [by rewrite fmap_cons, IH | exact IH].
Qed.

Lemma sumOf_redate (f : Moment.t -> Moment.t) (g : Sample -> Z)
    (data : list Sample) :
  (forall d, g (redate f d) = g d) ->
  sumOf g (redate f <$> data) = sumOf g data.
Proof.
  intros Hg. induction data as [|d data IH]; [done|].
  by rewrite fmap_cons, !ForecastSpec.sumOf_cons, IH, Hg.
Qed.

Lemma cellOf_redate (f : Moment.t -> Moment.t) (key : Z)
    (data : list Sample) :
  cellOf key (redate f <$> data) = cellOf key data.
Proof.
  destruct data as [|d data]; [done|].
  unfold cellOf, mean. rewrite !length_fmap.
  rewrite !sumOf_redate by done. reflexivity.
Qed.

(** The heatmap does not look at the dates of the samples: its seven
    rows, named monday to sunday, all hold the same 24 cells (those of
    the hourly averages over every day), and moving the samples to other
    dates leaves it unchanged. *)
Theorem heatmap_ignores_the_day (data : list Sample)
    (f : Moment.t -> Moment.t) :
  row_day <$> generateHeatmapData data = dayNames
  /\ (forall r1 r2,
        r1 ∈ generateHeatmapData data -> r2 ∈ generateHeatmapData data ->
        row_hours r1 = row_hours r2)
  /\ generateHeatmapData (redate f <$> data) = generateHeatmapData data.
Proof.
  split; [done|]. split.
  - unfold generateHeatmapData. intros r1 r2 H1 H2.
    apply list_elem_of_fmap in H1 as (d1 & -> & _).
    apply list_elem_of_fmap in H2 as (d2 & -> & _). reflexivity.
  - unfold generateHeatmapData. apply list_fmap_ext. intros _ day_ _.
    f_equal. apply list_fmap_ext. intros _ h _.
    by rewrite filter_redate, cellOf_redate.
Qed.

(** *** The synthetic history *)

Lemma mapM_fmap {A B C : Type} (g : B -> C) (h : A -> C) (f : A -> M B)
    (random : nat -> Q) (l : list A) :
  (forall a i, g (f a random i).1 = h a) ->
  forall i, g <$> (mapM f l random i).1 = h <$> l.
Proof.
  intros Hf. induction l as [|a l IH]; intros i; [done|].
  cbn [mapM]. unfold bind, ret. pose proof (Hf a i) as Ha.
  destruct (f a random i) as [b j].
  specialize (IH j). destruct (mapM f l random j) as [bs k].
  cbn [fst] in *. by rewrite !fmap_cons, Ha, IH.
Qed.

Lemma fmap_concat {A B : Type} (f : A -> B) (ls : list (list A)) :
  f <$> concat ls = concat (fmap (M:=list) f <$> ls).
Proof.
  induction ls as [|l ls IH]; [done|].
  cbn [concat]. by rewrite fmap_app, IH.
Qed.

Lemma mockDay_slots (random : nat -> Q) (date_ : Moment.t) (i : nat) :
  slotOf <$> concat
    (mapM (fun route_ => mapM (mockSample date_ route_) mockHours)
       mockRoutes random i).1
  = mockSlotsOfDay date_.
Proof.
  rewrite fmap_concat. unfold mockSlotsOfDay.
  rewrite (mapM_fmap (fmap (M:=list) slotOf)
             (fun route_ =>
                (fun hour_ => (route_, date_, hour_)) <$> mockHours));
    [done|].
  intros route_ j.
  by apply (mapM_fmap slotOf (fun hour_ => (route_, date_, hour_))).
Qed.

Lemma mockHistory_slots (random : nat -> Q) (now : Moment.t) (i : nat) :
  slotOf <$> (generateMockHistoricalData now random i).1 = mockSlots now.
Proof.
  unfold generateMockHistoricalData, bind.
  match goal with
  | |- context [mapM ?f (seq 0 30) random i] =>
      pose proof (mapM_fmap (fmap (M:=list) slotOf)
        (fun k => mockSlotsOfDay
                    (Moment.addDays (Z.of_nat k)
                       (Moment.subtractDays 30 now)))
        f random (seq 0 30)) as Hd;
      destruct (mapM f (seq 0 30) random i) as [perDay j] eqn:E
  end.
  cbn [ret fst]. rewrite fmap_concat. unfold mockSlots. f_equal.
  specialize (Hd (fun k j' => ltac:(
    cbv beta; unfold bind;
    pose proof (mockDay_slots random
                  (Moment.addDays (Z.of_nat k) (Moment.subtractDays 30 now))
                  j') as H;
    fold mockHours;
    destruct (mapM _ mockRoutes random j') as [perRoute j'']; exact H)) i).
  by rewrite E in Hd.
Qed.

Lemma mockSample_ok (random : nat -> Q) (date_ : Moment.t) (route_ : string)
    (hour_ : Z) (i : nat) :
  unitInterval random -> sampleOk (mockSample date_ route_ hour_ random i).1.
Proof.
  intros Hr. cbv [mockSample bind ret Math_random fst sampleOk].
  cbn [capacity bookings].
  destruct (Hr i) as [H1 H1']. destruct (Hr (S i)) as [H2 H2'].
  destruct (Hr (S (S i))) as [H3 H3'].
  pose proof (ForecastSpec.floor_random (random (S i)) 50 H2 H2' eq_refl)
    as Hf.
  change (inject_Z 50) with 50%Q in Hf.
  split; [lia|]. split; [lia|].
  apply Z.max_lub; [lia|]. apply Z.lt_succ_r. change (Z.succ 65) with 66.
  apply ForecastSpec.floor_upper. change (inject_Z 66) with 66%Q.
  destruct (Moment.equals _ 0 || Moment.equals _ 6);
    destruct ((7 <=? hour_) && (hour_ <=? 9) || _);
    try destruct ((10 <=? hour_) && (hour_ <=? 16));
    cbv iota; lra.
Qed.

Lemma mockHistory_ok (random : nat -> Q) (now : Moment.t) (i : nat) :
  unitInterval random ->
  Forall sampleOk (generateMockHistoricalData now random i).1.
Proof.
  intros Hr. unfold generateMockHistoricalData, bind.
  match goal with
  | |- context [mapM ?f (seq 0 30) random i] =>
      pose proof (ForecastSpec.mapM_Forall (Forall sampleOk) f random
                    (seq 0 30)) as Hd;
      destruct (mapM f (seq 0 30) random i) as [perDay j] eqn:E
  end.
  cbn [ret fst]. apply Forall_concat.
  specialize (Hd (fun k j' => ltac:(
    cbv beta; unfold bind;
    match goal with
    | |- context [mapM ?g mockRoutes random j'] =>
        pose proof (ForecastSpec.mapM_Forall (Forall sampleOk) g random
                      mockRoutes
                      (fun route_ j2 =>
                         ForecastSpec.mapM_Forall sampleOk _ random _
                           (fun hour_ j3 =>
                              mockSample_ok random _ route_ hour_ j3 Hr) j2)
                      j') as H;
        destruct (mapM g mockRoutes random j') as [perRoute j'']
    end;
    cbn [ret fst]; apply Forall_concat; exact H)) i).
  by rewrite E in Hd.
Qed.

(** Without a readable seed file the service works on a synthetic
    history. It holds one sample for each of the 30 days before today,
    each of the four mock routes and each hour from 6 to 21, in that
    order (1920 samples), with a capacity in 50..99 and between 0 and 65
    bookings. *)
Theorem synthetic_history (random : nat -> Q) (file : SeedFile)
    (now : Moment.t) (i : nat) :
  let data := (loadHistoricalData file now random i).1 in
  unitInterval random ->
  file = Absent \/ file = Unreadable ->
  slotOf <$> data = mockSlots now
  /\ length data = 1920%nat
  /\ Forall sampleOk data.
Proof.
  cbv zeta. intros Hr Hfile.
  assert (E : loadHistoricalData file now random i
              = generateMockHistoricalData now random i)
    by (by destruct Hfile as [-> | ->]).
  rewrite E. pose proof (mockHistory_slots random now i) as Hs.
  split; [exact Hs|]. split; [|by apply mockHistory_ok].
  rewrite <- (length_fmap slotOf), Hs. unfold mockSlots.
  rewrite length_concat. reflexivity.
Qed.

Lemma synthetic_history_witness :
  let data := (loadHistoricalData Absent monday steady 0%nat).1 in
  length data = 1920%nat /\ Forall sampleOk data.
Proof.
  destruct (synthetic_history steady Absent monday 0%nat
              ForecastSpec.steady_unitInterval (or_introl eq_refl))
    as (_ & Hl & Hok).
  split; [exact Hl | exact Hok].
Defined.

(** *** Predictions from the synthetic history *)

Lemma week_count (w td : Z) :
  (sum_list ((fun k => if ((w + Z.of_nat k) mod 7 =? td)%Z then 1 else 0)
             <$> seq 0 30) <= 5)%nat.
Proof.
  rewrite (list_fmap_ext _
             (fun k => if (w mod 7 + Z.of_nat k) mod 7 =? td
                       then 1%nat else 0%nat));
    [|by intros _ k _; rewrite Zplus_mod_idemp_l].
  pose proof (Z.mod_pos_bound w 7 eq_refl) as Hm.
  set (m := w mod 7) in *. clearbody m.
  destruct (decide (0 <= td < 7)) as [Htd|Htd].
  - assert (exists a b, (a < 7)%nat /\ (b < 7)%nat
                        /\ m = Z.of_nat a /\ td = Z.of_nat b)
      as (a & b & Ha & Hb & -> & ->)
      by (exists (Z.to_nat m), (Z.to_nat td); lia).
    clear Hm Htd.
    do 7 (destruct a as [|a];
          [do 7 (destruct b as [|b]; [vm_compute; lia|]); lia|]).
    lia.
  - assert (E : forall l : list nat,
              sum_list ((fun k => if (m + Z.of_nat k) mod 7 =? td
                                  then 1%nat else 0%nat) <$> l) = 0%nat).
    { induction l as [|k l IH]; [done|].
      rewrite fmap_cons. cbn [sum_list sum_list_with]. rewrite IH.
      cbv beta.
      pose proof (Z.mod_pos_bound (m + Z.of_nat k) 7 eq_refl).
      destruct (Z.eqb_spec ((m + Z.of_nat k) mod 7) td); unfold id; lia. }
    rewrite E. lia.
Qed.

Lemma filter_none {A : Type} (Q : A -> bool) (l : list A) :
  Forall (fun k => Q k = false) l -> filter (fun k => Q k = true) l = [].
Proof.
  induction 1 as [|k l Hk _ IH]; [done|].
  rewrite filter_cons. destruct (decide _) as [E|E]; [congruence | exact IH].
Qed.

Lemma filter_at_most_one {A B : Type} (f : A -> B) (c : B) (Q : A -> bool)
    (l : list A) :
  NoDup (f <$> l) -> (forall k, k ∈ l -> Q k = true -> f k = c) ->
  (length (filter (fun k => Q k = true) l) <= 1)%nat.
Proof.
  induction l as [|a l IH]; intros Hnd Hc; [simpl; lia|].
  rewrite fmap_cons in Hnd. apply NoDup_cons in Hnd as [Hn Hnd].
  rewrite filter_cons. destruct (decide (Q a = true)) as [E|E].
  - cbn [length].
    destruct (filter (fun k => Q k = true) l) as [|y ys] eqn:Ef;
      [simpl; lia|].
    assert (Hy : y ∈ filter (fun k => Q k = true) l)
      by (rewrite Ef; apply list_elem_of_here).
    apply list_elem_of_filter in Hy as [Hy Hin].
    exfalso. apply Hn. apply list_elem_of_fmap. exists y. split; [|done].
    rewrite (Hc a (list_elem_of_here _ _) E).
    symmetry. apply Hc; [by apply list_elem_of_further | done].
  - apply IH; [done|]. intros k Hk. apply Hc. by apply list_elem_of_further.
Qed.

Lemma filter_concat_bound {A I : Type} (Q : A -> bool) (g : I -> list A)
    (b : I -> nat) (l : list I) :
  (forall i, (length (filter (fun k => Q k = true) (g i)) <= b i)%nat) ->
  (length (filter (fun k => Q k = true) (concat (g <$> l)))
   <= sum_list (b <$> l))%nat.
Proof.
  intros Hb. induction l as [|i l IH]; [simpl; lia|].
  rewrite !fmap_cons. cbn [concat sum_list sum_list_with].
  rewrite filter_app, length_app.
  apply Nat.add_le_mono; [exact (Hb i) | exact IH].
Qed.

Lemma mockSlotsOfDay_date (dt : Moment.t) :
  Forall (fun k => k.1.2 = dt) (mockSlotsOfDay dt).
Proof.
  unfold mockSlotsOfDay. apply Forall_concat, Forall_fmap, Forall_forall.
  intros route_ _. apply Forall_fmap, Forall_forall. by intros hour_ _.
Qed.

Lemma mockSlotsOfDay_NoDup (dt : Moment.t) :
  NoDup ((fun k => (k.1.1, k.2)) <$> mockSlotsOfDay dt).
Proof. apply (bool_decide_unpack _). vm_compute. exact I. Qed.

Lemma day_count (route_ : string) (td h : Z) (dt : Moment.t) :
  (length (filter (fun k => slotMatches route_ (Some td) (Some h) k = true)
             (mockSlotsOfDay dt))
   <= match Moment.day dt with
      | Some dd => if (dd =? td)%Z then 1 else 0
      | None => 0
      end)%nat.
Proof.
  pose proof (mockSlotsOfDay_date dt) as Hdt.
  assert (Hoff : (forall dd, Moment.day dt = Some dd -> (dd =? td) = false) ->
                 filter (fun k => slotMatches route_ (Some td) (Some h) k
                                  = true) (mockSlotsOfDay dt) = []).
  { intros Hno. apply filter_none.
    eapply Forall_impl; [exact Hdt|]. intros k Hk. unfold slotMatches.
    rewrite Hk. destruct (Moment.day dt) as [dd|]; [|done].
    by rewrite (Hno dd eq_refl). }
  destruct (Moment.day dt) as [dd|] eqn:Ed.
  - destruct (dd =? td) eqn:E.
    + apply (filter_at_most_one (fun k => (k.1.1, k.2)) (route_, h)).
      * apply mockSlotsOfDay_NoDup.
      * intros [[r d'] hh] _ HQ. unfold slotMatches in HQ. cbn [fst snd] in *.
        destruct (Moment.day d'); [|done].
        apply andb_true_iff in HQ as [HQ1 HQ3].
        apply andb_true_iff in HQ1 as [_ HQ2].
        apply Z.eqb_eq in HQ2. apply String.eqb_eq in HQ3. congruence.
    + rewrite Hoff; [simpl; lia|]. by intros dd' [= <-].
  - rewrite Hoff; [simpl; lia|]. done.
Qed.

Lemma slots_count (now : Moment.t) (route_ : string)
    (sameDayOfWeek targetHour : option Z) :
  (length (filter (fun k => slotMatches route_ sameDayOfWeek targetHour k
                            = true) (mockSlots now)) <= 5)%nat.
Proof.
  destruct sameDayOfWeek as [td|], targetHour as [h|];
    try (rewrite filter_none; [simpl; lia|];
         apply Forall_forall; intros k _; unfold slotMatches;
         by destruct (Moment.day _)).
  unfold mockSlots.
  eapply Nat.le_trans;
    [apply (filter_concat_bound _ _
              (fun i => match Moment.day
                                (Moment.addDays (Z.of_nat i)
                                   (Moment.subtractDays 30 now)) with
                        | Some dd => if dd =? td then 1%nat else 0%nat
                        | None => 0%nat
                        end));
     intros i; apply day_count|].
  destruct now as [z|]; [|vm_compute; lia].
  cbn [Moment.day Moment.addDays Moment.subtractDays fmap option_fmap
       option_map].
  rewrite (list_fmap_ext _
             (fun k => if (z - 26 + Z.of_nat k) mod 7 =? td
                       then 1%nat else 0%nat)).
  - apply week_count.
  - intros _ k _.
    by replace (z - 30 + Z.of_nat k + 4) with (z - 26 + Z.of_nat k) by lia.
Qed.

Lemma slice_as_slots (historicalData : list Sample) (route_ : string)
    (date_ : Moment.t) (hour_ : Value) :
  length (sameHourData historicalData route_ date_ hour_)
  = length (filter (fun k => slotMatches route_ (Moment.day date_)
                               (targetHourOf hour_) k = true)
              (slotOf <$> historicalData)).
Proof.
  unfold sameHourData.
  induction historicalData as [|d hd IH]; [done|].
  assert (Hiff : slotMatches route_ (Moment.day date_) (targetHourOf hour_)
                   (slotOf d)
                 = sameSlot (Moment.day date_) (targetHourOf hour_) d
                   && String.eqb (route d) route_).
  { unfold slotMatches, sameSlot, slotOf. cbn [fst snd].
    by destruct (Moment.day (date d)), (Moment.day date_),
         (targetHourOf hour_). }
  rewrite fmap_cons, (filter_cons _ (slotOf d)).
  rewrite (filter_cons _ d).
  destruct (decide (String.eqb (route d) route_ = true)) as [E1|E1].
  - rewrite (filter_cons _ d).
    destruct (decide (sameSlot _ _ d = true)) as [E2|E2].
    + rewrite decide_True by (by rewrite Hiff, E1, E2).
      cbn [length]. by rewrite IH.
    + rewrite decide_False; [exact IH|].
      rewrite Hiff. by destruct (sameSlot _ _ d).
  - rewrite decide_False; [exact IH|].
    rewrite Hiff. destruct (String.eqb (route d) route_); [done|].
    by rewrite andb_false_r.
Qed.

(** On the synthetic history a prediction never finds more than five
    samples for a route, weekday and hour, so the trend never enters it:
    the confidence is between 70 and 95, and it is exactly 95 whenever a
    sample matches; the predicted count is at most 75. *)
Theorem synthetic_prediction_has_no_trend (random : nat -> Q)
    (file : SeedFile) (now : Moment.t) (route_ : string) (date_ : Moment.t)
    (hour_ : Value) (i : nat) :
  let loaded := loadHistoricalData file now random i in
  let slice := sameHourData loaded.1 route_ date_ hour_ in
  let p := (getPrediction loaded.1 route_ date_ hour_ random loaded.2).1 in
  unitInterval random ->
  file = Absent \/ file = Unreadable ->
  (length slice <= 5)%nat
  /\ calculateTrend slice = 0%Q
  /\ (slice <> [] -> confidence p = 95%Q)
  /\ (70 <= confidence p)%Q /\ (confidence p <= 95)%Q
  /\ 0 <= predicted_count p <= 75.
Proof.
  cbv zeta. intros Hr Hfile.
  assert (E : loadHistoricalData file now random i
              = generateMockHistoricalData now random i)
    by (by destruct Hfile as [-> | ->]).
  rewrite E. clear E.
  pose proof (mockHistory_slots random now i) as Hs.
  pose proof (mockHistory_ok random now i Hr) as Hok.
  destruct (generateMockHistoricalData now random i) as [hd j].
  cbn [fst snd] in *.
  set (slice := sameHourData hd route_ date_ hour_).
  assert (Hlen : (length slice <= 5)%nat).
  { unfold slice. rewrite slice_as_slots, Hs. apply slots_count. }
  assert (Ht : calculateTrend slice = 0%Q)
    by (apply calculateTrend_short; lia).
  split; [exact Hlen|]. split; [exact Ht|].
  destruct (decide (slice = [])) as [Hnil|Hne].
  - assert (Em : getPrediction hd route_ date_ hour_ random j
                 = generateMockPrediction route_ date_ random j).
    { unfold getPrediction. fold (sameHourData hd route_ date_ hour_).
      fold slice. rewrite Hnil. by destruct (isEmpty _). }
    rewrite Em.
    pose proof (ForecastSpec.mock_prediction_bounds random route_ date_ j Hr)
      as (H1 & _ & _ & H3 & H4).
    cbv zeta in *. split; [done|]. split; [lra|]. split; [lra|]. lia.
  - rewrite (getPrediction_historical _ _ _ _ random j Hne).
    cbv zeta. cbn [fst confidence predicted_count]. fold slice.
    rewrite Ht. split; [done|].
    split; [by vm_compute|]. split; [by vm_compute|].
    split; [lia|].
    assert (Hb : Forall (fun d => 0 <= bookings d <= 65) slice).
    { unfold slice, sameHourData.
      do 2 apply ForecastSpec.Forall_filter_keep.
      eapply Forall_impl; [exact Hok|]. by intros d [_ ?]. }
    destruct (mean_bounds bookings 0 65 slice Hne Hb) as [_ Ha].
    pose proof (seasonal_range date_) as [_ Hs2].
    assert (Hse : (inject_Z (getSeasonalFactor date_) <= inject_Z 5)%Q)
      by (rewrite <- Zle_Qle; lia).
    change (inject_Z 5) with 5%Q in Hse.
    change (inject_Z 65) with 65%Q in Ha.
    destruct (Hr j) as [_ Hr1].
    apply Z.max_lub; [lia|]. apply Z.lt_succ_r. change (Z.succ 75) with 76.
    apply ForecastSpec.floor_upper. change (inject_Z 76) with 76%Q. lra.
Qed.

Lemma synthetic_prediction_has_no_trend_witness :
  let loaded := loadHistoricalData Unreadable monday steady 0%nat in
  let slice := sameHourData loaded.1 "City Center to IT Hub"
                 (Moment.ymd 2024 1 22) (Number 9) in
  (length slice <= 5)%nat /\ calculateTrend slice = 0%Q.
Proof.
  destruct (synthetic_prediction_has_no_trend steady Unreadable monday
              "City Center to IT Hub" (Moment.ymd 2024 1 22) (Number 9)
              0%nat ForecastSpec.steady_unitInterval
              (or_intror eq_refl))
    as (H1 & H2 & _).
  split; [exact H1 | exact H2].
Defined.

End ForecastExtra.
